(** * Workflow: session bookkeeping around a user-supplied run routine

    A shallow embedding of [libs/agno/agno/workflow/workflow.py].

    The [Workflow] object is a record, its methods are computations in a
    state-and-exception monad over the instance and the part of the world
    it talks to (the uuid supply, the Agent objects it references, the
    log and the storage backend).  JSON-like payloads (session state,
    extra data, keyword arguments, serialized records) are Python values;
    dictionaries with string keys are [gmap string value], whose equality
    is the order-insensitive equality of Python's [dict]. *)

From stdpp Require Import gmap strings list fin_maps pretty.
From Stdlib Require Import ZArith.

(** ** Python values *)

(** Floats do not occur in anything the workflow inspects and are left
    out. *)
#[warnings="-register-all"]
Inductive value : Type :=
  | VNone
  | VBool (b : bool)
  | VInt (z : Z)
  | VStr (s : string)
  | VList (l : list value)
  | VDict (d : gmap string value).

Abbreviation dict := (gmap string value).

Definition isinstance_str (v : value) : bool :=
  match v with VStr _ => true | _ => false end.

Definition isinstance_dict (v : value) : bool :=
  match v with VDict _ => true | _ => false end.

(** [len(d) > 0] *)
Definition nonempty (d : dict) : bool := negb (bool_decide (d = ∅)).

(** [type(v)] as it prints inside an f-string. *)
Definition type_repr (v : value) : string :=
  match v with
  | VNone => "<class 'NoneType'>"
  | VBool _ => "<class 'bool'>"
  | VInt _ => "<class 'int'>"
  | VStr _ => "<class 'str'>"
  | VList _ => "<class 'list'>"
  | VDict _ => "<class 'dict'>"
  end.

(** Number of constructors of a value; the measure for inductions that
    descend into nested dictionaries. *)
Fixpoint value_size (v : value) : nat :=
  match v with
  | VList l => S (foldr (λ x acc, value_size x + acc) 0 l)
  | VDict d => S (map_fold (λ _ x acc, value_size x + acc) 0 d)
  | _ => 1
  end.

(** ** agno.utils.merge_dict *)

(** Modelled from the spec: [merge_dictionaries(a, b)] of
    [agno/utils/merge_dict.py], which is not among the sources.  It
    deep-merges [b] into [a]: for every key of [b], when both sides hold a
    mapping under that key the two are merged recursively, otherwise the
    value of [b] replaces (or creates) the entry of [a].  The Python
    function updates [a] in place; here the updated [a] is returned.  The
    recursion is on the structure of [b]. *)
Fixpoint merge_into (a : dict) (b : value) {struct b} : dict :=
  match b with
  | VDict db =>
      map_fold (λ key vb acc,
        match acc !! key, vb with
        | Some (VDict da), VDict _ => <[key := VDict (merge_into da vb)]> acc
        | _, _ => <[key := vb]> acc
        end) a db
  | _ => a
  end.

Definition merge_dictionaries (a b : dict) : dict := merge_into a (VDict b).

(** What one entry of the merged dictionary holds, given the entries of
    the target [a] and of the source [b] under the same key. *)
Definition merge_entry (oa ob : option value) : option value :=
  match ob with
  | None => oa
  | Some vb =>
      match oa, vb with
      | Some (VDict da), VDict db => Some (VDict (merge_dictionaries da db))
      | _, _ => Some vb
      end
  end.

Section merge_facts.

Lemma value_size_lookup (d : dict) k v :
  d !! k = Some v → value_size v < value_size (VDict d).
Proof.
  intros Hk. cbn [value_size].
  rewrite (map_fold_delete_L _ _ k v d); [lia | | done].
  intros; lia.
Qed.

Lemma merge_dictionaries_lookup (a b : dict) k :
  merge_dictionaries a b !! k = merge_entry (a !! k) (b !! k).
Proof.
  unfold merge_dictionaries. cbn [merge_into].
  apply (map_fold_weak_ind
    (λ (r : dict) (m : dict), r !! k = merge_entry (a !! k) (m !! k))).
  - by rewrite lookup_empty.
  - intros i x m r Hi IH.
    destruct (decide (i = k)) as [->|Hne].
    + rewrite Hi in IH. cbn in IH. rewrite lookup_insert_eq. cbn.
      rewrite IH.
      destruct (a !! k) as [[]|], x; by rewrite ?lookup_insert_eq.
    + rewrite (lookup_insert_ne m) by done.
      destruct (r !! i) as [[]|], x; by rewrite lookup_insert_ne.
Qed.

(** Merging a mapping into itself changes nothing. *)
Lemma merge_dictionaries_diag_aux n :
  ∀ d : dict, value_size (VDict d) ≤ n → merge_dictionaries d d = d.
Proof.
  induction n as [|n IH]; intros d Hn.
  { cbn in Hn. lia. }
  apply map_eq. intros k. rewrite merge_dictionaries_lookup.
  destruct (d !! k) as [v|] eqn:Hk; [|done].
  cbn. destruct v; try done.
  rewrite IH; [done|].
  apply value_size_lookup in Hk. lia.
Qed.

Lemma merge_dictionaries_diag (d : dict) : merge_dictionaries d d = d.
Proof. by apply (merge_dictionaries_diag_aux (value_size (VDict d))). Qed.

Lemma merge_dictionaries_idem_aux n :
  ∀ p l : dict, value_size (VDict p) ≤ n →
    merge_dictionaries p (merge_dictionaries p l) = merge_dictionaries p l.
Proof.
  induction n as [|n IH]; intros p l Hn.
  { cbn in Hn. lia. }
  apply map_eq. intros k.
  rewrite !merge_dictionaries_lookup.
  destruct (p !! k) as [vp|] eqn:Hp, (l !! k) as [vl|] eqn:Hl; cbn.
  - destruct vp, vl; cbn; try done.
    rewrite IH; [done|]. apply value_size_lookup in Hp. lia.
  - destruct vp; cbn; try done. by rewrite merge_dictionaries_diag.
  - by destruct vl.
  - done.
Qed.

Lemma merge_dictionaries_idem (p l : dict) :
  merge_dictionaries p (merge_dictionaries p l) = merge_dictionaries p l.
Proof. by apply (merge_dictionaries_idem_aux (value_size (VDict p))). Qed.

Lemma merge_dictionaries_empty_r (a : dict) : merge_dictionaries a ∅ = a.
Proof. apply map_eq. intros k. by rewrite merge_dictionaries_lookup, lookup_empty. Qed.

Lemma nonempty_merge (a b : dict) :
  nonempty a = true → nonempty (merge_dictionaries a b) = true.
Proof.
  unfold nonempty. rewrite !negb_true_iff, !bool_decide_eq_false.
  intros Ha Hm. apply Ha. apply map_eq. intros k.
  rewrite lookup_empty.
  assert (Hk : merge_dictionaries a b !! k = None) by (by rewrite Hm, lookup_empty).
  rewrite merge_dictionaries_lookup in Hk.
  destruct (a !! k) as [va|]; [|done].
  destruct (b !! k) as [vb|]; cbn in Hk; [|done].
  by destruct va, vb.
Qed.

End merge_facts.

(** ** Collaborators

    The records the workflow exchanges with its collaborators.  Each lives
    in a module named after its Python class, so that fields keep their
    names ([RunResponse.session_id], [WorkflowSession.session_id], ...). *)

(** Python exceptions: the class name, the message that [str(e)] prints,
    and whether the class derives from [Exception]; [KeyboardInterrupt],
    [SystemExit], [GeneratorExit] and the other classes that derive from
    [BaseException] only do not, and [except Exception] lets them
    through. *)
Record exn : Type := mkExn {
  exn_type : string;
  exn_str : string;
  is_Exception : bool;
}.

(** An exception of a class that derives from [Exception], as are all
    those the workflow raises itself. *)
Definition Exn (type msg : string) : exn := mkExn type msg true.

(** Pydantic-style models: [model_validate] builds an instance from a
    plain value or raises a validation error ([None] here), [model_dump]
    serializes it back. *)
Class Model (A : Type) := {
  model_validate : value → option A;
  model_dump : A → value;
}.

Module RunResponse.
(** [agno.run.response.RunResponse]; [rest] stands for the attributes
    the workflow never touches (event, metrics, messages, ...). *)
Record t : Type := mk {
  content : value;
  run_id : option string;
  session_id : option string;
  workflow_id : option string;
  rest : value;
}.

Definition with_content (v : value) (r : t) : t :=
  mk v (run_id r) (session_id r) (workflow_id r) (rest r).

(** The three assignments [r.run_id = ..; r.session_id = ..;
    r.workflow_id = ..]. *)
Definition stamp (rid sid wid : option string) (r : t) : t :=
  mk (content r) rid sid wid (rest r).
End RunResponse.

Module WorkflowRun.
Record t : Type := mk {
  input : option dict;
  response : option RunResponse.t;
}.
End WorkflowRun.

Module WorkflowMemory.
(** The run log, oldest first. *)
Record t : Type := mk { runs : list WorkflowRun.t }.

(** [WorkflowMemory()] *)
Definition default : t := mk [].

(** Modelled from the spec: [add_run] of [agno/memory/workflow.py],
    which is not among the sources; the memory is an append-only run
    log. *)
Definition add_run (r : WorkflowRun.t) (m : t) : t := mk (runs m ++ [r]).

(** Modelled from the spec: [to_dict], the to-mapping serializer; the
    run log is stored under the key ["runs"], where
    [load_workflow_session] looks for it. *)
Definition to_dict `{Model WorkflowRun.t} (m : t) : dict :=
  {[ "runs" := VList (model_dump <$> runs m) ]}.
End WorkflowMemory.

Module WorkflowSession.
(** [agno.storage.session.workflow.WorkflowSession], the persisted
    record. *)
Record t : Type := mk {
  session_id : option string;
  workflow_id : option string;
  user_id : option string;
  memory : option dict;
  workflow_data : option dict;
  session_data : option dict;
  extra_data : option dict;
}.
End WorkflowSession.

Module Storage.
(** The storage collaborator: a backend of type [DB] that can read a
    session by id, upsert a session (returning what it stored, if
    anything) and delete by id. *)
Class Backend (DB : Type) := {
  read : DB → string → option WorkflowSession.t;
  upsert : DB → WorkflowSession.t → DB * option WorkflowSession.t;
  delete_session : DB → string → DB;
}.

(** A storage handle: the backend and its settable [mode]. *)
Record t (DB : Type) : Type := mk { mode : string; db : DB }.
Arguments mk {DB} _ _.
Arguments mode {DB} _.
Arguments db {DB} _.
End Storage.

Module Agent.
(** [agno.agent.Agent]: only the attribute the workflow assigns. *)
Record t : Type := mk { session_id : option string }.
End Agent.

(** Python objects that can sit in a class attribute or in the
    annotation of a dataclass field: a reference to an Agent object, a
    plain value (a string annotation is [PyVal (VStr _)]), a class
    object, or an instance of some other class. *)
Inductive pyobj : Type :=
  | PyAgent (ref : nat)
  | PyVal (v : value)
  | PyClass (name : string)
  | PyObject.

(** [isinstance(o, Agent)] *)
Definition isinstance_Agent (o : pyobj) : bool :=
  match o with PyAgent _ => true | _ => false end.

(** One entry of [dataclasses.fields(self)]: the field's name, its
    declared [type] and [getattr(self, name)]. *)
Record Field : Type := mkField {
  f_name : string;
  f_type : pyobj;
  f_value : pyobj;
}.

(** What the subclass routine yields: a [RunResponse] or anything
    else. *)
Inductive item : Type :=
  | ItemResponse (r : RunResponse.t)
  | ItemOther (v : value).

(** A Python iterator: the items it will produce and how it ends
    ([None]: exhausted normally, [Some e]: it raises [e]). *)
Record iterator : Type := mkIterator {
  it_items : list item;
  it_end : option exn;
}.

(** What the subclass routine hands back when it returns. *)
Inductive returned : Type :=
  | Iterator (g : iterator)
  | Response (r : RunResponse.t)
  | Other (v : value).

Inductive log_level_t : Type := LevelInfo | LevelDebug.

Module InitArgs.
(** The keyword arguments of [Workflow.__init__]. *)
Record t (DB : Type) : Type := mk {
  name : option string;
  workflow_id : option string;
  description : option string;
  user_id : option string;
  session_id : option string;
  session_name : option string;
  session_state : option dict;
  memory : option WorkflowMemory.t;
  storage : option (Storage.t DB);
  extra_data : option dict;
  debug_mode : bool;
  monitoring : bool;
  telemetry : bool;
}.
Arguments mk {DB}.
Arguments name {DB} _.
Arguments workflow_id {DB} _.
Arguments description {DB} _.
Arguments user_id {DB} _.
Arguments session_id {DB} _.
Arguments session_name {DB} _.
Arguments session_state {DB} _.
Arguments memory {DB} _.
Arguments storage {DB} _.
Arguments extra_data {DB} _.
Arguments debug_mode {DB} _.
Arguments monitoring {DB} _.
Arguments telemetry {DB} _.

(** Every argument at its default. *)
Definition default {DB : Type} : t DB :=
  mk None None None None None None None None None None false false true.
End InitArgs.

(** What the log and the storage backend see, in order. *)
Inductive event : Type :=
  | LogError (msg : string)
  | LogWarning (msg : string)
  | StorageRead (session_id : string)
  | StorageUpsert (session : WorkflowSession.t)
  | StorageDelete (session_id : string).

Definition is_upsert (ev : event) : bool :=
  match ev with StorageUpsert _ => true | _ => false end.

Definition is_storage_io (ev : event) : bool :=
  match ev with
  | StorageRead _ | StorageUpsert _ | StorageDelete _ => true
  | _ => false
  end.

(** [x or y] on optional strings: [None] and the empty string are
    falsy. *)
Definition str_or (x : option string) (y : option string) : option string :=
  match x with
  | Some s => if bool_decide (s = "") then y else Some s
  | None => y
  end.

Definition opt_to_value (x : option string) : value :=
  match x with Some s => VStr s | None => VNone end.

(** Iterating over a value in a comprehension: lists give their
    elements, strings their characters, dictionaries their keys; anything
    else is not iterable. *)
Definition py_iter (v : value) : option (list value) :=
  match v with
  | VList l => Some l
  | VStr s => Some ((λ c, VStr (String c EmptyString)) <$> String.list_ascii_of_string s)
  | VDict d => Some (VStr <$> (map_to_list d).*1)
  | _ => None
  end.

(** Outcome of a computation: a result or a raised exception. *)
Inductive outcome (A : Type) : Type :=
  | Ok (x : A)
  | Raise (e : exn).
Arguments Ok {A} _.
Arguments Raise {A} _.

(** ** The Workflow class *)

Section workflow.

Context {DB : Type} `{!Storage.Backend DB}.
Context {ImageArtifact VideoArtifact AudioArtifact : Type}.
Context `{!Model ImageArtifact, !Model VideoArtifact, !Model AudioArtifact}.
Context `{!Model WorkflowRun.t}.
(** [uuid_of n] is the string the [n]-th call of [uuid4()] returns. *)
Context (uuid_of : nat → string).

(** The only bound method ever stored in [_subclass_run]: the [run] found
    on the instance's class. *)
Inductive bound_method : Type := ClassRun.

(** The instance attributes.  [name] and [session_name] are values
    because [load_workflow_session] stores whatever the persisted mapping
    holds under those keys.  [run_is_run_workflow] tells whether the
    instance carries its own [run] attribute, which is then
    [run_workflow].  The introspection results [_run_parameters] and
    [_run_return_type] are never read back and are left out. *)
Record Workflow : Type := mkWorkflow {
  name : value;
  workflow_id : option string;
  description : option string;
  user_id : option string;
  session_id : option string;
  session_name : value;
  session_state : dict;
  memory : option WorkflowMemory.t;
  storage : option (Storage.t DB);
  extra_data : option dict;
  debug_mode : bool;
  monitoring : bool;
  telemetry : bool;
  run_id : option string;
  run_input : option dict;
  run_response : option RunResponse.t;
  images : option (list ImageArtifact);
  videos : option (list VideoArtifact);
  audio : option (list AudioArtifact);
  workflow_session : option WorkflowSession.t;
  _subclass_run : option bound_method;
  run_is_run_workflow : bool;
}.

(** Attribute assignment, one function per attribute that is ever
    assigned. *)
Definition with_name v (w : Workflow) : Workflow :=
  mkWorkflow v (workflow_id w) (description w) (user_id w) (session_id w)
    (session_name w) (session_state w) (memory w) (storage w)
    (extra_data w) (debug_mode w) (monitoring w) (telemetry w) (run_id w)
    (run_input w) (run_response w) (images w) (videos w) (audio w)
    (workflow_session w) (_subclass_run w) (run_is_run_workflow w).
Definition with_workflow_id v (w : Workflow) : Workflow :=
  mkWorkflow (name w) v (description w) (user_id w) (session_id w)
    (session_name w) (session_state w) (memory w) (storage w)
    (extra_data w) (debug_mode w) (monitoring w) (telemetry w) (run_id w)
    (run_input w) (run_response w) (images w) (videos w) (audio w)
    (workflow_session w) (_subclass_run w) (run_is_run_workflow w).
Definition with_user_id v (w : Workflow) : Workflow :=
  mkWorkflow (name w) (workflow_id w) (description w) v (session_id w)
    (session_name w) (session_state w) (memory w) (storage w)
    (extra_data w) (debug_mode w) (monitoring w) (telemetry w) (run_id w)
    (run_input w) (run_response w) (images w) (videos w) (audio w)
    (workflow_session w) (_subclass_run w) (run_is_run_workflow w).
Definition with_session_id v (w : Workflow) : Workflow :=
  mkWorkflow (name w) (workflow_id w) (description w) (user_id w) v
    (session_name w) (session_state w) (memory w) (storage w)
    (extra_data w) (debug_mode w) (monitoring w) (telemetry w) (run_id w)
    (run_input w) (run_response w) (images w) (videos w) (audio w)
    (workflow_session w) (_subclass_run w) (run_is_run_workflow w).
Definition with_session_name v (w : Workflow) : Workflow :=
  mkWorkflow (name w) (workflow_id w) (description w) (user_id w)
    (session_id w) v (session_state w) (memory w) (storage w)
    (extra_data w) (debug_mode w) (monitoring w) (telemetry w) (run_id w)
    (run_input w) (run_response w) (images w) (videos w) (audio w)
    (workflow_session w) (_subclass_run w) (run_is_run_workflow w).
Definition with_session_state v (w : Workflow) : Workflow :=
  mkWorkflow (name w) (workflow_id w) (description w) (user_id w)
    (session_id w) (session_name w) v (memory w) (storage w)
    (extra_data w) (debug_mode w) (monitoring w) (telemetry w) (run_id w)
    (run_input w) (run_response w) (images w) (videos w) (audio w)
    (workflow_session w) (_subclass_run w) (run_is_run_workflow w).
Definition with_memory v (w : Workflow) : Workflow :=
  mkWorkflow (name w) (workflow_id w) (description w) (user_id w)
    (session_id w) (session_name w) (session_state w) v (storage w)
    (extra_data w) (debug_mode w) (monitoring w) (telemetry w) (run_id w)
    (run_input w) (run_response w) (images w) (videos w) (audio w)
    (workflow_session w) (_subclass_run w) (run_is_run_workflow w).
Definition with_storage v (w : Workflow) : Workflow :=
  mkWorkflow (name w) (workflow_id w) (description w) (user_id w)
    (session_id w) (session_name w) (session_state w) (memory w) v
    (extra_data w) (debug_mode w) (monitoring w) (telemetry w) (run_id w)
    (run_input w) (run_response w) (images w) (videos w) (audio w)
    (workflow_session w) (_subclass_run w) (run_is_run_workflow w).
Definition with_extra_data v (w : Workflow) : Workflow :=
  mkWorkflow (name w) (workflow_id w) (description w) (user_id w)
    (session_id w) (session_name w) (session_state w) (memory w)
    (storage w) v (debug_mode w) (monitoring w) (telemetry w) (run_id w)
    (run_input w) (run_response w) (images w) (videos w) (audio w)
    (workflow_session w) (_subclass_run w) (run_is_run_workflow w).
Definition with_debug_mode v (w : Workflow) : Workflow :=
  mkWorkflow (name w) (workflow_id w) (description w) (user_id w)
    (session_id w) (session_name w) (session_state w) (memory w)
    (storage w) (extra_data w) v (monitoring w) (telemetry w) (run_id w)
    (run_input w) (run_response w) (images w) (videos w) (audio w)
    (workflow_session w) (_subclass_run w) (run_is_run_workflow w).
Definition with_run_id v (w : Workflow) : Workflow :=
  mkWorkflow (name w) (workflow_id w) (description w) (user_id w)
    (session_id w) (session_name w) (session_state w) (memory w)
    (storage w) (extra_data w) (debug_mode w) (monitoring w) (telemetry w) v
    (run_input w) (run_response w) (images w) (videos w) (audio w)
    (workflow_session w) (_subclass_run w) (run_is_run_workflow w).
Definition with_run_input v (w : Workflow) : Workflow :=
  mkWorkflow (name w) (workflow_id w) (description w) (user_id w)
    (session_id w) (session_name w) (session_state w) (memory w)
    (storage w) (extra_data w) (debug_mode w) (monitoring w) (telemetry w)
    (run_id w) v (run_response w) (images w) (videos w) (audio w)
    (workflow_session w) (_subclass_run w) (run_is_run_workflow w).
Definition with_run_response v (w : Workflow) : Workflow :=
  mkWorkflow (name w) (workflow_id w) (description w) (user_id w)
    (session_id w) (session_name w) (session_state w) (memory w)
    (storage w) (extra_data w) (debug_mode w) (monitoring w) (telemetry w)
    (run_id w) (run_input w) v (images w) (videos w) (audio w)
    (workflow_session w) (_subclass_run w) (run_is_run_workflow w).
Definition with_images v (w : Workflow) : Workflow :=
  mkWorkflow (name w) (workflow_id w) (description w) (user_id w)
    (session_id w) (session_name w) (session_state w) (memory w)
    (storage w) (extra_data w) (debug_mode w) (monitoring w) (telemetry w)
    (run_id w) (run_input w) (run_response w) v (videos w) (audio w)
    (workflow_session w) (_subclass_run w) (run_is_run_workflow w).
Definition with_videos v (w : Workflow) : Workflow :=
  mkWorkflow (name w) (workflow_id w) (description w) (user_id w)
    (session_id w) (session_name w) (session_state w) (memory w)
    (storage w) (extra_data w) (debug_mode w) (monitoring w) (telemetry w)
    (run_id w) (run_input w) (run_response w) (images w) v (audio w)
    (workflow_session w) (_subclass_run w) (run_is_run_workflow w).
Definition with_audio v (w : Workflow) : Workflow :=
  mkWorkflow (name w) (workflow_id w) (description w) (user_id w)
    (session_id w) (session_name w) (session_state w) (memory w)
    (storage w) (extra_data w) (debug_mode w) (monitoring w) (telemetry w)
    (run_id w) (run_input w) (run_response w) (images w) (videos w) v
    (workflow_session w) (_subclass_run w) (run_is_run_workflow w).
Definition with_workflow_session v (w : Workflow) : Workflow :=
  mkWorkflow (name w) (workflow_id w) (description w) (user_id w)
    (session_id w) (session_name w) (session_state w) (memory w)
    (storage w) (extra_data w) (debug_mode w) (monitoring w) (telemetry w)
    (run_id w) (run_input w) (run_response w) (images w) (videos w) (audio w) v
    (_subclass_run w) (run_is_run_workflow w).
Definition with_subclass_run v (w : Workflow) : Workflow :=
  mkWorkflow (name w) (workflow_id w) (description w) (user_id w)
    (session_id w) (session_name w) (session_state w) (memory w)
    (storage w) (extra_data w) (debug_mode w) (monitoring w) (telemetry w)
    (run_id w) (run_input w) (run_response w) (images w) (videos w) (audio w)
    (workflow_session w) v (run_is_run_workflow w).
Definition with_run_is_run_workflow v (w : Workflow) : Workflow :=
  mkWorkflow (name w) (workflow_id w) (description w) (user_id w)
    (session_id w) (session_name w) (session_state w) (memory w)
    (storage w) (extra_data w) (debug_mode w) (monitoring w) (telemetry w)
    (run_id w) (run_input w) (run_response w) (images w) (videos w) (audio w)
    (workflow_session w) (_subclass_run w) v.

(** The subclass: its name and description, the items of its
    [__dict__], what [dataclasses.fields] reports for an instance, and
    its [run] when it defines one.  The routine reads the instance and
    the keyword arguments and either returns or raises; what it does to
    the instance is not modelled.  [run] is a function, as a method is:
    a class that binds [run] to an object that is not one (on which
    [update_run_method], and with it the constructor, raises) has no
    [ClassDef]. *)
Record ClassDef : Type := mkClass {
  cls_name : string;
  cls_description : option string;
  cls_dict : list (string * pyobj);
  cls_fields : list Field;
  cls_run : option (Workflow → dict → outcome returned);
}.

(** The instance together with what it talks to: its class, the Agent
    objects (shared by reference), the number of [uuid4()] calls so far,
    whether [AGNO_DEBUG] is ["true"], the logger's level, and the log and
    storage calls so far, oldest first.  [log_debug] output is left
    out. *)
Record State : Type := mkState {
  self : Workflow;
  klass : ClassDef;
  agents : gmap nat Agent.t;
  uuid_next : nat;
  agno_debug : bool;
  log_level : log_level_t;
  trace : list event;
}.

Definition st_with_self v (st : State) : State :=
  mkState v (klass st) (agents st) (uuid_next st) (agno_debug st)
    (log_level st) (trace st).
Definition st_with_agents v (st : State) : State :=
  mkState (self st) (klass st) v (uuid_next st) (agno_debug st)
    (log_level st) (trace st).
Definition st_with_uuid_next v (st : State) : State :=
  mkState (self st) (klass st) (agents st) v (agno_debug st)
    (log_level st) (trace st).
Definition st_with_log_level v (st : State) : State :=
  mkState (self st) (klass st) (agents st) (uuid_next st) (agno_debug st)
    v (trace st).
Definition st_with_trace v (st : State) : State :=
  mkState (self st) (klass st) (agents st) (uuid_next st) (agno_debug st)
    (log_level st) v.

(** *** The monad of methods *)

Definition M (A : Type) : Type := State → outcome A * State.

#[global] Instance M_ret : MRet M := λ A x st, (Ok x, st).

#[global] Instance M_bind : MBind M := λ A B f m st,
  match m st with
  | (Ok x, st') => f x st'
  | (Raise e, st') => (Raise e, st')
  end.

Definition raise {A : Type} (e : exn) : M A := λ st, (Raise e, st).

(** A call that touches nothing of the state: it returns or raises. *)
Definition call {A : Type} (o : outcome A) : M A := λ st, (o, st).

(** [try: body except Exception as e: handler e]; an exception of a
    class that does not derive from [Exception] passes through. *)
Definition try_except {A : Type} (body : M A) (handler : exn → M A) : M A :=
  λ st,
    match body st with
    | (Ok x, st') => (Ok x, st')
    | (Raise e, st') =>
        if is_Exception e then handler e st' else (Raise e, st')
    end.

Definition get_self : M Workflow := λ st, (Ok (self st), st).
Definition get_class : M ClassDef := λ st, (Ok (klass st), st).
Definition modify_self (f : Workflow → Workflow) : M unit :=
  λ st, (Ok tt, st_with_self (f (self st)) st).
Definition emit (ev : event) : M unit :=
  λ st, (Ok tt, st_with_trace (trace st ++ [ev]) st).
Definition log_error (msg : string) : M unit := emit (LogError msg).
Definition log_warning (msg : string) : M unit := emit (LogWarning msg).

(** [str(uuid4())] *)
Definition uuid4 : M string :=
  λ st, (Ok (uuid_of (uuid_next st)), st_with_uuid_next (S (uuid_next st)) st).

(** [obj.session_id = sid].  Plain values carry no instance dictionary,
    so the assignment raises on them; attributes of classes and of other
    objects are not tracked. *)
Definition setattr_session_id (obj : pyobj) (sid : option string) : M unit :=
  match obj with
  | PyAgent ref => λ st, (Ok tt, st_with_agents (<[ref := Agent.mk sid]> (agents st)) st)
  | PyVal v =>
      raise (Exn "AttributeError"
               (type_repr v ++ " object has no attribute 'session_id'"))
  | PyClass _ | PyObject => mret tt
  end.

(** [for x in xs: body x] *)
Fixpoint for_each {A : Type} (xs : list A) (body : A → M unit) : M unit :=
  match xs with
  | [] => mret tt
  | x :: rest => body x;; for_each rest body
  end.

(** A list comprehension over models: all entries validate or the
    comprehension raises. *)
Definition validate_all {A : Type} `{!Model A} (l : list value) : M (list A) :=
  match mapM model_validate l with
  | Some xs => mret xs
  | None => raise (Exn "ValidationError" "validation error")
  end.

(** *** Methods, in the order of the source *)

(** The 19 dataclass fields that [Workflow] itself declares.  The module
    postpones the evaluation of annotations, so each [type] is the
    annotation's source text; their values are never looked at by
    [update_agent_session_ids] and are not tracked. *)
Definition base_fields : list Field :=
  (λ p : string * string, mkField p.1 (PyVal (VStr p.2)) PyObject) <$>
  [ ("name", "Optional[str]"); ("workflow_id", "Optional[str]");
    ("description", "Optional[str]"); ("user_id", "Optional[str]");
    ("session_id", "Optional[str]"); ("session_name", "Optional[str]");
    ("session_state", "Dict[str, Any]");
    ("memory", "Optional[WorkflowMemory]"); ("storage", "Optional[Storage]");
    ("extra_data", "Optional[Dict[str, Any]]"); ("debug_mode", "bool");
    ("monitoring", "bool"); ("telemetry", "bool");
    ("run_id", "Optional[str]"); ("run_input", "Optional[Dict[str, Any]]");
    ("run_response", "Optional[RunResponse]");
    ("images", "Optional[List[ImageArtifact]]");
    ("videos", "Optional[List[VideoArtifact]]");
    ("audio", "Optional[List[AudioArtifact]]") ].

(** [dataclasses.fields(self)] *)
Definition fields (k : ClassDef) : list Field := base_fields ++ cls_fields k.

(** The parameters and the return type that are read off the signature
    of [run] are not kept. *)
Definition update_run_method : M unit :=
  k ← get_class;
  match cls_run k with
  | Some _ =>
      modify_self (with_subclass_run (Some ClassRun));;
      modify_self (with_run_is_run_workflow true)
  | None =>
      (* self.run is the class's run here: the instance has no run
         attribute of its own before this method sets one *)
      modify_self (with_subclass_run (Some ClassRun))
  end.

Definition __post_init__ : M unit :=
  k ← get_class;
  for_each (cls_dict k) (λ entry,
    if isinstance_Agent entry.2
    then w ← get_self; setattr_session_id entry.2 (session_id w)
    else mret tt).

Definition __init__ (args : InitArgs.t DB) : M unit :=
  k ← get_class;
  modify_self (λ _, mkWorkflow
    (opt_to_value (str_or (InitArgs.name args) (Some (cls_name k))))
    (InitArgs.workflow_id args)
    (str_or (InitArgs.description args) (cls_description k))
    (InitArgs.user_id args)
    (InitArgs.session_id args)
    (opt_to_value (InitArgs.session_name args))
    (default ∅ (InitArgs.session_state args))
    (InitArgs.memory args)
    (InitArgs.storage args)
    (InitArgs.extra_data args)
    (InitArgs.debug_mode args)
    (InitArgs.monitoring args)
    (InitArgs.telemetry args)
    None None None None None None
    None
    None false);;
  update_run_method;;
  __post_init__.

(** [Workflow.run], the method a subclass is expected to override. *)
Definition Workflow_run (kwargs : dict) : M value :=
  k ← get_class;
  log_error (cls_name k ++ ".run() method not implemented.");;
  mret VNone.

Definition set_storage_mode : M unit :=
  w ← get_self;
  match storage w with
  | Some s =>
      (if bool_decide (Storage.mode s ∈ ["agent"; "team"])
       then log_warning
              ("You shouldn't use storage in multiple modes. Current mode is "
               ++ Storage.mode s ++ ".")
       else mret tt);;
      modify_self (with_storage (Some (Storage.mk "workflow" (Storage.db s))))
  | None => mret tt
  end.

Definition set_workflow_id : M string :=
  w ← get_self;
  match workflow_id w with
  | None =>
      u ← uuid4;
      modify_self (with_workflow_id (Some u));;
      mret u
  | Some i => mret i
  end.

Definition set_session_id : M string :=
  w ← get_self;
  match session_id w with
  | None =>
      u ← uuid4;
      modify_self (with_session_id (Some u));;
      mret u
  | Some i => mret i
  end.

Definition set_debug : M unit :=
  λ st,
    if debug_mode (self st) || agno_debug st
    then (Ok tt, st_with_log_level LevelDebug
                   (st_with_self (with_debug_mode true (self st)) st))
    else (Ok tt, st_with_log_level LevelInfo st).

Definition initialize_memory : M unit :=
  w ← get_self;
  match memory w with
  | None => modify_self (with_memory (Some WorkflowMemory.default))
  | Some _ => mret tt
  end.

Definition update_agent_session_ids : M unit :=
  k ← get_class;
  for_each (fields k) (λ f,
    if isinstance_Agent (f_type f)
    then w ← get_self; setattr_session_id (f_value f) (session_id w)
    else mret tt).

Definition get_workflow_data (w : Workflow) : dict :=
  let d0 : dict := ∅ in
  let d1 := match name w with VNone => d0 | n => <["name" := n]> d0 end in
  let d2 := match workflow_id w with
            | Some i => <["workflow_id" := VStr i]> d1 | None => d1 end in
  match description w with
  | Some d => <["description" := VStr d]> d2 | None => d2 end.

(** [nested_model_dump] leaves plain values as they are. *)
Definition get_session_data (w : Workflow) : dict :=
  let d0 : dict := ∅ in
  let d1 := match session_name w with
            | VNone => d0 | n => <["session_name" := n]> d0 end in
  let d2 := if nonempty (session_state w)
            then <["session_state" := VDict (session_state w)]> d1 else d1 in
  let d3 := match images w with
            | Some l => <["images" := VList (model_dump <$> l)]> d2
            | None => d2 end in
  let d4 := match videos w with
            | Some l => <["videos" := VList (model_dump <$> l)]> d3
            | None => d3 end in
  match audio w with
  | Some l => <["audio" := VList (model_dump <$> l)]> d4
  | None => d4 end.

Definition get_workflow_session (w : Workflow) : WorkflowSession.t :=
  WorkflowSession.mk
    (session_id w) (workflow_id w) (user_id w)
    (WorkflowMemory.to_dict <$> memory w)
    (Some (get_workflow_data w))
    (Some (get_session_data w))
    (extra_data w).

(** The persisted session state when it is one the merge acts on: a
    non-empty mapping under the key ["session_state"]. *)
Definition session_state_from_db (session : WorkflowSession.t) : option dict :=
  match WorkflowSession.session_data session with
  | Some sd =>
      match sd !! "session_state" with
      | Some (VDict d) => if nonempty d then Some d else None
      | _ => None
      end
  | None => None
  end.

(** [xs.extend([A.model_validate(x) for x in from_db])] on an optional
    list, creating the list first when there is none. *)
Definition extend_artifacts {A : Type} `{!Model A}
    (current : Workflow → option (list A))
    (assign : option (list A) → Workflow → Workflow)
    (from_db : list value) : M unit :=
  w ← get_self;
  (match current w with
   | None => modify_self (assign (Some []))
   | Some _ => mret tt
   end);;
  new ← validate_all from_db;
  modify_self (λ w, assign (Some (default [] (current w) ++ new)) w).

(** [WorkflowRun] built from the keywords of [m], which has to be a
    mapping. *)
Definition WorkflowRun_of (m : value) : option WorkflowRun.t :=
  match m with
  | VDict _ => model_validate m
  | _ => None
  end.

(** The record given to [load_workflow_session] is taken by value.  In
    Python the two merges update the mappings of the record itself, which
    the instance then shares, so that the cached record carries the
    merged session state and extra data after a read; here the cached
    record stays as it was read.  No method reads these two entries of
    the cached record back.  The warning about runs that fail to load
    ends with the text of the exception, which is left out. *)
Definition load_workflow_session (session : WorkflowSession.t) : M unit :=
  (* workflow_id, user_id and session_id, when not set *)
  modify_self (λ w,
    match workflow_id w, WorkflowSession.workflow_id session with
    | None, Some i => with_workflow_id (Some i) w
    | _, _ => w
    end);;
  modify_self (λ w,
    match user_id w, WorkflowSession.user_id session with
    | None, Some i => with_user_id (Some i) w
    | _, _ => w
    end);;
  modify_self (λ w,
    match session_id w, WorkflowSession.session_id session with
    | None, Some i => with_session_id (Some i) w
    | _, _ => w
    end);;
  (* workflow_data *)
  (match WorkflowSession.workflow_data session with
   | Some wd =>
       modify_self (λ w,
         match name w, wd !! "name" with
         | VNone, Some n => with_name n w
         | _, _ => w
         end)
   | None => mret tt
   end);;
  (* session_data *)
  (match WorkflowSession.session_data session with
   | Some sd =>
       modify_self (λ w,
         match session_name w, sd !! "session_name" with
         | VNone, Some n => with_session_name n w
         | _, _ => w
         end);;
       (match session_state_from_db session with
        | Some from_db =>
            modify_self (λ w,
              if nonempty (session_state w)
              then with_session_state
                     (merge_dictionaries from_db (session_state w)) w
              else with_session_state from_db w)
        | None => mret tt
        end);;
       (match sd !! "images" with
        | Some (VList l) => extend_artifacts images with_images l
        | _ => mret tt
        end);;
       (match sd !! "videos" with
        | Some (VList l) => extend_artifacts videos with_videos l
        | _ => mret tt
        end);;
       (match sd !! "audio" with
        | Some (VList l) => extend_artifacts audio with_audio l
        | _ => mret tt
        end)
   | None => mret tt
   end);;
  (* extra_data *)
  (match WorkflowSession.extra_data session with
   | Some from_db =>
       modify_self (λ w,
         match extra_data w with
         | Some mine => with_extra_data (Some (merge_dictionaries from_db mine)) w
         | None => with_extra_data (Some from_db) w
         end)
   | None => mret tt
   end);;
  (* memory *)
  match WorkflowSession.memory session with
  | Some m =>
      initialize_memory;;
      match m !! "runs" with
      | Some rs =>
          match py_iter rs ≫= mapM WorkflowRun_of with
          | Some runs => modify_self (with_memory (Some (WorkflowMemory.mk runs)))
          | None => log_warning "Failed to load runs from memory"
          end
      | None => mret tt
      end
  | None => mret tt
  end.

Definition read_from_storage : M (option WorkflowSession.t) :=
  w ← get_self;
  (match storage w, session_id w with
   | Some s, Some sid =>
       emit (StorageRead sid);;
       modify_self (with_workflow_session (Storage.read (Storage.db s) sid));;
       match Storage.read (Storage.db s) sid with
       | Some session => load_workflow_session session
       | None => mret tt
       end
   | _, _ => mret tt
   end);;
  w ← get_self;
  mret (workflow_session w).

Definition write_to_storage : M (option WorkflowSession.t) :=
  w ← get_self;
  (match storage w with
   | Some s =>
       let session := get_workflow_session w in
       emit (StorageUpsert session);;
       modify_self (with_storage
         (Some (Storage.mk (Storage.mode s)
                  (Storage.upsert (Storage.db s) session).1)));;
       modify_self (with_workflow_session
         (Storage.upsert (Storage.db s) session).2)
   | None => mret tt
   end);;
  w ← get_self;
  mret (workflow_session w).

(** The test that opens [load_session]: a record is cached, [force] is
    off, and the record's [session_id] is the instance's. *)
Definition session_is_cached (force : bool) (w : Workflow) : bool :=
  match workflow_session w, session_id w with
  | Some ws, Some sid =>
      negb force && bool_decide (WorkflowSession.session_id ws = Some sid)
  | _, _ => false
  end.

Definition load_session (force : bool) : M (option string) :=
  w ← get_self;
  if session_is_cached force w
  then mret (workflow_session w ≫= WorkflowSession.session_id)
  else
    (match storage w with
     | Some _ =>
         read_from_storage;;
         w ← get_self;
         match workflow_session w with
         | None =>
             write_to_storage;;
             w ← get_self;
             match workflow_session w with
             | None =>
                 raise (Exn "Exception"
                          "Failed to create new WorkflowSession in storage")
             | Some _ => mret tt
             end
         | Some _ => mret tt
         end
     | None => mret tt
     end);;
    w ← get_self;
    mret (session_id w).

Definition new_session : M unit :=
  modify_self (with_workflow_session None);;
  u ← uuid4;
  modify_self (with_session_id (Some u));;
  load_session true;;
  mret tt.

Definition rename (new_name : string) : M unit :=
  read_from_storage;;
  modify_self (with_name (VStr new_name));;
  write_to_storage;;
  mret tt.

Definition rename_session (new_name : string) : M unit :=
  read_from_storage;;
  modify_self (with_session_name (VStr new_name));;
  write_to_storage;;
  mret tt.

Definition delete_session (sid : string) : M unit :=
  w ← get_self;
  match storage w with
  | None => mret tt
  | Some s =>
      emit (StorageDelete sid);;
      modify_self (with_storage
        (Some (Storage.mk (Storage.mode s)
                 (Storage.delete_session (Storage.db s) sid))))
  end.

(** *** run_workflow *)

(** The generator object that [run_workflow] returns for a streaming
    routine: what is left of the routine's iterator, and whether the
    generator has finished.  It holds no copy of the instance: every step
    reads [self] as it is then. *)
Record result_generator : Type := mkGenerator {
  rg_source : iterator;
  rg_closed : bool;
}.

(** What the entry point returns: the wrapping generator, the stamped
    response, [None], or, when the instance's [run] was never replaced,
    whatever the class's own [run] returned. *)
Inductive run_result : Type :=
  | ResGenerator (g : result_generator)
  | ResResponse (r : RunResponse.t)
  | ResNone
  | ResRaw (r : returned).

(** Calling [self._subclass_run] with the keyword arguments. *)
Definition call_subclass_run (kwargs : dict) : M returned :=
  w ← get_self;
  k ← get_class;
  match _subclass_run w with
  | None => raise (Exn "TypeError" "'NoneType' object is not callable")
  | Some ClassRun =>
      match cls_run k with
      | Some f => call (f w kwargs)
      | None => v ← Workflow_run kwargs; mret (Other v)
      end
  end.

(** [self.run_response.content += s] *)
Definition append_content (s : string) : M unit :=
  w ← get_self;
  match run_response w with
  | Some rr =>
      match RunResponse.content rr with
      | VStr acc =>
          modify_self (with_run_response
            (Some (RunResponse.with_content (VStr (acc ++ s)) rr)))
      | VList l =>
          modify_self (with_run_response
            (Some (RunResponse.with_content
                     (VList (l ++ default [] (py_iter (VStr s)))) rr)))
      | v =>
          raise (Exn "TypeError"
                   ("unsupported operand type(s) for +=: " ++ type_repr v
                    ++ " and 'str'"))
      end
  | None =>
      raise (Exn "AttributeError" "'NoneType' object has no attribute 'content'")
  end.

(** [self.memory.add_run(WorkflowRun(input=self.run_input,
    response=self.run_response))] *)
Definition add_run_to_memory : M unit :=
  w ← get_self;
  match memory w with
  | Some m =>
      modify_self (with_memory (Some
        (WorkflowMemory.add_run
           (WorkflowRun.mk (run_input w) (run_response w)) m)))
  | None =>
      raise (Exn "AttributeError" "'NoneType' object has no attribute 'add_run'")
  end.

(** The body of the loop of [result_generator], up to its [yield]. *)
Definition result_generator_step (it : item) : M item :=
  match it with
  | ItemResponse r =>
      w ← get_self;
      let r' := RunResponse.stamp (run_id w) (session_id w) (workflow_id w) r in
      (match RunResponse.content r' with
       | VStr s => append_content s
       | _ => mret tt
       end);;
      mret (ItemResponse r')
  | ItemOther v =>
      log_warning
        ("Workflow.run() should only yield RunResponse objects, got: "
         ++ type_repr v);;
      mret it
  end.

(** What [result_generator] does once the loop is over. *)
Definition result_generator_finish : M unit :=
  add_run_to_memory;;
  write_to_storage;;
  mret tt.

(** [next(g)]: [None] is [StopIteration].  A generator that raised is
    finished, and is not handed back. *)
Definition next_item (g : result_generator) : M (option item * result_generator) :=
  if rg_closed g then mret (None, g)
  else
    match it_items (rg_source g) with
    | it :: rest =>
        it' ← result_generator_step it;
        mret (Some it', mkGenerator (mkIterator rest (it_end (rg_source g))) false)
    | [] =>
        match it_end (rg_source g) with
        | Some e => raise e
        | None =>
            result_generator_finish;;
            mret (None, mkGenerator (mkIterator [] None) true)
        end
    end.

(** Running the generator's loop over what is left of the source. *)
Fixpoint exhaust_items (items : list item) (fin : option exn) : M (list item) :=
  match items with
  | it :: rest =>
      it' ← result_generator_step it;
      rest' ← exhaust_items rest fin;
      mret (it' :: rest')
  | [] =>
      match fin with
      | Some e => raise e
      | None => result_generator_finish;; mret []
      end
  end.

(** [list(g)]: consuming the generator to its end. *)
Definition exhaust (g : result_generator) : M (list item) :=
  if rg_closed g then mret []
  else exhaust_items (it_items (rg_source g)) (it_end (rg_source g)).

(** The first statements of [run_workflow]: the instance's settings and
    identifiers, then the run's identifier, input and empty response. *)
Definition begin_run (kwargs : dict) : M unit :=
  set_storage_mode;;
  set_debug;;
  set_workflow_id;;
  set_session_id;;
  initialize_memory;;
  rid ← uuid4;
  modify_self (with_run_id (Some rid));;
  modify_self (with_run_input (Some kwargs));;
  modify_self (λ w, with_run_response
    (Some (RunResponse.mk VNone (run_id w) (session_id w) (workflow_id w) VNone)) w).

(** Everything [run_workflow] does before it calls the routine. *)
Definition prepare_run (kwargs : dict) : M unit :=
  begin_run kwargs;;
  read_from_storage;;
  update_agent_session_ids.

(** [self.run_response.content = v] *)
Definition set_run_response_content (v : value) : M unit :=
  w ← get_self;
  match run_response w with
  | Some rr =>
      modify_self (with_run_response (Some (RunResponse.with_content v rr)))
  | None =>
      raise (Exn "AttributeError" "'NoneType' object has no attribute 'content'")
  end.

(** What [run_workflow] does with what the routine returned: the three
    branches on the type of [result]. *)
Definition handle_result (result : returned) : M run_result :=
  match result with
  | Iterator source =>
      set_run_response_content (VStr "");;
      mret (ResGenerator (mkGenerator source false))
  | Response r =>
      w ← get_self;
      let r' := RunResponse.stamp (run_id w) (session_id w) (workflow_id w) r in
      (match RunResponse.content r' with
       | VStr _ => set_run_response_content (RunResponse.content r')
       | _ => mret tt
       end);;
      add_run_to_memory;;
      write_to_storage;;
      mret (ResResponse r')
  | Other v =>
      log_warning
        ("Workflow.run() should only return RunResponse objects, got: "
         ++ type_repr v);;
      mret ResNone
  end.

Definition run_workflow (kwargs : dict) : M run_result :=
  prepare_run kwargs;;
  result ← try_except (call_subclass_run kwargs)
              (λ e, log_error ("Workflow.run() failed: " ++ exn_str e);;
                    raise e);
  handle_result result.

(** [self.run], the public entry point: the instance's own
    [run] attribute when [update_run_method] has set it, else the [run]
    of the class. *)
Definition run (kwargs : dict) : M run_result :=
  w ← get_self;
  k ← get_class;
  if run_is_run_workflow w then run_workflow kwargs
  else
    match cls_run k with
    | None => Workflow_run kwargs;; mret ResNone
    | Some f => r ← call (f w kwargs); mret (ResRaw r)
    end.

(** A new instance of class [k], built in an environment with the given
    Agent objects, uuid counter and [AGNO_DEBUG] setting: the state
    after [__init__]. *)
Definition unset : Workflow :=
  mkWorkflow VNone None None None None VNone ∅ None None None false false
    true None None None None None None None None false.

Definition new (k : ClassDef) (args : InitArgs.t DB)
    (ags : gmap nat Agent.t) (n : nat) (dbg : bool) : State :=
  (__init__ args (mkState unset k ags n dbg LevelInfo [])).2.

(** ** Callers *)

(** [n] calls of [next] on a generator, stopping at [StopIteration]. *)
Fixpoint advance (n : nat) (g : result_generator) : M (list item) :=
  match n with
  | 0 => mret []
  | S n' =>
      r ← next_item g;
      match r.1 with
      | Some it => rest ← advance n' r.2; mret (it :: rest)
      | None => mret []
      end
  end.

(** One use of the entry point by a caller: the call, then [pulls] calls
    of [next] when a generator came back. *)
Definition invoke (kwargs : dict) (pulls : nat) : M unit :=
  r ← run kwargs;
  match r with
  | ResGenerator g => advance pulls g;; mret tt
  | _ => mret tt
  end.

(** The instance after a caller's successive uses of the entry point,
    each carried on from wherever the previous one left the instance,
    whether it returned or raised. *)
Definition invoke_all (calls : list (dict * nat)) (st : State) : State :=
  foldl (λ st c, (invoke c.1 c.2 st).2) st calls.

(** ** Reasoning about methods *)

Lemma bind_ok {A B : Type} (m : M A) (f : A → M B) st x st' :
  m st = (Ok x, st') → (m ≫= f) st = f x st'.
Proof. unfold mbind, M_bind. by intros ->. Qed.

Lemma bind_raise {A B : Type} (m : M A) (f : A → M B) st e st' :
  m st = (Raise e, st') → (m ≫= f) st = (Raise e, st').
Proof. unfold mbind, M_bind. by intros ->. Qed.

Lemma bind_inv_ok {A B : Type} (m : M A) (f : A → M B) st y st2 :
  (m ≫= f) st = (Ok y, st2) →
  ∃ x st1, m st = (Ok x, st1) ∧ f x st1 = (Ok y, st2).
Proof.
  unfold mbind, M_bind. destruct (m st) as [[x|e] st1]; [eauto|done].
Qed.

Lemma bind_inv_raise {A B : Type} (m : M A) (f : A → M B) st e st2 :
  (m ≫= f) st = (Raise e, st2) →
  m st = (Raise e, st2) ∨ ∃ x st1, m st = (Ok x, st1) ∧ f x st1 = (Raise e, st2).
Proof.
  unfold mbind, M_bind. destruct (m st) as [[x|e'] st1]; [eauto|].
  intros [= -> ->]. by left.
Qed.

(** A method respects a relation on states when the state it leaves is
    related to the one it started from, whether it returns or raises. *)
Definition respects (R : relation State) {A : Type} (m : M A) : Prop :=
  ∀ st, R st (m st).2.

Section respects.
Context (R : relation State) `{!PreOrder R}.

Lemma respects_bind {A B : Type} (m : M A) (f : A → M B) :
  respects R m → (∀ x, respects R (f x)) → respects R (m ≫= f).
Proof.
  intros Hm Hf st. unfold mbind, M_bind.
  specialize (Hm st). destruct (m st) as [[x|e] st1]; cbn in *; [|done].
  by etrans; [|apply Hf].
Qed.

Lemma respects_ret {A : Type} (x : A) : respects R (mret x).
Proof. by intros st. Qed.

Lemma respects_raise {A : Type} (e : exn) : respects R (raise (A:=A) e).
Proof. by intros st. Qed.

Lemma respects_call {A : Type} (o : outcome A) : respects R (call o).
Proof. by intros st. Qed.

Lemma respects_get_self : respects R get_self.
Proof. by intros st. Qed.

Lemma respects_get_class : respects R get_class.
Proof. by intros st. Qed.

Lemma respects_try_except {A : Type} (m : M A) h :
  respects R m → (∀ e, respects R (h e)) → respects R (try_except m h).
Proof.
  intros Hm Hh st. unfold try_except.
  specialize (Hm st). destruct (m st) as [[x|e] st1]; cbn in *; [done|].
  destruct (is_Exception e); [|done]. by etrans; [|apply Hh].
Qed.

Lemma respects_for_each {A : Type} (xs : list A) body :
  (∀ x, respects R (body x)) → respects R (for_each xs body).
Proof.
  intros Hb. induction xs as [|x xs IH]; cbn [for_each].
  - apply respects_ret.
  - apply respects_bind; [apply Hb | by intros _].
Qed.

Lemma respects_validate_all {A : Type} `{!Model A} l :
  respects R (validate_all (A:=A) l).
Proof.
  unfold validate_all. destruct (mapM _ _); [apply respects_ret | apply respects_raise].
Qed.

End respects.

(** Walks through a method, leaving the goals about its assignments. *)
Ltac respects_step :=
  lazymatch goal with
  | |- respects _ (mret _) => apply respects_ret; tc_solve
  | |- respects _ (raise _) => apply respects_raise; tc_solve
  | |- respects _ (call _) => apply respects_call; tc_solve
  | |- respects _ get_self => apply respects_get_self; tc_solve
  | |- respects _ get_class => apply respects_get_class; tc_solve
  | |- respects _ (validate_all _) => apply respects_validate_all; tc_solve
  | |- respects _ (mbind _ _) => apply respects_bind; [tc_solve | | intros ?]
  | |- respects _ (try_except _ _) =>
      apply respects_try_except; [tc_solve | | intros ?]
  | |- respects _ (for_each _ _) =>
      apply respects_for_each; [tc_solve | intros ?]
  | |- respects _ (match ?x with _ => _ end) => destruct x
  | |- respects _ (let _ := _ in _) => cbv zeta
  | |- _ => solve [eauto with respects]
  end.

Ltac respects_walk := repeat respects_step.

Create HintDb respects discriminated.

(** *** What a run leaves alone *)

Definition upserts (tr : list event) : list event := filter is_upsert tr.
Definition storage_io (tr : list event) : list event := filter is_storage_io tr.

(** Holds across every method that an invocation of the entry point goes
    through: the class and the bound methods stay, the uuid counter only
    grows, and identifiers that are set keep their value. *)
Definition stable (st st' : State) : Prop :=
  klass st' = klass st ∧
  uuid_next st ≤ uuid_next st' ∧
  (∀ x, workflow_id (self st) = Some x → workflow_id (self st') = Some x) ∧
  (∀ x, session_id (self st) = Some x → session_id (self st') = Some x) ∧
  run_is_run_workflow (self st') = run_is_run_workflow (self st) ∧
  _subclass_run (self st') = _subclass_run (self st).

(** Holds across every method that runs once the run's identifier has
    been drawn. *)
Definition same_run (st st' : State) : Prop :=
  uuid_next st' = uuid_next st ∧
  run_id (self st') = run_id (self st) ∧
  run_input (self st') = run_input (self st) ∧
  (is_Some (memory (self st)) → is_Some (memory (self st'))).

(** Holds across reading the session and updating the agents: nothing is
    written and the response under construction is not touched. *)
Definition quiet (st st' : State) : Prop :=
  upserts (trace st') = upserts (trace st) ∧
  run_response (self st') = run_response (self st) ∧
  storage (self st') = storage (self st).

(** Without a storage backend there is no storage traffic and the cached
    record stays as it is. *)
Definition offline (st st' : State) : Prop :=
  storage (self st) = None →
  storage (self st') = None ∧
  workflow_session (self st') = workflow_session (self st) ∧
  storage_io (trace st') = storage_io (trace st).

#[local] Instance stable_preorder : PreOrder stable.
Proof.
  split.
  - intros st. unfold stable. naive_solver.
  - intros a b c (?&?&?&?&?&?) (?&?&?&?&?&?). unfold stable.
    repeat split; [congruence | lia | naive_solver | naive_solver
                  | congruence | congruence].
Qed.

#[local] Instance same_run_preorder : PreOrder same_run.
Proof.
  split.
  - intros st. unfold same_run. naive_solver.
  - intros a b c (?&?&?&?) (?&?&?&?). unfold same_run.
    repeat split; [congruence | congruence | congruence | naive_solver].
Qed.

#[local] Instance quiet_preorder : PreOrder quiet.
Proof.
  split.
  - intros st. unfold quiet. naive_solver.
  - intros a b c (?&?&?) (?&?&?). unfold quiet.
    repeat split; congruence.
Qed.

#[local] Instance offline_preorder : PreOrder offline.
Proof.
  split.
  - intros st. unfold offline. naive_solver.
  - intros a b c Hab Hbc Ha. unfold offline in *.
    destruct (Hab Ha) as (Hb&?&?). destruct (Hbc Hb) as (?&?&?).
    repeat split; congruence.
Qed.

Lemma upserts_app tr tr' : upserts (tr ++ tr') = upserts tr ++ upserts tr'.
Proof. apply filter_app. Qed.

Lemma storage_io_app tr tr' :
  storage_io (tr ++ tr') = storage_io tr ++ storage_io tr'.
Proof. apply filter_app. Qed.

(** Closes the goals that [respects_walk] leaves: one assignment, one
    log record or one draw from the uuid supply. *)
Ltac respects_leaf :=
  intros ?;
  cbv [modify_self emit log_warning log_error uuid4 setattr_session_id
       set_debug raise call get_self get_class mret M_ret mbind M_bind];
  repeat case_match; cbn;
  unfold stable, same_run, quiet, offline; cbn;
  rewrite ?upserts_app, ?storage_io_app; cbn;
  rewrite ?app_nil_r;
  repeat split; try done; try lia; try congruence; eauto.

Ltac respects_auto := respects_walk; respects_leaf.

Lemma stable_set_storage_mode : respects stable set_storage_mode.
Proof. unfold set_storage_mode. respects_auto. Qed.
#[local] Hint Resolve stable_set_storage_mode : respects.
Lemma stable_set_debug : respects stable set_debug.
Proof. unfold set_debug. respects_leaf. Qed.
#[local] Hint Resolve stable_set_debug : respects.
Lemma stable_set_workflow_id : respects stable set_workflow_id.
Proof. unfold set_workflow_id. respects_leaf. Qed.
#[local] Hint Resolve stable_set_workflow_id : respects.
Lemma stable_set_session_id : respects stable set_session_id.
Proof. unfold set_session_id. respects_leaf. Qed.
#[local] Hint Resolve stable_set_session_id : respects.
Lemma stable_initialize_memory : respects stable initialize_memory.
Proof. unfold initialize_memory. respects_leaf. Qed.
#[local] Hint Resolve stable_initialize_memory : respects.
Lemma same_run_initialize_memory : respects same_run initialize_memory.
Proof. unfold initialize_memory. respects_leaf. Qed.
#[local] Hint Resolve same_run_initialize_memory : respects.
Lemma quiet_initialize_memory : respects quiet initialize_memory.
Proof. unfold initialize_memory. respects_leaf. Qed.
#[local] Hint Resolve quiet_initialize_memory : respects.
Lemma offline_initialize_memory : respects offline initialize_memory.
Proof. unfold initialize_memory. respects_leaf. Qed.
#[local] Hint Resolve offline_initialize_memory : respects.
Lemma stable_Workflow_run kw : respects stable (Workflow_run kw).
Proof. unfold Workflow_run. respects_auto. Qed.
#[local] Hint Resolve stable_Workflow_run : respects.
Lemma same_run_Workflow_run kw : respects same_run (Workflow_run kw).
Proof. unfold Workflow_run. respects_auto. Qed.
#[local] Hint Resolve same_run_Workflow_run : respects.
Lemma quiet_Workflow_run kw : respects quiet (Workflow_run kw).
Proof. unfold Workflow_run. respects_auto. Qed.
#[local] Hint Resolve quiet_Workflow_run : respects.
Lemma offline_Workflow_run kw : respects offline (Workflow_run kw).
Proof. unfold Workflow_run. respects_auto. Qed.
#[local] Hint Resolve offline_Workflow_run : respects.
Lemma stable_load_workflow_session s : respects stable (load_workflow_session s).
Proof. unfold load_workflow_session, extend_artifacts. respects_auto. Qed.
#[local] Hint Resolve stable_load_workflow_session : respects.
Lemma same_run_load_workflow_session s : respects same_run (load_workflow_session s).
Proof. unfold load_workflow_session, extend_artifacts. respects_auto. Qed.
#[local] Hint Resolve same_run_load_workflow_session : respects.
Lemma quiet_load_workflow_session s : respects quiet (load_workflow_session s).
Proof. unfold load_workflow_session, extend_artifacts. respects_auto. Qed.
#[local] Hint Resolve quiet_load_workflow_session : respects.
Lemma offline_load_workflow_session s : respects offline (load_workflow_session s).
Proof. unfold load_workflow_session, extend_artifacts. respects_auto. Qed.
#[local] Hint Resolve offline_load_workflow_session : respects.
Lemma stable_read_from_storage : respects stable read_from_storage.
Proof. unfold read_from_storage. respects_auto. Qed.
#[local] Hint Resolve stable_read_from_storage : respects.
Lemma same_run_read_from_storage : respects same_run read_from_storage.
Proof. unfold read_from_storage. respects_auto. Qed.
#[local] Hint Resolve same_run_read_from_storage : respects.
Lemma quiet_read_from_storage : respects quiet read_from_storage.
Proof. unfold read_from_storage. respects_auto. Qed.
#[local] Hint Resolve quiet_read_from_storage : respects.
Lemma stable_setattr_session_id o sid : respects stable (setattr_session_id o sid).
Proof. destruct o; respects_leaf. Qed.
#[local] Hint Resolve stable_setattr_session_id : respects.
Lemma same_run_setattr_session_id o sid : respects same_run (setattr_session_id o sid).
Proof. destruct o; respects_leaf. Qed.
#[local] Hint Resolve same_run_setattr_session_id : respects.
Lemma quiet_setattr_session_id o sid : respects quiet (setattr_session_id o sid).
Proof. destruct o; respects_leaf. Qed.
#[local] Hint Resolve quiet_setattr_session_id : respects.
Lemma offline_setattr_session_id o sid : respects offline (setattr_session_id o sid).
Proof. destruct o; respects_leaf. Qed.
#[local] Hint Resolve offline_setattr_session_id : respects.
Lemma stable_update_agent_session_ids : respects stable update_agent_session_ids.
Proof. unfold update_agent_session_ids. respects_walk. Qed.
#[local] Hint Resolve stable_update_agent_session_ids : respects.
Lemma same_run_update_agent_session_ids : respects same_run update_agent_session_ids.
Proof. unfold update_agent_session_ids. respects_walk. Qed.
#[local] Hint Resolve same_run_update_agent_session_ids : respects.
Lemma quiet_update_agent_session_ids : respects quiet update_agent_session_ids.
Proof. unfold update_agent_session_ids. respects_walk. Qed.
#[local] Hint Resolve quiet_update_agent_session_ids : respects.
Lemma offline_update_agent_session_ids : respects offline update_agent_session_ids.
Proof. unfold update_agent_session_ids. respects_walk. Qed.
#[local] Hint Resolve offline_update_agent_session_ids : respects.
Lemma stable_call_subclass_run kw : respects stable (call_subclass_run kw).
Proof. unfold call_subclass_run. respects_auto. Qed.
#[local] Hint Resolve stable_call_subclass_run : respects.
Lemma same_run_call_subclass_run kw : respects same_run (call_subclass_run kw).
Proof. unfold call_subclass_run. respects_auto. Qed.
#[local] Hint Resolve same_run_call_subclass_run : respects.
Lemma quiet_call_subclass_run kw : respects quiet (call_subclass_run kw).
Proof. unfold call_subclass_run. respects_auto. Qed.
#[local] Hint Resolve quiet_call_subclass_run : respects.
Lemma offline_call_subclass_run kw : respects offline (call_subclass_run kw).
Proof. unfold call_subclass_run. respects_auto. Qed.
#[local] Hint Resolve offline_call_subclass_run : respects.
Lemma stable_set_run_response_content v : respects stable (set_run_response_content v).
Proof. unfold set_run_response_content. respects_auto. Qed.
#[local] Hint Resolve stable_set_run_response_content : respects.
Lemma same_run_set_run_response_content v : respects same_run (set_run_response_content v).
Proof. unfold set_run_response_content. respects_auto. Qed.
#[local] Hint Resolve same_run_set_run_response_content : respects.
Lemma offline_set_run_response_content v : respects offline (set_run_response_content v).
Proof. unfold set_run_response_content. respects_auto. Qed.
#[local] Hint Resolve offline_set_run_response_content : respects.
Lemma stable_append_content s : respects stable (append_content s).
Proof. unfold append_content. respects_auto. Qed.
#[local] Hint Resolve stable_append_content : respects.
Lemma same_run_append_content s : respects same_run (append_content s).
Proof. unfold append_content. respects_auto. Qed.
#[local] Hint Resolve same_run_append_content : respects.
Lemma offline_append_content s : respects offline (append_content s).
Proof. unfold append_content. respects_auto. Qed.
#[local] Hint Resolve offline_append_content : respects.
Lemma stable_add_run_to_memory : respects stable add_run_to_memory.
Proof. unfold add_run_to_memory. respects_leaf. Qed.
#[local] Hint Resolve stable_add_run_to_memory : respects.
Lemma same_run_add_run_to_memory : respects same_run add_run_to_memory.
Proof. unfold add_run_to_memory. respects_leaf. Qed.
#[local] Hint Resolve same_run_add_run_to_memory : respects.
Lemma offline_add_run_to_memory : respects offline add_run_to_memory.
Proof. unfold add_run_to_memory. respects_leaf. Qed.
#[local] Hint Resolve offline_add_run_to_memory : respects.
Lemma stable_write_to_storage : respects stable write_to_storage.
Proof. unfold write_to_storage. respects_auto. Qed.
#[local] Hint Resolve stable_write_to_storage : respects.
Lemma same_run_write_to_storage : respects same_run write_to_storage.
Proof. unfold write_to_storage. respects_auto. Qed.
#[local] Hint Resolve same_run_write_to_storage : respects.

Lemma read_from_storage_offline st :
  storage (self st) = None →
  read_from_storage st = (Ok (workflow_session (self st)), st).
Proof.
  intros Hs. unfold read_from_storage, mbind, M_bind, get_self. by rewrite Hs.
Qed.

Lemma write_to_storage_offline st :
  storage (self st) = None →
  write_to_storage st = (Ok (workflow_session (self st)), st).
Proof.
  intros Hs. unfold write_to_storage, mbind, M_bind, get_self. by rewrite Hs.
Qed.

Lemma offline_read_from_storage : respects offline read_from_storage.
Proof. intros st Hs. by rewrite read_from_storage_offline. Qed.
Lemma offline_write_to_storage : respects offline write_to_storage.
Proof. intros st Hs. by rewrite write_to_storage_offline. Qed.
#[local] Hint Resolve offline_read_from_storage offline_write_to_storage
  : respects.

Lemma stable_result_generator_step it : respects stable (result_generator_step it).
Proof. unfold result_generator_step. respects_auto. Qed.
Lemma same_run_result_generator_step it : respects same_run (result_generator_step it).
Proof. unfold result_generator_step. respects_auto. Qed.
Lemma offline_result_generator_step it : respects offline (result_generator_step it).
Proof. unfold result_generator_step. respects_auto. Qed.
Lemma stable_result_generator_finish : respects stable result_generator_finish.
Proof. unfold result_generator_finish. respects_auto. Qed.
Lemma same_run_result_generator_finish : respects same_run result_generator_finish.
Proof. unfold result_generator_finish. respects_auto. Qed.
Lemma offline_result_generator_finish : respects offline result_generator_finish.
Proof. unfold result_generator_finish. respects_auto. Qed.
#[local] Hint Resolve stable_result_generator_step same_run_result_generator_step
  offline_result_generator_step stable_result_generator_finish
  same_run_result_generator_finish offline_result_generator_finish : respects.

Lemma respects_exhaust_items (R : relation State) `{!PreOrder R} items fin :
  (∀ it, respects R (result_generator_step it)) →
  respects R result_generator_finish →
  respects R (exhaust_items items fin).
Proof.
  intros Hstep Hfin. induction items as [|it items IH]; cbn [exhaust_items].
  - destruct fin; respects_walk.
  - respects_walk.
Qed.

Lemma respects_exhaust (R : relation State) `{!PreOrder R} g :
  (∀ it, respects R (result_generator_step it)) →
  respects R result_generator_finish →
  respects R (exhaust g).
Proof.
  intros Hstep Hfin. unfold exhaust. destruct (rg_closed g).
  - by apply respects_ret.
  - by apply respects_exhaust_items.
Qed.

Lemma stable_exhaust g : respects stable (exhaust g).
Proof. apply respects_exhaust; [tc_solve | intros; eauto with respects..]. Qed.
Lemma same_run_exhaust g : respects same_run (exhaust g).
Proof. apply respects_exhaust; [tc_solve | intros; eauto with respects..]. Qed.
Lemma offline_exhaust g : respects offline (exhaust g).
Proof. apply respects_exhaust; [tc_solve | intros; eauto with respects..]. Qed.

(** *** The state in which the routine is called *)

(** The first statements of [run_workflow] always go through, and leave
    the run's identifiers, input and empty response in place. *)
Lemma begin_run_ok kwargs st :
  ∃ st0 n wid sid,
    begin_run kwargs st = (Ok tt, st0) ∧
    stable st st0 ∧ offline st st0 ∧
    uuid_next st ≤ n ∧ n < uuid_next st0 ∧
    run_id (self st0) = Some (uuid_of n) ∧
    workflow_id (self st0) = Some wid ∧
    session_id (self st0) = Some sid ∧
    run_input (self st0) = Some kwargs ∧
    run_response (self st0) =
      Some (RunResponse.mk VNone (Some (uuid_of n)) (Some sid) (Some wid) VNone) ∧
    is_Some (memory (self st0)) ∧
    upserts (trace st0) = upserts (trace st) ∧
    agents st0 = agents st.
Proof.
  unfold begin_run.
  cbv [set_storage_mode set_debug set_workflow_id set_session_id
       initialize_memory uuid4 modify_self log_warning emit get_self
       mret M_ret mbind M_bind].
  destruct st as [w k ags n dbg lvl tr]; cbn.
  destruct (storage w) as [s|] eqn:Hs; cbn;
    [destruct (bool_decide _); cbn|];
    destruct (debug_mode w || dbg); cbn;
    destruct (workflow_id w) eqn:Hw; cbn;
    destruct (session_id w) eqn:Hi; cbn;
    destruct (memory w) eqn:Hm; cbn;
    (eexists _, _, _, _; split; [reflexivity|]);
    unfold stable, offline; cbn; rewrite ?Hs, ?Hw, ?Hi, ?Hm;
    rewrite ?upserts_app, ?storage_io_app; cbn; rewrite ?app_nil_r.
  all: repeat split; try done; try lia; try congruence; eauto.
Qed.

(** The state in which the routine is called: the run has number [n],
    the instance has identifiers [wid] and [sid], an empty response and a
    memory, and nothing has been written. *)
Definition prepared (kwargs : dict) (st st1 : State)
    (n : nat) (sid wid : string) : Prop :=
  stable st st1 ∧ offline st st1 ∧
  uuid_next st ≤ n ∧ n < uuid_next st1 ∧
  run_id (self st1) = Some (uuid_of n) ∧
  workflow_id (self st1) = Some wid ∧
  session_id (self st1) = Some sid ∧
  run_input (self st1) = Some kwargs ∧
  run_response (self st1) =
    Some (RunResponse.mk VNone (Some (uuid_of n)) (Some sid) (Some wid) VNone) ∧
  is_Some (memory (self st1)) ∧
  upserts (trace st1) = upserts (trace st).

Lemma prepare_run_prepared kwargs st :
  ∃ n sid wid, prepared kwargs st (prepare_run kwargs st).2 n sid wid.
Proof.
  destruct (begin_run_ok kwargs st)
    as (st0 & n & wid & sid & Hb & Hst & Hoff & Hn1 & Hn2 & Hrid & Hwid & Hsid
        & Hin & Hrr & Hmem & Hup & _).
  unfold prepare_run. rewrite (bind_ok _ _ _ _ _ Hb).
  set (m := read_from_storage ≫= _).
  assert (H1 : respects stable m) by (unfold m; respects_walk).
  assert (H2 : respects same_run m) by (unfold m; respects_walk).
  assert (H3 : respects quiet m) by (unfold m; respects_walk).
  assert (H4 : respects offline m) by (unfold m; respects_walk).
  specialize (H1 st0). specialize (H2 st0). specialize (H3 st0).
  specialize (H4 st0).
  destruct (m st0) as [o st1]; cbn in *.
  assert (Hst1 : stable st st1) by (by etrans).
  assert (Hoff1 : offline st st1) by (by etrans).
  destruct H1 as (_ & ? & Hw & Hs & _), H2 as (? & ? & ? & ?),
    H3 as (? & ? & _).
  exists n, sid, wid. unfold prepared.
  split_and!; try done; try congruence; try lia; eauto.
Qed.

(** *** The call of the routine and what follows it *)

(** The state after the routine's exception passed the [except Exception]
    clause: [logger.error] reported it when the clause caught it. *)
Definition log_failure (e : exn) (st : State) : State :=
  if is_Exception e
  then st_with_trace
         (trace st ++ [LogError ("Workflow.run() failed: " ++ exn_str e)]) st
  else st.

Lemma run_workflow_eq kwargs st :
  run_workflow kwargs st =
    match prepare_run kwargs st with
    | (Ok _, st1) =>
        match call_subclass_run kwargs st1 with
        | (Ok result, st2) => handle_result result st2
        | (Raise e, st2) => (Raise e, log_failure e st2)
        end
    | (Raise e, st1) => (Raise e, st1)
    end.
Proof.
  unfold run_workflow, mbind, M_bind, try_except.
  destruct (prepare_run kwargs st) as [[[]|e] st1]; [|done].
  destruct (call_subclass_run kwargs st1) as [[r|e] st2]; [done|].
  unfold log_failure. by destruct (is_Exception e).
Qed.

Lemma call_subclass_run_overriding kwargs st f :
  _subclass_run (self st) = Some ClassRun →
  cls_run (klass st) = Some f →
  call_subclass_run kwargs st = (f (self st) kwargs, st).
Proof.
  intros H1 H2. cbv [call_subclass_run mbind M_bind get_self get_class call].
  by rewrite H1, H2.
Qed.

(** Calling the routine changes nothing of the instance and writes
    nothing. *)
Lemma call_subclass_run_frame kwargs st :
  self (call_subclass_run kwargs st).2 = self st ∧
  agents (call_subclass_run kwargs st).2 = agents st ∧
  uuid_next (call_subclass_run kwargs st).2 = uuid_next st ∧
  storage_io (trace (call_subclass_run kwargs st).2) = storage_io (trace st).
Proof.
  cbv [call_subclass_run Workflow_run log_error emit raise mret M_ret
       mbind M_bind get_self get_class call].
  destruct (_subclass_run (self st)) as [[]|]; [|done].
  destruct (cls_run (klass st)); [done|]. cbn.
  by rewrite storage_io_app, app_nil_r.
Qed.

Lemma set_run_response_content_ok v st rr :
  run_response (self st) = Some rr →
  set_run_response_content v st =
    (Ok tt, st_with_self
              (with_run_response (Some (RunResponse.with_content v rr)) (self st))
              st).
Proof.
  intros Hrr. cbv [set_run_response_content mbind M_bind get_self].
  by rewrite Hrr.
Qed.

Lemma add_run_to_memory_ok st m :
  memory (self st) = Some m →
  add_run_to_memory st =
    (Ok tt, st_with_self
              (with_memory (Some (WorkflowMemory.add_run
                 (WorkflowRun.mk (run_input (self st)) (run_response (self st)))
                 m)) (self st)) st).
Proof.
  intros Hm. cbv [add_run_to_memory mbind M_bind get_self].
  by rewrite Hm.
Qed.

(** The state after [write_to_storage]: with a backend, the session is
    built from the instance, handed to [upsert], and what comes back is
    cached. *)
Definition written (st : State) : State :=
  match storage (self st) with
  | Some s =>
      let session := get_workflow_session (self st) in
      let r := Storage.upsert (Storage.db s) session in
      st_with_self
        (with_workflow_session r.2
           (with_storage (Some (Storage.mk (Storage.mode s) r.1)) (self st)))
        (st_with_trace (trace st ++ [StorageUpsert session]) st)
  | None => st
  end.

Lemma write_to_storage_eq st :
  write_to_storage st = (Ok (workflow_session (self (written st))), written st).
Proof.
  cbv [write_to_storage written mbind M_bind get_self emit modify_self
       mret M_ret].
  by destruct (storage (self st)).
Qed.

Lemma written_upserts st :
  upserts (trace (written st)) =
    upserts (trace st) ++
    match storage (self st) with
    | Some _ => [StorageUpsert (get_workflow_session (self st))]
    | None => []
    end.
Proof.
  unfold written. destruct (storage (self st)); cbn.
  - by rewrite upserts_app.
  - by rewrite app_nil_r.
Qed.

Lemma written_frame st :
  memory (self (written st)) = memory (self st) ∧
  run_response (self (written st)) = run_response (self st) ∧
  run_id (self (written st)) = run_id (self st) ∧
  session_id (self (written st)) = session_id (self st) ∧
  workflow_id (self (written st)) = workflow_id (self st) ∧
  session_state (self (written st)) = session_state (self st) ∧
  agents (written st) = agents st ∧
  uuid_next (written st) = uuid_next st.
Proof. unfold written. by destruct (storage (self st)). Qed.

(** The state after the run was added to memory and written. *)
Definition recorded (st : State) : State :=
  written
    (st_with_self
       (with_memory
          (WorkflowMemory.add_run
             (WorkflowRun.mk (run_input (self st)) (run_response (self st)))
           <$> memory (self st))
          (self st)) st).

Lemma result_generator_finish_ok st :
  is_Some (memory (self st)) →
  result_generator_finish st = (Ok tt, recorded st).
Proof.
  intros [m Hm]. unfold result_generator_finish.
  rewrite (bind_ok _ _ _ _ _ (add_run_to_memory_ok _ _ Hm)).
  rewrite (bind_ok _ _ _ _ _ (write_to_storage_eq _)).
  unfold recorded. by rewrite Hm.
Qed.

(** *** Consuming the generator *)

Lemma append_empty_r (s : string) : (s ++ "")%string = s.
Proof.
  induction s as [|c s IH]; [done|].
  change (String c (s ++ "") = String c s). by rewrite IH.
Qed.

Lemma append_assoc (s1 s2 s3 : string) :
  ((s1 ++ s2) ++ s3)%string = (s1 ++ (s2 ++ s3))%string.
Proof.
  induction s1 as [|c s1 IH]; [done|].
  change (String c ((s1 ++ s2) ++ s3) = String c (s1 ++ (s2 ++ s3))).
  by rewrite IH.
Qed.

(** What the generator hands on for an item of the routine: a
    [RunResponse] carries the run's identifiers, anything else is passed
    on as it is. *)
Definition stamp_item (w : Workflow) (it : item) : item :=
  match it with
  | ItemResponse r =>
      ItemResponse
        (RunResponse.mk (RunResponse.content r) (run_id w) (session_id w)
           (workflow_id w) (RunResponse.rest r))
  | ItemOther v => ItemOther v
  end.

(** The text an item contributes to the response under construction. *)
Definition item_text (it : item) : string :=
  match it with
  | ItemResponse r =>
      match RunResponse.content r with VStr s => s | _ => "" end
  | ItemOther _ => ""
  end.

(** The contributions of the items, in order. *)
Definition texts (items : list item) : string :=
  foldr (λ it s, (item_text it ++ s)%string) "" items.

(** Holds across the loop of the generator: only the response under
    construction and the log change. *)
Definition streaming (st st' : State) : Prop :=
  klass st' = klass st ∧ agents st' = agents st ∧
  uuid_next st' = uuid_next st ∧
  storage_io (trace st') = storage_io (trace st) ∧
  upserts (trace st') = upserts (trace st) ∧
  self st' = with_run_response (run_response (self st')) (self st).

#[local] Instance streaming_preorder : PreOrder streaming.
Proof.
  split.
  - intros st. unfold streaming. split_and!; try done. by destruct (self st).
  - intros st1 st2 st3 (?&?&?&?&?&H12) (?&?&?&?&?&H23).
    unfold streaming. split_and!; try congruence.
    rewrite H23 at 1. by rewrite H12.
Qed.

Lemma streaming_stamp_item st st' it :
  streaming st st' → stamp_item (self st') it = stamp_item (self st) it.
Proof. intros (_&_&_&_&_&->). by destruct it. Qed.

Lemma result_generator_step_ok it st rr acc :
  run_response (self st) = Some rr →
  RunResponse.content rr = VStr acc →
  ∃ st', result_generator_step it st = (Ok (stamp_item (self st) it), st') ∧
    streaming st st' ∧
    run_response (self st') =
      Some (RunResponse.with_content (VStr (acc ++ item_text it)) rr).
Proof.
  intros Hrr Hacc. destruct it as [r|v]; cbn [stamp_item item_text].
  - cbv [result_generator_step append_content modify_self mbind M_bind
         get_self mret M_ret RunResponse.stamp]. cbn.
    destruct (RunResponse.content r) eqn:Hc; rewrite ?Hrr, ?Hacc;
      (eexists; split; [reflexivity|]); unfold streaming; cbn;
      rewrite ?append_empty_r; (split; [split_and!; try done|]);
      try (by destruct (self st));
      destruct rr; cbn in *; by subst.
  - cbv [result_generator_step log_warning emit mbind M_bind mret M_ret].
    eexists; split; [reflexivity|]. unfold streaming; cbn.
    rewrite storage_io_app, upserts_app, append_empty_r; cbn.
    rewrite !app_nil_r. split; [split_and!; try done; by destruct (self st)|].
    destruct rr; cbn in *; by subst.
Qed.

(** The loop over a source that ends normally: every item is handed on
    stamped, the string contents accumulate in the response under
    construction, and then the run is recorded. *)
Lemma exhaust_items_ok items : ∀ st rr acc,
  run_response (self st) = Some rr →
  RunResponse.content rr = VStr acc →
  is_Some (memory (self st)) →
  ∃ stn, streaming st stn ∧
    run_response (self stn) =
      Some (RunResponse.with_content (VStr (acc ++ texts items)) rr) ∧
    exhaust_items items None st =
      (Ok (stamp_item (self st) <$> items), recorded stn).
Proof.
  induction items as [|it items IH]; intros st rr acc Hrr Hacc Hm.
  - exists st. split; [reflexivity|]. cbn [texts foldr exhaust_items fmap list_fmap].
    rewrite append_empty_r. split.
    + rewrite Hrr. destruct rr; cbn in *; by subst.
    + by rewrite (bind_ok _ _ _ _ _ (result_generator_finish_ok _ Hm)).
  - destruct (result_generator_step_ok it st rr acc Hrr Hacc)
      as (st' & Hstep & Hs & Hrr').
    assert (Hm' : is_Some (memory (self st'))).
    { destruct Hs as (_&_&_&_&_&->). by destruct (self st). }
    destruct (IH st' _ (acc ++ item_text it)%string Hrr' eq_refl Hm')
      as (stn & Hsn & Hrrn & Hex).
    exists stn. split; [by etrans|]. split.
    + rewrite Hrrn. cbn [texts foldr]. by rewrite append_assoc.
    + cbn [exhaust_items]. rewrite (bind_ok _ _ _ _ _ Hstep).
      rewrite (bind_ok _ _ _ _ _ Hex). unfold mret, M_ret. cbn [fmap list_fmap].
      do 3 f_equal. apply list_fmap_ext. intros _ x _.
      by apply streaming_stamp_item.
Qed.

(** The loop over a source that raises at its end: the items before it
    are processed, the exception reaches the consumer, nothing is
    recorded. *)
Lemma exhaust_items_raise items e : ∀ st rr acc,
  run_response (self st) = Some rr →
  RunResponse.content rr = VStr acc →
  ∃ stn, streaming st stn ∧ exhaust_items items (Some e) st = (Raise e, stn).
Proof.
  induction items as [|it items IH]; intros st rr acc Hrr Hacc.
  - by exists st.
  - destruct (result_generator_step_ok it st rr acc Hrr Hacc)
      as (st' & Hstep & Hs & Hrr').
    destruct (IH st' _ (acc ++ item_text it)%string Hrr' eq_refl)
      as (stn & Hsn & Hex).
    exists stn. split; [by etrans|].
    cbn [exhaust_items]. rewrite (bind_ok _ _ _ _ _ Hstep).
    by rewrite (bind_raise _ _ _ _ _ Hex).
Qed.

(** *** The entry point *)

(** What [update_run_method] leaves on an instance whose class defines
    [run]: the instance's own [run] is [run_workflow], and
    [_subclass_run] is the routine. *)
Definition installed (st : State) : Prop :=
  run_is_run_workflow (self st) = true ∧
  _subclass_run (self st) = Some ClassRun.

Lemma run_eq kwargs st :
  run_is_run_workflow (self st) = true → run kwargs st = run_workflow kwargs st.
Proof. intros Hr. cbv [run mbind M_bind get_self get_class]. by rewrite Hr. Qed.

Lemma st_with_self_eta st : st_with_self (self st) st = st.
Proof. by destruct st. Qed.

Lemma with_run_response_eta w : with_run_response (run_response w) w = w.
Proof. by destruct w. Qed.

Lemma record_then {A : Type} (x : A) st :
  is_Some (memory (self st)) →
  (add_run_to_memory;; write_to_storage;; mret x) st = (Ok x, recorded st).
Proof.
  intros [m Hm].
  rewrite (bind_ok _ _ _ _ _ (add_run_to_memory_ok _ _ Hm)).
  rewrite (bind_ok _ _ _ _ _ (write_to_storage_eq _)).
  unfold recorded. by rewrite Hm.
Qed.

Lemma handle_result_iterator src st rr :
  run_response (self st) = Some rr →
  handle_result (Iterator src) st =
    (Ok (ResGenerator (mkGenerator src false)),
     st_with_self
       (with_run_response (Some (RunResponse.with_content (VStr "") rr)) (self st))
       st).
Proof.
  intros Hrr. unfold handle_result.
  by rewrite (bind_ok _ _ _ _ _ (set_run_response_content_ok _ _ _ Hrr)).
Qed.

(** The content that the response under construction ends with when the
    routine returned a response with content [c]. *)
Definition recorded_content (c : value) : value :=
  match c with VStr s => VStr s | _ => VNone end.

Lemma handle_result_response r st rr :
  run_response (self st) = Some rr →
  RunResponse.content rr = VNone →
  is_Some (memory (self st)) →
  handle_result (Response r) st =
    (Ok (ResResponse
           (RunResponse.stamp (run_id (self st)) (session_id (self st))
              (workflow_id (self st)) r)),
     recorded
       (st_with_self
          (with_run_response
             (Some (RunResponse.with_content
                      (recorded_content (RunResponse.content r)) rr))
             (self st)) st)).
Proof.
  intros Hrr Hc Hm. unfold handle_result.
  rewrite (bind_ok get_self _ st (self st) st eq_refl). cbv zeta.
  cbn [RunResponse.stamp RunResponse.content].
  destruct (RunResponse.content r) eqn:Hr; cbn [recorded_content]; cbv iota.
  4: { rewrite (bind_ok _ _ _ _ _ (set_run_response_content_ok _ _ _ Hrr)).
       by rewrite record_then. }
  all: rewrite (bind_ok (mret tt) _ st tt st eq_refl); cbv beta;
    rewrite record_then by done;
    replace (RunResponse.with_content VNone rr) with rr
      by (destruct rr; cbn in Hc; by subst);
    by rewrite <- Hrr, with_run_response_eta, st_with_self_eta.
Qed.

Lemma handle_result_other v st :
  handle_result (Other v) st =
    (Ok ResNone,
     st_with_trace
       (trace st ++
        [LogWarning ("Workflow.run() should only return RunResponse objects, got: "
                     ++ type_repr v)]) st).
Proof. done. Qed.

Lemma get_workflow_session_written st :
  get_workflow_session (self (written st)) = get_workflow_session (self st).
Proof. unfold written. by destruct (storage (self st)). Qed.

Lemma recorded_facts st m :
  memory (self st) = Some m →
  memory (self (recorded st)) =
    Some (WorkflowMemory.add_run
            (WorkflowRun.mk (run_input (self st)) (run_response (self st))) m) ∧
  upserts (trace (recorded st)) =
    upserts (trace st) ++
    match storage (self st) with
    | Some _ => [StorageUpsert (get_workflow_session (self (recorded st)))]
    | None => []
    end ∧
  run_response (self (recorded st)) = run_response (self st) ∧
  run_id (self (recorded st)) = run_id (self st) ∧
  session_id (self (recorded st)) = session_id (self st) ∧
  workflow_id (self (recorded st)) = workflow_id (self st) ∧
  agents (recorded st) = agents st.
Proof.
  intros Hm. unfold recorded.
  rewrite get_workflow_session_written, written_upserts.
  destruct (written_frame
    (st_with_self
       (with_memory
          (WorkflowMemory.add_run
             (WorkflowRun.mk (run_input (self st)) (run_response (self st)))
           <$> memory (self st)) (self st)) st))
    as (-> & -> & -> & -> & -> & _ & -> & _).
  cbn. by rewrite Hm.
Qed.

(** The entry point on an instance whose class defines [run], when the
    preparation went through: the routine is called in the prepared
    state, and what it returns or raises is handled there. *)
Lemma run_called kwargs st stp f :
  installed st →
  cls_run (klass st) = Some f →
  prepare_run kwargs st = (Ok tt, stp) →
  run kwargs st =
    match f (self stp) kwargs with
    | Ok result => handle_result result stp
    | Raise e => (Raise e, log_failure e stp)
    end ∧
  ∃ n sid wid, prepared kwargs st stp n sid wid.
Proof.
  intros [Hr Hs] Hf Hp.
  destruct (prepare_run_prepared kwargs st) as (n & sid & wid & Hprep).
  rewrite Hp in Hprep. cbn in Hprep. split; [|eauto].
  rewrite run_eq, run_workflow_eq, Hp by done.
  destruct Hprep as ((Hk & _ & _ & _ & _ & Hs') & _).
  rewrite (call_subclass_run_overriding kwargs stp f) by congruence.
  by destruct (f (self stp) kwargs).
Qed.

(** *** The generator, consumed partly or over a source that raises *)

Lemma run_returns_generator kwargs st stp f src :
  installed st →
  cls_run (klass st) = Some f →
  prepare_run kwargs st = (Ok tt, stp) →
  f (self stp) kwargs = Ok (Iterator src) →
  ∃ st1 rr,
    run kwargs st = (Ok (ResGenerator (mkGenerator src false)), st1) ∧
    run_response (self st1) = Some rr ∧
    RunResponse.content rr = VStr "" ∧
    memory (self st1) = memory (self stp) ∧
    trace st1 = trace stp ∧
    upserts (trace st1) = upserts (trace st) ∧
    ∃ n sid wid,
      uuid_next st ≤ n ∧
      run_id (self st1) = Some (uuid_of n) ∧
      session_id (self st1) = Some sid ∧
      workflow_id (self st1) = Some wid.
Proof.
  intros Hi Hf Hp Hit.
  destruct (run_called kwargs st stp f Hi Hf Hp) as [Hrun (n & sid & wid & Hprep)].
  rewrite Hit in Hrun.
  destruct Hprep as (_ & _ & Hn & _ & Hrid & Hwid & Hsid & _ & Hrr & _ & Hup).
  rewrite (handle_result_iterator _ _ _ Hrr) in Hrun.
  eexists _, _. split; [exact Hrun|]. split_and!; try done.
  by exists n, sid, wid.
Qed.

(** The items as the generator hands them on, the identifiers written
    out. *)
Lemma stamp_item_ids (w : Workflow) rid sid wid (items : list item) :
  run_id w = Some rid → session_id w = Some sid → workflow_id w = Some wid →
  stamp_item w <$> items =
    (λ it, match it with
           | ItemResponse r =>
               ItemResponse
                 (RunResponse.mk (RunResponse.content r) (Some rid) (Some sid)
                    (Some wid) (RunResponse.rest r))
           | ItemOther v => ItemOther v
           end) <$> items.
Proof.
  intros Hr Hs Hw. apply list_fmap_ext. intros _ [r|v] _; [|done].
  unfold stamp_item. by rewrite Hr, Hs, Hw.
Qed.

(** [k] calls of [next] on a generator that still has [k] items: the
    items come out stamped, their text is added to the response under
    construction, and nothing else changes. *)
Lemma advance_ok k : ∀ items fin st rr acc,
  run_response (self st) = Some rr →
  RunResponse.content rr = VStr acc →
  k ≤ length items →
  ∃ stk, streaming st stk ∧
    run_response (self stk) =
      Some (RunResponse.with_content (VStr (acc ++ texts (take k items))) rr) ∧
    advance k (mkGenerator (mkIterator items fin) false) st =
      (Ok (stamp_item (self st) <$> take k items), stk).
Proof.
  induction k as [|k IH]; intros items fin st rr acc Hrr Hacc Hk.
  - exists st. split; [reflexivity|]. rewrite take_0. cbn [texts foldr].
    rewrite append_empty_r. split; [|done].
    rewrite Hrr. destruct rr; cbn in *; by subst.
  - destruct items as [|it items]; [cbn in Hk; lia|].
    destruct (result_generator_step_ok it st rr acc Hrr Hacc)
      as (st' & Hstep & Hs & Hrr').
    destruct (IH items fin st' _ (acc ++ item_text it)%string Hrr' eq_refl)
      as (stk & Hsk & Hrrk & Hadv); [cbn in Hk; lia|].
    exists stk. split; [by etrans|]. split.
    + rewrite Hrrk. cbn [take texts foldr]. by rewrite append_assoc.
    + cbn [advance]. unfold next_item. cbn [rg_closed rg_source it_items it_end].
      rewrite (bind_ok _ _ _ _ _ (bind_ok _ _ _ _ _ Hstep)).
      cbn [fst snd]. rewrite (bind_ok _ _ _ _ _ Hadv).
      unfold mret, M_ret. cbn [take fmap list_fmap].
      do 3 f_equal. apply list_fmap_ext. intros _ x _.
      by apply streaming_stamp_item.
Qed.

(** The error lines of the log. *)
Definition is_error (ev : event) : bool :=
  match ev with LogError _ => true | _ => false end.

Definition errors (tr : list event) : list event := filter is_error tr.

Lemma errors_app tr1 tr2 : errors (tr1 ++ tr2) = errors tr1 ++ errors tr2.
Proof. apply filter_app. Qed.

(** Holds across everything that logs no error. *)
Definition no_error (st st' : State) : Prop :=
  errors (trace st') = errors (trace st).

#[local] Instance no_error_preorder : PreOrder no_error.
Proof. split; unfold no_error; [done|congruence]. Qed.

Ltac no_error_leaf :=
  intros ?;
  cbv [modify_self emit log_warning raise call get_self get_class
       mret M_ret mbind M_bind no_error];
  repeat case_match; cbn; rewrite ?errors_app; cbn; rewrite ?app_nil_r; done.

Lemma no_error_result_generator_step it :
  respects no_error (result_generator_step it).
Proof.
  unfold result_generator_step, append_content. respects_walk; no_error_leaf.
Qed.

Lemma no_error_result_generator_finish :
  respects no_error result_generator_finish.
Proof.
  intros st. unfold no_error.
  destruct (memory (self st)) as [m|] eqn:Hm.
  - rewrite result_generator_finish_ok by done. unfold recorded, written. cbn.
    destruct (storage (self st)); cbn; [|done].
    by rewrite errors_app, app_nil_r.
  - unfold result_generator_finish.
    cbv [add_run_to_memory mbind M_bind get_self raise]. by rewrite Hm.
Qed.

(** ** The claims *)

(** Claim C1.  When the routine returns a lazy sequence [items] that ends
    normally, the entry point returns a generator without having recorded
    or written anything.  Consuming the generator yields the items in
    order and one at a time: a [RunResponse] comes out with its content
    and other attributes as produced and with the run's [run_id], the
    instance's [session_id] and its [workflow_id] written on it, anything
    else comes out as it is, and as long as only items have been taken
    nothing is recorded or written.  Once the generator is exhausted,
    memory holds exactly one more run, whose input is the keyword
    arguments and whose response carries the same three identifiers and,
    as content, the in-order concatenation of the items' string contents;
    and the session, with these identifiers and this memory, has been
    upserted exactly once when a storage is configured (never
    otherwise). *)
Theorem run_streams_and_records kwargs st stp f items :
  installed st →
  cls_run (klass st) = Some f →
  prepare_run kwargs st = (Ok tt, stp) →
  f (self stp) kwargs = Ok (Iterator (mkIterator items None)) →
  ∃ g st1 st2 n sid wid m yielded session,
    run kwargs st = (Ok (ResGenerator g), st1) ∧
    uuid_next st ≤ n ∧
    run_id (self st1) = Some (uuid_of n) ∧
    session_id (self st1) = Some sid ∧
    workflow_id (self st1) = Some wid ∧
    memory (self st1) = Some m ∧
    memory (self stp) = Some m ∧
    upserts (trace st1) = upserts (trace st) ∧
    yielded =
      (λ it, match it with
             | ItemResponse r =>
                 ItemResponse
                   (RunResponse.mk (RunResponse.content r) (Some (uuid_of n))
                      (Some sid) (Some wid) (RunResponse.rest r))
             | ItemOther v => ItemOther v
             end) <$> items ∧
    (∀ k, k ≤ length items →
       ∃ stk, advance k g st1 = (Ok (take k yielded), stk) ∧
         memory (self stk) = Some m ∧
         upserts (trace stk) = upserts (trace st)) ∧
    exhaust g st1 = (Ok yielded, st2) ∧
    memory (self st2) =
      Some (WorkflowMemory.mk
              (WorkflowMemory.runs m ++
               [WorkflowRun.mk (Some kwargs)
                  (Some (RunResponse.mk (VStr (texts items))
                           (Some (uuid_of n)) (Some sid) (Some wid) VNone))])) ∧
    upserts (trace st2) =
      upserts (trace st) ++
      match storage (self st1) with
      | Some _ => [StorageUpsert session]
      | None => []
      end ∧
    session = get_workflow_session (self st2) ∧
    WorkflowSession.session_id session = Some sid ∧
    WorkflowSession.workflow_id session = Some wid ∧
    WorkflowSession.memory session =
      Some {[ "runs" :=
                VList (model_dump <$>
                         WorkflowMemory.runs m ++
                         [WorkflowRun.mk (Some kwargs)
                            (Some (RunResponse.mk (VStr (texts items))
                                     (Some (uuid_of n)) (Some sid) (Some wid)
                                     VNone))]) ]}.
Proof.
  intros Hi Hf Hp Hit.
  destruct (run_called kwargs st stp f Hi Hf Hp) as [Hrun (n & sid & wid & Hprep)].
  rewrite Hit in Hrun.
  destruct Hprep as (_ & _ & Hn1 & _ & Hrid & Hwid & Hsid & Hin & Hrr & [m Hm] & Hup).
  rewrite (handle_result_iterator _ _ _ Hrr) in Hrun.
  set (st1 := st_with_self _ stp) in Hrun.
  destruct (exhaust_items_ok items st1 _ "" eq_refl eq_refl)
    as (stn & Hs & Hrrn & Hex).
  { subst st1. cbn. by rewrite Hm. }
  destruct Hs as (_ & _ & _ & _ & Hupn & Hself).
  assert (Hmn : memory (self stn) = Some m).
  { rewrite Hself. subst st1. cbn. done. }
  destruct (recorded_facts stn m Hmn)
    as (Hmem & Hups & _ & _ & Hsid2 & Hwid2 & _).
  assert (Hmem' : memory (self (recorded stn)) =
            Some (WorkflowMemory.mk
                    (WorkflowMemory.runs m ++
                     [WorkflowRun.mk (Some kwargs)
                        (Some (RunResponse.mk (VStr (texts items))
                                 (Some (uuid_of n)) (Some sid) (Some wid)
                                 VNone))]))).
  { rewrite Hmem. rewrite Hrrn. rewrite Hself. subst st1. cbn. by rewrite Hin. }
  assert (Hst : ∀ its : list item, stamp_item (self st1) <$> its =
            (λ it, match it with
                   | ItemResponse r =>
                       ItemResponse
                         (RunResponse.mk (RunResponse.content r)
                            (Some (uuid_of n)) (Some sid) (Some wid)
                            (RunResponse.rest r))
                   | ItemOther v => ItemOther v
                   end) <$> its).
  { intros its. apply list_fmap_ext. intros _ [r|v] _; [|done].
    unfold stamp_item. subst st1. cbn. by rewrite Hrid, Hsid, Hwid. }
  eexists _, st1, (recorded stn), n, sid, wid, m, _, _.
  split_and!; try done.
  - intros k Hk.
    destruct (advance_ok k items None st1 _ "" eq_refl eq_refl Hk)
      as (stk & Hsk & _ & Hadv).
    destruct Hsk as (_ & _ & _ & _ & Hupk & Hselfk).
    exists stk. split_and!.
    + by rewrite Hadv, Hst, fmap_take.
    + rewrite Hselfk. subst st1. by cbn.
    + rewrite Hupk. by subst st1.
  - rewrite <- Hst. exact Hex.
  - rewrite Hups, Hupn.
    change (upserts (trace st1)) with (upserts (trace stp)). rewrite Hup.
    f_equal. replace (storage (self stn)) with (storage (self st1)); [done|].
    by rewrite Hself.
  - cbn. rewrite Hsid2, Hself. by subst st1.
  - cbn. rewrite Hwid2, Hself. by subst st1.
  - cbn. by rewrite Hmem'.
Qed.

(** Claim C4.  On an instance whose class does not define [run] (so that
    [update_run_method] left the class's own [run] in place), the entry
    point logs that the method is not implemented, returns [None], does
    not raise, and touches nothing else: the instance is unchanged and
    the trace grows by that one log line, so no storage call is made. *)
Theorem run_not_implemented kwargs st :
  cls_run (klass st) = None →
  run_is_run_workflow (self st) = false →
  run kwargs st =
    (Ok ResNone,
     st_with_trace
       (trace st ++
        [LogError (cls_name (klass st) ++ ".run() method not implemented.")])
       st).
Proof.
  intros Hc Hr.
  cbv [run Workflow_run log_error emit mbind M_bind get_self get_class
       mret M_ret].
  by rewrite Hr, Hc.
Qed.

(** Claim C9, as amended.  When the call of the routine raises [e], the
    entry point raises the same [e]; it logs the failure first when [e]
    is of a class derived from [Exception], and logs nothing when it is
    not ([KeyboardInterrupt], [SystemExit]).  When the routine returns a
    lazy sequence that raises [e] while it is consumed, the entry point
    itself returns and logs nothing, and the consumer receives the same
    [e], which is not logged either.  In every case the run is not
    recorded: memory is as it was when the routine was called and no
    upsert was made. *)
Theorem run_reraises kwargs st stp f :
  installed st →
  cls_run (klass st) = Some f →
  prepare_run kwargs st = (Ok tt, stp) →
  (∀ e, f (self stp) kwargs = Raise e →
     ∃ st1,
       run kwargs st = (Raise e, st1) ∧
       trace st1 =
         trace stp ++
         (if is_Exception e
          then [LogError ("Workflow.run() failed: " ++ exn_str e)]
          else []) ∧
       self st1 = self stp ∧
       memory (self st1) = memory (self stp) ∧
       upserts (trace st1) = upserts (trace st)) ∧
  (∀ items e,
     f (self stp) kwargs = Ok (Iterator (mkIterator items (Some e))) →
     ∃ g st1 st3,
       run kwargs st = (Ok (ResGenerator g), st1) ∧
       trace st1 = trace stp ∧
       exhaust g st1 = (Raise e, st3) ∧
       errors (trace st3) = errors (trace stp) ∧
       memory (self st3) = memory (self stp) ∧
       upserts (trace st3) = upserts (trace st)).
Proof.
  intros Hi Hf Hp. split.
  - intros e He.
    destruct (run_called kwargs st stp f Hi Hf Hp)
      as [Hrun (n & sid & wid & Hprep)].
    rewrite He in Hrun. exists (log_failure e stp).
    destruct Hprep as (_&_&_&_&_&_&_&_&_&_&Hup).
    unfold log_failure in *.
    destruct (is_Exception e); split_and!; try done; cbn;
      by rewrite ?upserts_app, ?app_nil_r.
  - intros items e Hit.
    destruct (run_returns_generator kwargs st stp f _ Hi Hf Hp Hit)
      as (st1 & rr & Hrun & Hrr & Hc & Hm & Htr & Hup & _).
    destruct (exhaust_items_raise items e st1 rr "" Hrr Hc) as (st3 & Hs & Hex).
    pose proof (respects_exhaust_items no_error items (Some e)
                  no_error_result_generator_step
                  no_error_result_generator_finish st1) as Hne.
    rewrite Hex in Hne. unfold no_error in Hne. cbn in Hne.
    destruct Hs as (_ & _ & _ & _ & Hup3 & Hself).
    eexists _, st1, st3. split_and!; try done.
    + congruence.
    + rewrite Hself. by rewrite <- Hm.
    + congruence.
Qed.

(** Claim C10, as amended.  When the routine returns a single response
    [r0], the entry point returns [r0] with its content as it was and
    with the identifiers that the instance has after the call (the run's
    [run_id], the [session_id] and the [workflow_id]) written on it; the
    run added to memory carries the
    response that the entry point built itself, whose content is that of
    [r0] when it is a string and [None] otherwise.  So the recorded
    content equals the returned one exactly when the returned content is
    a string or [None]. *)
Theorem run_single_response kwargs st stp f r0 :
  installed st →
  cls_run (klass st) = Some f →
  prepare_run kwargs st = (Ok tt, stp) →
  f (self stp) kwargs = Ok (Response r0) →
  ∃ st1 n sid wid m,
    run kwargs st =
      (Ok (ResResponse
             (RunResponse.mk (RunResponse.content r0) (Some (uuid_of n))
                (Some sid) (Some wid) (RunResponse.rest r0))), st1) ∧
    memory (self stp) = Some m ∧
    memory (self st1) =
      Some (WorkflowMemory.mk
              (WorkflowMemory.runs m ++
               [WorkflowRun.mk (Some kwargs)
                  (Some (RunResponse.mk
                           (recorded_content (RunResponse.content r0))
                           (Some (uuid_of n)) (Some sid) (Some wid) VNone))])) ∧
    (recorded_content (RunResponse.content r0) = RunResponse.content r0 ↔
     isinstance_str (RunResponse.content r0) = true ∨
     RunResponse.content r0 = VNone) ∧
    upserts (trace st1) =
      upserts (trace st) ++
      match storage (self stp) with
      | Some _ => [StorageUpsert (get_workflow_session (self st1))]
      | None => []
      end ∧
    uuid_next st ≤ n ∧
    run_id (self st1) = Some (uuid_of n) ∧
    session_id (self st1) = Some sid ∧
    workflow_id (self st1) = Some wid.
Proof.
  intros Hi Hf Hp Hr.
  destruct (run_called kwargs st stp f Hi Hf Hp) as [Hrun (n & sid & wid & Hprep)].
  rewrite Hr in Hrun.
  destruct Hprep as (_ & _ & Hn & _ & Hrid & Hwid & Hsid & Hin & Hrr & [m Hm] & Hup).
  rewrite (handle_result_response _ _ _ Hrr eq_refl) in Hrun by done.
  set (st' := st_with_self _ stp) in Hrun.
  destruct (recorded_facts st' m Hm)
    as (Hmem & Hups & _ & Hrid' & Hsid' & Hwid' & _).
  exists (recorded st'), n, sid, wid, m.
  split_and!; try done.
  - by rewrite Hrun, Hrid, Hwid, Hsid.
  - rewrite Hmem. subst st'. cbn. by rewrite Hin.
  - destruct (RunResponse.content r0); cbn; split;
      try done; try (by intros [|]); try (by right); by left.
  - rewrite Hups. change (upserts (trace st')) with (upserts (trace stp)).
    by rewrite Hup.
  - by rewrite Hrid'.
  - by rewrite Hsid'.
  - by rewrite Hwid'.
Qed.

(** *** Loading the session state *)

(** Holds across everything that does not assign [session_state]. *)
Definition keeps_state (st st' : State) : Prop :=
  session_state (self st') = session_state (self st).

#[local] Instance keeps_state_preorder : PreOrder keeps_state.
Proof. split; unfold keeps_state; [done|congruence]. Qed.

Ltac keeps_state_leaf :=
  intros ?;
  cbv [modify_self emit log_warning log_error raise call get_self get_class
       mret M_ret mbind M_bind keeps_state];
  repeat case_match; done.

Lemma keeps_state_initialize_memory : respects keeps_state initialize_memory.
Proof. unfold initialize_memory. respects_walk; keeps_state_leaf. Qed.
#[local] Hint Resolve keeps_state_initialize_memory : respects.

Lemma keeps_state_extend_images l :
  respects keeps_state (extend_artifacts images with_images l).
Proof. unfold extend_artifacts. respects_walk; keeps_state_leaf. Qed.
Lemma keeps_state_extend_videos l :
  respects keeps_state (extend_artifacts videos with_videos l).
Proof. unfold extend_artifacts. respects_walk; keeps_state_leaf. Qed.
Lemma keeps_state_extend_audio l :
  respects keeps_state (extend_artifacts audio with_audio l).
Proof. unfold extend_artifacts. respects_walk; keeps_state_leaf. Qed.
#[local] Hint Resolve keeps_state_extend_images keeps_state_extend_videos
  keeps_state_extend_audio : respects.

(** What loading a record makes of a live session state. *)
Definition loaded_state (session : WorkflowSession.t) (live : dict) : dict :=
  match session_state_from_db session with
  | Some persisted =>
      if nonempty live then merge_dictionaries persisted live else persisted
  | None => live
  end.

Lemma bind_keeps_state {A B : Type} (m : M A) (f : A → M B) st (s : dict) :
  session_state (self (m st).2) = s →
  (∀ x, respects keeps_state (f x)) →
  session_state (self ((m ≫= f) st).2) = s.
Proof.
  intros Hm Hf. unfold mbind, M_bind.
  destruct (m st) as [[x|e] st1]; cbn in *; [|done].
  by rewrite (Hf x st1).
Qed.

Lemma modify_self_ok f st :
  modify_self f st = (Ok tt, st_with_self (f (self st)) st).
Proof. done. Qed.

Lemma load_workflow_session_state session st :
  session_state (self (load_workflow_session session st).2) =
    loaded_state session (session_state (self st)).
Proof.
  unfold load_workflow_session.
  do 3 (rewrite (bind_ok _ _ _ _ _ (modify_self_ok _ _)); cbv beta).
  set (st3 := st_with_self _ (st_with_self _ (st_with_self _ st))).
  assert (H3 : session_state (self st3) = session_state (self st)).
  { subst st3. cbn. by repeat case_match. }
  rewrite <- H3. clearbody st3. clear H3 st.
  set (m4 := match WorkflowSession.workflow_data session with
             | Some _ => _ | None => _ end).
  assert (∃ st4, m4 st3 = (Ok tt, st4) ∧
            session_state (self st4) = session_state (self st3))
    as (st4 & H4 & Hs4).
  { subst m4. destruct (WorkflowSession.workflow_data session).
    - eexists; split; [apply modify_self_ok|]. cbn. by repeat case_match.
    - by eexists. }
  rewrite (bind_ok _ _ _ _ _ H4). cbv beta. rewrite <- Hs4.
  clear H4 Hs4 m4 st3.
  apply bind_keeps_state; [|intros []; respects_walk; keeps_state_leaf].
  unfold loaded_state, session_state_from_db.
  destruct (WorkflowSession.session_data session) as [sd|]; [|done].
  rewrite (bind_ok _ _ _ _ _ (modify_self_ok _ _)); cbv beta.
  set (st5 := st_with_self _ st4).
  assert (H5 : session_state (self st5) = session_state (self st4)).
  { subst st5. cbn. by repeat case_match. }
  rewrite <- H5. clearbody st5. clear H5 st4.
  apply bind_keeps_state; [|intros []; respects_walk; keeps_state_leaf].
  destruct (sd !! "session_state") as [[| | | | |d]|]; try done.
  destruct (nonempty d); [|done].
  cbn. by destruct (nonempty (session_state (self st5))).
Qed.

(** Claim C2.  Loading a persisted record leaves the live session state
    as follows.  When the record's session data hold, under the key
    ["session_state"], a mapping that is not empty: the deep merge of the
    live mapping into the persisted one when the live mapping is not
    empty, and the persisted mapping as it is when the live one is empty.
    In every other case (no session data, no such key, a value that is
    not a mapping, an empty mapping) the live mapping is unchanged.  In
    the merge every key of the live mapping wins, nested mappings are
    merged recursively, and keys that only the persisted mapping has are
    kept.  Live [{"x": 2}] on persisted [{"x": 1, "y": 3}] gives
    [{"x": 2, "y": 3}]; an empty live mapping on persisted [{"x": 1}]
    gives [{"x": 1}]. *)
Theorem load_workflow_session_merges_state session st :
  session_state (self (load_workflow_session session st).2) =
    match WorkflowSession.session_data session ≫= (.!! "session_state") with
    | Some (VDict persisted) =>
        if decide (persisted = ∅) then session_state (self st)
        else if decide (session_state (self st) = ∅) then persisted
        else merge_dictionaries persisted (session_state (self st))
    | _ => session_state (self st)
    end ∧
  (∀ sd persisted,
     WorkflowSession.session_data session = Some sd →
     sd !! "session_state" = Some (VDict persisted) →
     persisted ≠ ∅ →
     (session_state (self st) ≠ ∅ →
      session_state (self (load_workflow_session session st).2) =
        merge_dictionaries persisted (session_state (self st))) ∧
     (session_state (self st) = ∅ →
      session_state (self (load_workflow_session session st).2) = persisted)) ∧
  (WorkflowSession.session_data session = None ∨
   (∃ sd, WorkflowSession.session_data session = Some sd ∧
      (sd !! "session_state" = None ∨
       sd !! "session_state" = Some (VDict ∅))) →
   session_state (self (load_workflow_session session st).2) =
     session_state (self st)) ∧
  (∀ persisted live k,
     merge_dictionaries persisted live !! k =
       match live !! k with
       | None => persisted !! k
       | Some vl =>
           match persisted !! k, vl with
           | Some (VDict dp), VDict dl => Some (VDict (merge_dictionaries dp dl))
           | _, _ => Some vl
           end
       end) ∧
  (∀ sd,
     WorkflowSession.session_data session = Some sd →
     sd !! "session_state" = Some (VDict {[ "x" := VInt 1; "y" := VInt 3 ]}) →
     session_state (self st) = {[ "x" := VInt 2 ]} →
     session_state (self (load_workflow_session session st).2) =
       {[ "x" := VInt 2; "y" := VInt 3 ]}) ∧
  (∀ sd,
     WorkflowSession.session_data session = Some sd →
     sd !! "session_state" = Some (VDict {[ "x" := VInt 1 ]}) →
     session_state (self st) = ∅ →
     session_state (self (load_workflow_session session st).2) =
       {[ "x" := VInt 1 ]}).
Proof.
  assert (Heq : session_state (self (load_workflow_session session st).2) =
    match WorkflowSession.session_data session ≫= (.!! "session_state") with
    | Some (VDict persisted) =>
        if decide (persisted = ∅) then session_state (self st)
        else if decide (session_state (self st) = ∅) then persisted
        else merge_dictionaries persisted (session_state (self st))
    | _ => session_state (self st)
    end).
  { rewrite load_workflow_session_state.
    unfold loaded_state, session_state_from_db, nonempty.
    destruct (WorkflowSession.session_data session) as [sd|]; [|done]. cbn.
    destruct (sd !! "session_state") as [[| | | | |d]|]; try done.
    destruct (decide (d = ∅)) as [Hd|Hd].
    - by rewrite (bool_decide_eq_true_2 _ Hd).
    - rewrite (bool_decide_eq_false_2 _ Hd). cbn.
      destruct (decide (session_state (self st) = ∅)) as [Hl|Hl].
      + by rewrite (bool_decide_eq_true_2 _ Hl).
      + by rewrite (bool_decide_eq_false_2 _ Hl). }
  split_and!.
  - exact Heq.
  - intros sd persisted Hsd Hp Hne. rewrite Heq, Hsd. cbn. rewrite Hp.
    rewrite decide_False by done.
    split; intros Hl; [by rewrite decide_False|by rewrite decide_True].
  - intros [Hsd|(sd & Hsd & [Hp|Hp])]; rewrite Heq, Hsd; cbn; [done|..];
      by rewrite Hp.
  - intros. apply merge_dictionaries_lookup.
  - intros sd Hsd Hp Hl. rewrite Heq, Hsd. cbn. rewrite Hp, Hl. by vm_compute.
  - intros sd Hsd Hp Hl. rewrite Heq, Hsd. cbn. rewrite Hp, Hl. by vm_compute.
Qed.

(** Claim C3.  Loading the same persisted record a second time, with the
    state that the first load produced as the live state, leaves the
    session state as the first load left it; and so does the merge on its
    own, for every pair of mappings. *)
Theorem session_state_merge_idempotent session st :
  session_state
    (self (load_workflow_session session
             (load_workflow_session session st).2).2) =
  session_state (self (load_workflow_session session st).2) ∧
  ∀ persisted live,
    merge_dictionaries persisted (merge_dictionaries persisted live) =
    merge_dictionaries persisted live.
Proof.
  split; [|apply merge_dictionaries_idem].
  rewrite !load_workflow_session_state. unfold loaded_state.
  destruct (session_state_from_db session) as [p|] eqn:Hp; [|done].
  assert (Hne : nonempty p = true).
  { unfold session_state_from_db in Hp. repeat case_match; congruence. }
  destruct (nonempty (session_state (self st))) eqn:Hl.
  - rewrite nonempty_merge by done. apply merge_dictionaries_idem.
  - rewrite Hne. apply merge_dictionaries_diag.
Qed.

(** *** Loading a session with a storage *)

(** Holds across everything that assigns neither the cached record nor
    the storage and makes no storage call. *)
Definition keeps_record (st st' : State) : Prop :=
  workflow_session (self st') = workflow_session (self st) ∧
  storage (self st') = storage (self st) ∧
  storage_io (trace st') = storage_io (trace st).

#[local] Instance keeps_record_preorder : PreOrder keeps_record.
Proof.
  split; unfold keeps_record; [done|].
  intros ??? (?&?&?) (?&?&?). split_and!; congruence.
Qed.

Ltac keeps_record_leaf :=
  intros ?;
  cbv [modify_self emit log_warning log_error raise call get_self get_class
       mret M_ret mbind M_bind keeps_record];
  repeat case_match; simplify_eq;
  cbn [snd fst trace self st_with_trace st_with_self];
  rewrite ?storage_io_app; cbn; rewrite ?app_nil_r; done.

Lemma keeps_record_load_workflow_session session :
  respects keeps_record (load_workflow_session session).
Proof.
  unfold load_workflow_session, extend_artifacts, initialize_memory.
  respects_walk; keeps_record_leaf.
Qed.


(** Claim C8.  [load_session force].  When [force] is off and a record is
    cached whose [session_id] is the instance's, the session id is
    returned and nothing else happens: no storage call, no change of the
    instance.  Otherwise, on an instance with a storage and a session id,
    the storage is read under that id.  When it holds a record, the
    record is loaded into the instance and the session id returned (or
    the exception of the load raised), and nothing is upserted.  When it
    holds none, the session built from the instance is upserted, once,
    and what the backend hands back is cached: the session id is
    returned when that is a record, and the call raises when it is
    nothing.  On an instance with a storage and no session id the storage
    is not read: a record that is cached is kept and [None] returned, and
    without one the session is upserted as before.  Without a storage the
    session id is returned at once. *)
Theorem load_session_spec force st :
  (∀ ws sid,
     force = false →
     workflow_session (self st) = Some ws →
     session_id (self st) = Some sid →
     WorkflowSession.session_id ws = Some sid →
     load_session force st = (Ok (Some sid), st)) ∧
  (∀ s sid,
     storage (self st) = Some s →
     session_id (self st) = Some sid →
     ¬ (force = false ∧
        ∃ ws, workflow_session (self st) = Some ws ∧
              WorkflowSession.session_id ws = Some sid) →
     match Storage.read (Storage.db s) sid with
     | Some session =>
         ∀ o st1,
           load_workflow_session session
             (st_with_self (with_workflow_session (Some session) (self st))
                (st_with_trace (trace st ++ [StorageRead sid]) st)) = (o, st1) →
           load_session force st =
             (match o with Ok _ => Ok (Some sid) | Raise e => Raise e end, st1) ∧
           storage_io (trace st1) = storage_io (trace st) ++ [StorageRead sid] ∧
           storage (self st1) = Some s
     | None =>
         ∃ st1,
           load_session force st =
             (match (Storage.upsert (Storage.db s)
                       (get_workflow_session (self st))).2 with
              | Some _ => Ok (Some sid)
              | None =>
                  Raise (Exn "Exception"
                           "Failed to create new WorkflowSession in storage")
              end, st1) ∧
           storage_io (trace st1) =
             storage_io (trace st) ++
             [StorageRead sid; StorageUpsert (get_workflow_session (self st))] ∧
           WorkflowSession.session_id (get_workflow_session (self st)) =
             Some sid ∧
           workflow_session (self st1) =
             (Storage.upsert (Storage.db s) (get_workflow_session (self st))).2 ∧
           storage (self st1) =
             Some (Storage.mk (Storage.mode s)
                     (Storage.upsert (Storage.db s)
                        (get_workflow_session (self st))).1)
     end) ∧
  (∀ s,
     storage (self st) = Some s →
     session_id (self st) = None →
     match workflow_session (self st) with
     | Some _ => load_session force st = (Ok None, st)
     | None =>
         ∃ st1,
           load_session force st =
             (match (Storage.upsert (Storage.db s)
                       (get_workflow_session (self st))).2 with
              | Some _ => Ok None
              | None =>
                  Raise (Exn "Exception"
                           "Failed to create new WorkflowSession in storage")
              end, st1) ∧
           storage_io (trace st1) =
             storage_io (trace st) ++
             [StorageUpsert (get_workflow_session (self st))]
     end) ∧
  (storage (self st) = None →
   load_session force st = (Ok (session_id (self st)), st)).
Proof.
  split_and!.
  - intros ws sid -> Hws Hsid Hw.
    cbv [load_session session_is_cached mbind M_bind get_self mret M_ret].
    rewrite Hws, Hsid, Hw. cbn. rewrite bool_decide_eq_true_2 by done.
    by rewrite Hw.
  - intros s sid Hs Hsid Hnc.
    assert (Hc : session_is_cached force (self st) = false).
    { unfold session_is_cached. rewrite Hsid.
      destruct (workflow_session (self st)) as [ws|] eqn:Hws; [|done].
      apply andb_false_iff.
      destruct force; [by left|right]. apply bool_decide_eq_false_2.
      intros Hw. apply Hnc. split; [done|]. by exists ws. }
    destruct (Storage.read (Storage.db s) sid) as [session|] eqn:Hrd.
    + intros o st1 Hl.
      set (st0 := st_with_self _ _) in Hl.
      pose proof (keeps_record_load_workflow_session session st0) as Hk.
      pose proof (stable_load_workflow_session session st0) as Hst.
      rewrite Hl in Hk, Hst. cbn [snd] in Hk, Hst. subst st0.
      destruct Hk as (Hk1 & Hk2 & Hk3). destruct Hst as (_ & _ & _ & Hst & _).
      cbn in Hk1, Hk2. change (storage_io (trace st1) =
                                 storage_io (trace st ++ [StorageRead sid])) in Hk3.
      specialize (Hst sid Hsid).
      split_and!.
      * cbv [load_session read_from_storage mbind M_bind get_self mret M_ret
             emit modify_self raise].
        rewrite Hc, Hs, Hsid. cbn. rewrite Hs, Hrd, Hl.
        destruct o as [[]|e]; [|done]. cbn. rewrite Hk1. by rewrite Hst.
      * rewrite Hk3, storage_io_app. done.
      * by rewrite Hk2.
    + assert (Hw : write_to_storage
                (st_with_self (with_workflow_session None (self st))
                   (st_with_trace (trace st ++ [StorageRead sid]) st)) =
              (Ok (Storage.upsert (Storage.db s)
                     (get_workflow_session (self st))).2,
               st_with_self
                 (with_workflow_session
                    (Storage.upsert (Storage.db s)
                       (get_workflow_session (self st))).2
                    (with_storage
                       (Some (Storage.mk (Storage.mode s)
                                (Storage.upsert (Storage.db s)
                                   (get_workflow_session (self st))).1))
                       (self st)))
                 (st_with_trace
                    (trace st ++ [StorageRead sid] ++
                     [StorageUpsert (get_workflow_session (self st))]) st))).
      { cbv [write_to_storage mbind M_bind get_self emit modify_self mret M_ret].
        cbn. rewrite Hs. cbn. by rewrite <- app_assoc. }
      match type of Hw with _ = (_, ?x) => exists x end. split_and!.
      * cbv [load_session read_from_storage mbind M_bind get_self mret M_ret
             emit modify_self raise].
        rewrite Hc, Hs, Hsid. cbn. rewrite Hs, Hrd. cbn.
        rewrite Hw. cbv beta iota. cbn.
        destruct (Storage.upsert (Storage.db s)
                    (get_workflow_session (self st))).2; cbn;
          rewrite ?Hsid; reflexivity.
      * cbn. by rewrite !storage_io_app.
      * done.
      * done.
      * done.
  - intros s Hs Hsid.
    assert (Hc : session_is_cached force (self st) = false).
    { unfold session_is_cached. rewrite Hsid. by destruct (workflow_session _). }
    destruct (workflow_session (self st)) as [ws|] eqn:Hws.
    + cbv [load_session read_from_storage mbind M_bind get_self mret M_ret].
      rewrite Hc, Hs, Hsid. cbn. rewrite ?Hs, ?Hsid. cbn. rewrite ?Hws, ?Hsid.
      cbn. by rewrite ?Hsid.
    + assert (Hw : write_to_storage st =
              (Ok (Storage.upsert (Storage.db s)
                     (get_workflow_session (self st))).2,
               st_with_self
                 (with_workflow_session
                    (Storage.upsert (Storage.db s)
                       (get_workflow_session (self st))).2
                    (with_storage
                       (Some (Storage.mk (Storage.mode s)
                                (Storage.upsert (Storage.db s)
                                   (get_workflow_session (self st))).1))
                       (self st)))
                 (st_with_trace
                    (trace st ++
                     [StorageUpsert (get_workflow_session (self st))]) st))).
      { cbv [write_to_storage mbind M_bind get_self emit modify_self mret M_ret].
        by rewrite Hs. }
      match type of Hw with _ = (_, ?x) => exists x end. split.
      * cbv [load_session read_from_storage mbind M_bind get_self mret M_ret
             raise].
        rewrite Hc, Hs, Hsid. cbn. rewrite ?Hs, ?Hsid. cbn. rewrite ?Hws.
        rewrite Hw. cbv beta iota. cbn.
        destruct (Storage.upsert (Storage.db s)
                    (get_workflow_session (self st))).2; cbn;
          rewrite ?Hsid; reflexivity.
      * cbn. by rewrite !storage_io_app.
  - intros Hs. unfold load_session.
    rewrite (bind_ok get_self _ st (self st) st eq_refl), Hs.
    destruct (session_is_cached force (self st)) eqn:Hc; [|done].
    unfold session_is_cached in Hc.
    destruct (workflow_session (self st)) as [ws|]; [|done].
    destruct (session_id (self st)) as [sid|]; [|done].
    apply andb_true_iff in Hc as [_ Hc%bool_decide_eq_true].
    unfold mret, M_ret. cbn. by rewrite Hc.
Qed.

(** *** The whole invocation *)

Lemma M_bind_assoc {A B C : Type} (m : M A) (f : A → M B) (g : B → M C) st :
  ((m ≫= f) ≫= g) st = (m ≫= λ x, f x ≫= g) st.
Proof. unfold mbind, M_bind. by destruct (m st) as [[x|e] st1]. Qed.

Lemma bind_cong_l {A B : Type} (m m' : M A) (f : A → M B) st :
  m st = m' st → (m ≫= f) st = (m' ≫= f) st.
Proof. unfold mbind, M_bind. by intros ->. Qed.

Lemma stable_begin_run kwargs : respects stable (begin_run kwargs).
Proof.
  intros st. destruct (begin_run_ok kwargs st) as (st0 & n & wid & sid & -> & ? & _).
  done.
Qed.
Lemma offline_begin_run kwargs : respects offline (begin_run kwargs).
Proof.
  intros st.
  destruct (begin_run_ok kwargs st) as (st0 & n & wid & sid & -> & _ & ? & _).
  done.
Qed.
#[local] Hint Resolve stable_begin_run offline_begin_run : respects.

Lemma stable_prepare_run kwargs : respects stable (prepare_run kwargs).
Proof. unfold prepare_run. respects_walk. Qed.
Lemma offline_prepare_run kwargs : respects offline (prepare_run kwargs).
Proof. unfold prepare_run. respects_walk. Qed.
#[local] Hint Resolve stable_prepare_run offline_prepare_run : respects.

Lemma stable_handle_result r : respects stable (handle_result r).
Proof. unfold handle_result. respects_auto. Qed.
Lemma same_run_handle_result r : respects same_run (handle_result r).
Proof. unfold handle_result. respects_auto. Qed.
Lemma offline_handle_result r : respects offline (handle_result r).
Proof. unfold handle_result. respects_auto. Qed.
#[local] Hint Resolve stable_handle_result same_run_handle_result
  offline_handle_result : respects.

Lemma stable_run_workflow kwargs : respects stable (run_workflow kwargs).
Proof. unfold run_workflow. respects_auto. Qed.
Lemma offline_run_workflow kwargs : respects offline (run_workflow kwargs).
Proof. unfold run_workflow. respects_auto. Qed.
#[local] Hint Resolve stable_run_workflow offline_run_workflow : respects.

Lemma stable_run kwargs : respects stable (run kwargs).
Proof. unfold run. respects_auto. Qed.
Lemma offline_run kwargs : respects offline (run kwargs).
Proof. unfold run. respects_auto. Qed.
#[local] Hint Resolve stable_run offline_run : respects.

Lemma respects_next_item (R : relation State) `{!PreOrder R} g :
  (∀ it, respects R (result_generator_step it)) →
  respects R result_generator_finish →
  respects R (next_item g).
Proof. intros Hstep Hfin. unfold next_item. respects_walk. Qed.

Lemma respects_advance (R : relation State) `{!PreOrder R} n : ∀ g,
  (∀ it, respects R (result_generator_step it)) →
  respects R result_generator_finish →
  respects R (advance n g).
Proof.
  induction n as [|n IH]; intros g Hstep Hfin; cbn [advance].
  - respects_walk.
  - apply respects_bind; [done|by apply respects_next_item|]. intros r.
    destruct (r.1); respects_walk.
Qed.

Lemma stable_advance n g : respects stable (advance n g).
Proof. apply respects_advance; [tc_solve | intros; eauto with respects..]. Qed.
Lemma same_run_advance n g : respects same_run (advance n g).
Proof. apply respects_advance; [tc_solve | intros; eauto with respects..]. Qed.
Lemma offline_advance n g : respects offline (advance n g).
Proof. apply respects_advance; [tc_solve | intros; eauto with respects..]. Qed.
#[local] Hint Resolve stable_advance same_run_advance offline_advance : respects.

Lemma stable_invoke kwargs pulls : respects stable (invoke kwargs pulls).
Proof. unfold invoke. respects_walk. Qed.

Lemma invoke_all_snoc calls c st :
  invoke_all (calls ++ [c]) st = (invoke c.1 c.2 (invoke_all calls st)).2.
Proof. unfold invoke_all. by rewrite foldl_snoc. Qed.

Lemma invoke_all_stable calls : ∀ st, stable st (invoke_all calls st).
Proof.
  induction calls as [|c calls IH]; intros st; [done|].
  cbn. etrans; [apply (stable_invoke c.1 c.2)|apply IH].
Qed.

(** One use of the entry point on an instance whose own [run] is
    [run_workflow]: it ends, however it ends, with a run identifier that
    was drawn during this use, and with both identifiers set. *)
Lemma invoke_fresh kwargs pulls st :
  run_is_run_workflow (self st) = true →
  ∃ n, uuid_next st ≤ n ∧ n < uuid_next (invoke kwargs pulls st).2 ∧
    run_id (self (invoke kwargs pulls st).2) = Some (uuid_of n) ∧
    is_Some (workflow_id (self (invoke kwargs pulls st).2)) ∧
    is_Some (session_id (self (invoke kwargs pulls st).2)).
Proof.
  intros Hr. unfold invoke.
  rewrite (bind_cong_l _ _ _ _ (run_eq kwargs st Hr)).
  unfold run_workflow. rewrite M_bind_assoc.
  destruct (prepare_run_prepared kwargs st) as (n & sid & wid & Hp).
  set (k := λ _ : unit, _ ≫= _).
  assert (H1 : respects stable (k tt)) by (unfold k; respects_auto).
  assert (H2 : respects same_run (k tt)) by (unfold k; respects_auto).
  destruct (prepare_run kwargs st) as [[[]|e] stp] eqn:Hprep; cbn in Hp;
    destruct Hp as (_ & _ & Hn1 & Hn2 & Hrid & Hwid & Hsid & _).
  - rewrite (bind_ok _ _ _ _ _ Hprep).
    specialize (H1 stp). specialize (H2 stp).
    destruct (k tt stp) as [o st2]; cbn in *.
    destruct H1 as (_ & _ & Hw & Hs & _), H2 as (Hu & Hi & _).
    exists n. split_and!; try done; try lia; try congruence.
    + eexists. by apply Hw.
    + eexists. by apply Hs.
  - rewrite (bind_raise _ _ _ _ _ Hprep).
    exists n. cbn. split_and!; try done; by eexists.
Qed.

(** Claim C6.  Take any two uses of the entry point on the same
    instance, with any number of other uses before and between them, each
    followed by any number of [next] calls on the generator it returned:
    the two runs have distinct run identifiers, and the [workflow_id] and
    [session_id] that the instance has after the first are the ones it
    has after the second. *)
Theorem run_ids_fresh_ids_stable st calls1 c1 calls2 c2 :
  Inj (=) (=) uuid_of →
  run_is_run_workflow (self st) = true →
  is_Some (run_id (self (invoke_all (calls1 ++ [c1]) st))) ∧
  run_id (self (invoke_all (calls2 ++ [c2]) (invoke_all (calls1 ++ [c1]) st))) ≠
    run_id (self (invoke_all (calls1 ++ [c1]) st)) ∧
  is_Some (workflow_id (self (invoke_all (calls1 ++ [c1]) st))) ∧
  workflow_id (self (invoke_all (calls2 ++ [c2]) (invoke_all (calls1 ++ [c1]) st))) =
    workflow_id (self (invoke_all (calls1 ++ [c1]) st)) ∧
  is_Some (session_id (self (invoke_all (calls1 ++ [c1]) st))) ∧
  session_id (self (invoke_all (calls2 ++ [c2]) (invoke_all (calls1 ++ [c1]) st))) =
    session_id (self (invoke_all (calls1 ++ [c1]) st)).
Proof.
  intros Hinj Hr.
  pose proof (invoke_all_stable (calls2 ++ [c2]) (invoke_all (calls1 ++ [c1]) st))
    as (_ & _ & Hw & Hs & _).
  rewrite (invoke_all_snoc calls2), (invoke_all_snoc calls1) in *.
  set (sta := invoke_all calls1 st) in *.
  assert (Hra : run_is_run_workflow (self sta) = true).
  { destruct (invoke_all_stable calls1 st) as (_&_&_&_&H0&_).
    unfold sta. congruence. }
  destruct (invoke_fresh c1.1 c1.2 sta Hra) as (n1 & _ & Hn1 & Hrid1 & [w Hw1] & [s Hs1]).
  set (st1 := (invoke c1.1 c1.2 sta).2) in *.
  set (stb := invoke_all calls2 st1) in *.
  assert (Hrb : run_is_run_workflow (self stb) = true).
  { destruct (stable_invoke c1.1 c1.2 sta) as (_&_&_&_&H1&_).
    destruct (invoke_all_stable calls2 st1) as (_&_&_&_&H2&_).
    fold st1 in H1. fold stb in H2. congruence. }
  destruct (invoke_fresh c2.1 c2.2 stb Hrb) as (n2 & Hn2 & _ & Hrid2 & _).
  destruct (invoke_all_stable calls2 st1) as (_ & Hu & _). fold stb in Hu.
  split_and!.
  - by eexists.
  - rewrite Hrid1, Hrid2. intros [= Heq%Hinj]. lia.
  - by eexists.
  - rewrite Hw1. by apply Hw.
  - by eexists.
  - rewrite Hs1. by apply Hs.
Qed.

(** Claim C5.  With no storage configured, [read_from_storage] and
    [write_to_storage] return the cached record and do nothing else;
    the entry point makes no storage call and leaves the storage and the
    cached record as they were; and when it raises, the exception is one
    that the routine raised, or one raised by the assignment of the
    session id to an agent, never one caused by the missing storage. *)
Theorem storage_unset_is_noop kwargs st :
  storage (self st) = None →
  read_from_storage st = (Ok (workflow_session (self st)), st) ∧
  write_to_storage st = (Ok (workflow_session (self st)), st) ∧
  storage (self (run kwargs st).2) = None ∧
  workflow_session (self (run kwargs st).2) = workflow_session (self st) ∧
  storage_io (trace (run kwargs st).2) = storage_io (trace st) ∧
  (_subclass_run (self st) = Some ClassRun →
   ∀ e st', run kwargs st = (Raise e, st') →
     (∃ f w, cls_run (klass st) = Some f ∧ f w kwargs = Raise e) ∨
     (∃ st0, storage (self st0) = None ∧
        update_agent_session_ids st0 = (Raise e, st'))).
Proof.
  intros Hs.
  split; [by apply read_from_storage_offline|].
  split; [by apply write_to_storage_offline|].
  destruct (offline_run kwargs st Hs) as (H1 & H2 & H3).
  split_and!; try done.
  intros Hsub e st' Hrun.
  destruct (run_is_run_workflow (self st)) eqn:Hrw.
  - rewrite run_eq, run_workflow_eq in Hrun by done.
    destruct (prepare_run_prepared kwargs st) as (n & sid & wid & Hprep).
    destruct (prepare_run kwargs st) as [[[]|e0] stp] eqn:Hp; cbn in Hprep.
    + destruct Hprep as ((Hk & _ & _ & _ & _ & Hsub') & _ & _ & _ & _ & _ & _ & _
                         & Hrr & Hm & _).
      destruct (cls_run (klass st)) as [f|] eqn:Hf.
      * rewrite (call_subclass_run_overriding kwargs stp f) in Hrun by congruence.
        destruct (f (self stp) kwargs) as [r|e1] eqn:Hfr.
        -- exfalso. destruct r as [src|r|v].
           ++ by rewrite (handle_result_iterator _ _ _ Hrr) in Hrun.
           ++ by rewrite (handle_result_response _ _ _ Hrr eq_refl Hm) in Hrun.
           ++ by rewrite handle_result_other in Hrun.
        -- injection Hrun as -> _. left. by exists f, (self stp).
      * exfalso. revert Hrun.
        cbv [call_subclass_run Workflow_run log_error emit mbind M_bind
             get_self get_class mret M_ret].
        rewrite Hsub', Hsub, Hk, Hf. by rewrite handle_result_other.
    + injection Hrun as -> ->. right.
      destruct (begin_run_ok kwargs st)
        as (st0 & ? & ? & ? & Hb & _ & Hoff & _).
      exists st0. destruct (Hoff Hs) as (Hs0 & _). split; [done|].
      unfold prepare_run in Hp. rewrite (bind_ok _ _ _ _ _ Hb) in Hp.
      by rewrite (bind_ok _ _ _ _ _ (read_from_storage_offline st0 Hs0)) in Hp.
  - revert Hrun.
    cbv [run Workflow_run log_error emit call mbind M_bind get_self get_class
         mret M_ret].
    rewrite Hrw. destruct (cls_run (klass st)) as [f|] eqn:Hf; [|done].
    destruct (f (self st) kwargs) as [r|e1] eqn:Hfr; [done|].
    intros [= -> _]. left. by exists f, (self st).
Qed.

(** *** The agents *)

Lemma for_each_skip {A : Type} (xs : list A) (body : A → M unit) st :
  (∀ x, x ∈ xs → body x = mret tt) → for_each xs body st = (Ok tt, st).
Proof.
  induction xs as [|x xs IH]; intros Hb; [done|]. cbn [for_each].
  rewrite (Hb x) by left.
  rewrite (bind_ok (mret tt) _ st tt st eq_refl).
  apply IH. intros y Hy. apply Hb. by right.
Qed.

(** Claim C7, what the code does.  [update_agent_session_ids] tests the
    declared [type] of each dataclass field, not its value.  A declared
    type is an annotation (its source text, since the module postpones
    the evaluation of annotations) and is never an [Agent] object; so
    the method returns without having assigned anything, whatever the
    fields hold: the instance, the log and every [Agent] are as
    before. *)
Theorem update_agent_session_ids_inert st :
  (∀ fld, fld ∈ cls_fields (klass st) → isinstance_Agent (f_type fld) = false) →
  update_agent_session_ids st = (Ok tt, st).
Proof.
  intros Hf. unfold update_agent_session_ids.
  rewrite (bind_ok get_class _ st (klass st) st eq_refl).
  apply for_each_skip. intros fld [Hb|Hc]%elem_of_app.
  - unfold base_fields in Hb. apply list_elem_of_fmap in Hb as (p & -> & _).
    done.
  - by rewrite (Hf fld Hc).
Qed.

(** ** Further properties *)

(** *** The generator, consumed partly or over a source that raises *)

(** The routine's sequence raises [e] after the items [items]: the
    consumer receives the items, stamped, and then [e] itself; no run is
    added to memory, nothing is upserted, and, unlike an exception raised
    by the call of the routine, [e] is not logged.  Stamped: a
    [RunResponse] carries the identifiers of the instance, which are the
    run's [run_id], the [session_id] and the [workflow_id]. *)
Theorem run_stream_raises kwargs st stp f items e :
  installed st →
  cls_run (klass st) = Some f →
  prepare_run kwargs st = (Ok tt, stp) →
  f (self stp) kwargs = Ok (Iterator (mkIterator items (Some e))) →
  ∃ g st1 st2 st3,
    run kwargs st = (Ok (ResGenerator g), st1) ∧
    advance (length items) g st1 = (Ok (stamp_item (self st1) <$> items), st2) ∧
    exhaust g st1 = (Raise e, st3) ∧
    memory (self st3) = memory (self stp) ∧
    upserts (trace st3) = upserts (trace st) ∧
    errors (trace st3) = errors (trace stp) ∧
    ∃ n sid wid,
      uuid_next st ≤ n ∧
      run_id (self st1) = Some (uuid_of n) ∧
      session_id (self st1) = Some sid ∧
      workflow_id (self st1) = Some wid ∧
      stamp_item (self st1) <$> items =
        (λ it, match it with
               | ItemResponse r =>
                   ItemResponse
                     (RunResponse.mk (RunResponse.content r) (Some (uuid_of n))
                        (Some sid) (Some wid) (RunResponse.rest r))
               | ItemOther v => ItemOther v
               end) <$> items.
Proof.
  intros Hi Hf Hp Hit.
  destruct (run_returns_generator kwargs st stp f _ Hi Hf Hp Hit)
    as (st1 & rr & Hrun & Hrr & Hc & Hm & Htr & Hup & n & sid & wid & Hn
        & Hrid & Hsid & Hwid).
  destruct (advance_ok (length items) items (Some e) st1 rr "" Hrr Hc)
    as (st2 & _ & _ & Hadv); [done|].
  destruct (exhaust_items_raise items e st1 rr "" Hrr Hc) as (st3 & Hs & Hex).
  pose proof (respects_exhaust_items no_error items (Some e)
                no_error_result_generator_step
                no_error_result_generator_finish st1) as Hne.
  rewrite Hex in Hne. unfold no_error in Hne. cbn in Hne.
  rewrite firstn_all in Hadv.
  destruct Hs as (_ & _ & _ & _ & Hup3 & Hself).
  eexists _, st1, st2, st3. split_and!; try done.
  - rewrite Hself. rewrite <- Hm. done.
  - congruence.
  - congruence.
  - exists n, sid, wid. split_and!; try done. by apply stamp_item_ids.
Qed.

(** A consumer that takes only the first [k] items: it receives them
    stamped, the response under construction holds their text so far,
    and the run is not recorded: memory is as it was when the routine was
    called and nothing has been upserted.  Stamped: a [RunResponse]
    carries the identifiers of the instance, which are the run's
    [run_id], the [session_id] and the [workflow_id]. *)
Theorem run_stream_abandoned kwargs st stp f items fin k :
  installed st →
  cls_run (klass st) = Some f →
  prepare_run kwargs st = (Ok tt, stp) →
  f (self stp) kwargs = Ok (Iterator (mkIterator items fin)) →
  k ≤ length items →
  ∃ g st1 st2 rr,
    run kwargs st = (Ok (ResGenerator g), st1) ∧
    advance k g st1 = (Ok (stamp_item (self st1) <$> take k items), st2) ∧
    run_response (self st2) = Some rr ∧
    RunResponse.content rr = VStr (texts (take k items)) ∧
    memory (self st2) = memory (self stp) ∧
    upserts (trace st2) = upserts (trace st) ∧
    ∃ n sid wid,
      uuid_next st ≤ n ∧
      run_id (self st1) = Some (uuid_of n) ∧
      session_id (self st1) = Some sid ∧
      workflow_id (self st1) = Some wid ∧
      stamp_item (self st1) <$> take k items =
        (λ it, match it with
               | ItemResponse r =>
                   ItemResponse
                     (RunResponse.mk (RunResponse.content r) (Some (uuid_of n))
                        (Some sid) (Some wid) (RunResponse.rest r))
               | ItemOther v => ItemOther v
               end) <$> take k items.
Proof.
  intros Hi Hf Hp Hit Hk.
  destruct (run_returns_generator kwargs st stp f _ Hi Hf Hp Hit)
    as (st1 & rr & Hrun & Hrr & Hc & Hm & Htr & Hup & n & sid & wid & Hn
        & Hrid & Hsid & Hwid).
  destruct (advance_ok k items fin st1 rr "" Hrr Hc Hk)
    as (st2 & Hs & Hrr2 & Hadv).
  destruct Hs as (_ & _ & _ & _ & Hup2 & Hself).
  eexists _, st1, st2, _. split_and!; try done.
  - rewrite Hself. by rewrite <- Hm.
  - congruence.
  - exists n, sid, wid. split_and!; try done. by apply stamp_item_ids.
Qed.

(** *** A routine that returns something else *)

(** The routine returns a value that is neither an iterator nor a
    [RunResponse]: the entry point logs a warning naming the value's
    type and returns [None]; the run is not added to memory and nothing
    is upserted, although the run's identifier was drawn and the empty
    response was built. *)
Theorem run_other_result kwargs st stp f v :
  installed st →
  cls_run (klass st) = Some f →
  prepare_run kwargs st = (Ok tt, stp) →
  f (self stp) kwargs = Ok (Other v) →
  ∃ st1,
    run kwargs st = (Ok ResNone, st1) ∧
    trace st1 =
      trace stp ++
      [LogWarning ("Workflow.run() should only return RunResponse objects, got: "
                   ++ type_repr v)] ∧
    self st1 = self stp ∧
    upserts (trace st1) = upserts (trace st) ∧
    is_Some (run_id (self st1)).
Proof.
  intros Hi Hf Hp Hr.
  destruct (run_called kwargs st stp f Hi Hf Hp) as [Hrun (n & sid & wid & Hprep)].
  rewrite Hr, handle_result_other in Hrun.
  destruct Hprep as (_ & _ & _ & _ & Hrid & _ & _ & _ & _ & _ & Hup).
  eexists. split; [exact Hrun|]. cbn.
  rewrite upserts_app, app_nil_r. split_and!; first [done | by eexists].
Qed.

(** *** Construction *)

(** The Agent objects among some Python objects, by reference. *)
Definition agent_refs (os : list pyobj) : list nat :=
  omap (λ o, match o with PyAgent r => Some r | _ => None end) os.

Lemma for_each_post_init (entries : list (string * pyobj)) : ∀ st,
  ∃ ags, for_each entries (λ entry,
           if isinstance_Agent entry.2
           then w ← get_self; setattr_session_id entry.2 (session_id w)
           else mret tt) st = (Ok tt, st_with_agents ags st) ∧
    (∀ ref, ref ∈ agent_refs entries.*2 →
       ags !! ref = Some (Agent.mk (session_id (self st)))) ∧
    (∀ ref, ref ∉ agent_refs entries.*2 → ags !! ref = agents st !! ref).
Proof.
  induction entries as [|[nm o] entries IH]; intros st.
  - exists (agents st). split; [by destruct st|]. split; [|done].
    intros ref Hin. by apply elem_of_nil in Hin.
  - cbn [for_each snd]. destruct o as [r|v|c|]; cbn [isinstance_Agent].
    2-4: rewrite (bind_ok (mret tt) _ st tt st eq_refl);
      destruct (IH st) as (ags & -> & H1 & H2); by exists ags.
    rewrite (bind_ok _ _ st tt
               (st_with_agents
                  (<[r := Agent.mk (session_id (self st))]> (agents st)) st)
               eq_refl).
    destruct (IH (st_with_agents
                    (<[r:=Agent.mk (session_id (self st))]> (agents st)) st))
      as (ags & -> & H1 & H2).
    exists ags. split; [done|]. cbn in H1, H2.
    change (agent_refs ((nm, PyAgent r) :: entries).*2)
      with (r :: agent_refs entries.*2).
    split; intros ref; rewrite elem_of_cons.
    + intros [->|Hin]; [|by apply H1].
      destruct (decide (r ∈ agent_refs entries.*2)) as [Hin|Hn]; [by apply H1|].
      by rewrite (H2 _ Hn), lookup_insert_eq.
    + intros Hn. rewrite H2 by eauto.
      apply lookup_insert_ne. intros ->. apply Hn. by left.
Qed.

Lemma update_run_method_ok st :
  update_run_method st =
    (Ok tt,
     st_with_self
       (with_run_is_run_workflow
          (match cls_run (klass st) with
           | Some _ => true
           | None => run_is_run_workflow (self st)
           end)
          (with_subclass_run (Some ClassRun) (self st))) st).
Proof.
  cbv [update_run_method mbind M_bind get_class modify_self].
  destruct (cls_run (klass st)); [done|]. cbn. by destruct st as [[] ? ? ? ? ? ?].
Qed.

Lemma __init___ok args st :
  ∃ w ags,
    __init__ args st = (Ok tt, st_with_agents ags (st_with_self w st)) ∧
    opt_to_value (str_or (InitArgs.name args) (Some (cls_name (klass st)))) = name w ∧
    workflow_id w = InitArgs.workflow_id args ∧
    session_id w = InitArgs.session_id args ∧
    session_state w = default ∅ (InitArgs.session_state args) ∧
    storage w = InitArgs.storage args ∧
    run_id w = None ∧ memory w = InitArgs.memory args ∧
    run_is_run_workflow w = bool_decide (is_Some (cls_run (klass st))) ∧
    _subclass_run w = Some ClassRun ∧
    (∀ ref, ref ∈ agent_refs (cls_dict (klass st)).*2 →
       ags !! ref = Some (Agent.mk (InitArgs.session_id args))) ∧
    (∀ ref, ref ∉ agent_refs (cls_dict (klass st)).*2 →
       ags !! ref = agents st !! ref).
Proof.
  unfold __init__.
  rewrite (bind_ok get_class _ st (klass st) st eq_refl).
  rewrite (bind_ok _ _ _ _ _ (modify_self_ok _ _)).
  rewrite (bind_ok _ _ _ _ _ (update_run_method_ok _)).
  unfold __post_init__.
  match goal with
  | |- context [(get_class ≫= ?k) ?s] =>
      rewrite (bind_ok get_class k s (klass s) s eq_refl);
      destruct (for_each_post_init (cls_dict (klass s)) s) as (ags & -> & H1 & H2)
  end.
  eexists _, ags. split; [reflexivity|]. cbn in *. split_and!; try done.
  destruct (cls_run (klass st)).
  - by rewrite bool_decide_eq_true_2.
  - rewrite bool_decide_eq_false_2; [done|]. by intros [? [=]].
Qed.

(** The constructor, on a class that inherits [run] or defines it as a
    function: it returns, draws no uuid and logs nothing.  The instance's
    own [run] is [run_workflow] exactly when the class defines [run];
    [_subclass_run] is set either way.  The name falls back to the
    class's name when none or an empty one is given, and identifiers
    that were not given stay unset. *)
Theorem new_instance k args ags n dbg :
  __init__ args (mkState unset k ags n dbg LevelInfo []) =
    (Ok tt, new k args ags n dbg) ∧
  uuid_next (new k args ags n dbg) = n ∧
  trace (new k args ags n dbg) = [] ∧
  klass (new k args ags n dbg) = k ∧
  run_is_run_workflow (self (new k args ags n dbg)) =
    bool_decide (is_Some (cls_run k)) ∧
  _subclass_run (self (new k args ags n dbg)) = Some ClassRun ∧
  name (self (new k args ags n dbg)) =
    VStr (match InitArgs.name args with
          | Some s => if bool_decide (s = "") then cls_name k else s
          | None => cls_name k
          end) ∧
  workflow_id (self (new k args ags n dbg)) = InitArgs.workflow_id args ∧
  session_id (self (new k args ags n dbg)) = InitArgs.session_id args ∧
  run_id (self (new k args ags n dbg)) = None.
Proof.
  unfold new.
  destruct (__init___ok args (mkState unset k ags n dbg LevelInfo []))
    as (w & ags' & -> & Hn & Hw & Hs & _ & _ & Hr & _ & Hrw & Hsub & _).
  cbn in *. split_and!; try done.
  rewrite <- Hn. unfold str_or.
  destruct (InitArgs.name args) as [s|]; [|done].
  by destruct (bool_decide (s = "")).
Qed.

(** [__post_init__], at the end of the constructor: every [Agent] object
    that is an attribute of the class holds the session id given to the
    constructor, [None] when none was given; the other Agent objects are
    as they were. *)
Theorem new_instance_agents k args ags n dbg ref :
  (ref ∈ agent_refs (cls_dict k).*2 →
   agents (new k args ags n dbg) !! ref =
     Some (Agent.mk (InitArgs.session_id args))) ∧
  (ref ∉ agent_refs (cls_dict k).*2 →
   agents (new k args ags n dbg) !! ref = ags !! ref).
Proof.
  unfold new.
  destruct (__init___ok args (mkState unset k ags n dbg LevelInfo []))
    as (w & ags' & -> & _ & _ & _ & _ & _ & _ & _ & _ & _ & H1 & H2).
  cbn in *. split; [apply H1 | apply H2].
Qed.

(** *** Identifiers and storage mode *)

(** [set_workflow_id] and [set_session_id] never raise and return the
    identifier that the instance ends up with.  An identifier that is
    set is returned as it is, without drawing a uuid or changing
    anything; one that is unset is drawn.  Either way a second call
    returns the same identifier and changes nothing. *)
Theorem set_ids_idempotent st :
  (∃ i st1,
     set_workflow_id st = (Ok i, st1) ∧
     workflow_id (self st1) = Some i ∧
     set_workflow_id st1 = (Ok i, st1) ∧
     (∀ j, workflow_id (self st) = Some j → i = j ∧ st1 = st) ∧
     (workflow_id (self st) = None →
      i = uuid_of (uuid_next st) ∧ uuid_next st1 = S (uuid_next st))) ∧
  (∃ i st1,
     set_session_id st = (Ok i, st1) ∧
     session_id (self st1) = Some i ∧
     set_session_id st1 = (Ok i, st1) ∧
     (∀ j, session_id (self st) = Some j → i = j ∧ st1 = st) ∧
     (session_id (self st) = None →
      i = uuid_of (uuid_next st) ∧ uuid_next st1 = S (uuid_next st))).
Proof.
  split.
  - cbv [set_workflow_id uuid4 modify_self mbind M_bind get_self mret M_ret].
    destruct (workflow_id (self st)) as [i|] eqn:Hw; cbn.
    + exists i, st. rewrite Hw. split_and!; try done. by intros j [= ->].
    + eexists _, _. split; [reflexivity|]. cbn. by split_and!.
  - cbv [set_session_id uuid4 modify_self mbind M_bind get_self mret M_ret].
    destruct (session_id (self st)) as [i|] eqn:Hw; cbn.
    + exists i, st. rewrite Hw. split_and!; try done. by intros j [= ->].
    + eexists _, _. split; [reflexivity|]. cbn. by split_and!.
Qed.

(** [set_storage_mode] never raises.  Without a storage it does nothing.
    With one, the mode becomes ["workflow"] and the backend is left
    alone; a warning is logged exactly when the mode was ["agent"] or
    ["team"].  A second call is silent and changes nothing. *)
Theorem set_storage_mode_spec st :
  ∃ st1,
    set_storage_mode st = (Ok tt, st1) ∧
    set_storage_mode st1 = (Ok tt, st1) ∧
    (storage (self st) = None → st1 = st) ∧
    (∀ s, storage (self st) = Some s →
       storage (self st1) = Some (Storage.mk "workflow" (Storage.db s)) ∧
       trace st1 =
         trace st ++
         (if bool_decide (Storage.mode s ∈ ["agent"; "team"])
          then [LogWarning
                  ("You shouldn't use storage in multiple modes. Current mode is "
                   ++ Storage.mode s ++ ".")]
          else [])).
Proof.
  cbv [set_storage_mode log_warning emit modify_self mbind M_bind get_self
       mret M_ret].
  destruct (storage (self st)) as [s|] eqn:Hs.
  - destruct (bool_decide (Storage.mode s ∈ ["agent"; "team"])) eqn:Hm;
      (eexists; split; [reflexivity|]); cbn; split_and!; try done;
      try (intros s' [= <-]; by rewrite Hm, ?app_nil_r).
  - exists st. rewrite Hs. by split_and!.
Qed.

(** *** Loading a record *)

Lemma bind_preserves (R : relation State) (P : State → Prop)
    {A B : Type} (m : M A) (f : A → M B) st :
  (∀ s s', R s s' → P s → P s') →
  P (m st).2 →
  (∀ x, respects R (f x)) →
  P ((m ≫= f) st).2.
Proof.
  intros HR Hm Hf. unfold mbind, M_bind.
  destruct (m st) as [[x|e] st1]; cbn in *; [|done].
  apply (HR st1); [apply Hf | done].
Qed.

(** Holds across everything that assigns none of the three
    identifiers. *)
Definition keeps_ids (st st' : State) : Prop :=
  workflow_id (self st') = workflow_id (self st) ∧
  user_id (self st') = user_id (self st) ∧
  session_id (self st') = session_id (self st).

#[local] Instance keeps_ids_preorder : PreOrder keeps_ids.
Proof.
  split; unfold keeps_ids; [done|].
  intros ??? (?&?&?) (?&?&?). split_and!; congruence.
Qed.

Ltac keeps_ids_leaf :=
  intros ?;
  cbv [modify_self emit log_warning log_error raise call get_self get_class
       mret M_ret mbind M_bind keeps_ids];
  repeat case_match; done.

(** The value of an identifier after a load: kept when set, else taken
    from the record. *)
Definition filled (mine theirs : option string) : option string :=
  match mine with Some x => Some x | None => theirs end.

Lemma load_workflow_session_ids session st :
  workflow_id (self (load_workflow_session session st).2) =
    filled (workflow_id (self st)) (WorkflowSession.workflow_id session) ∧
  user_id (self (load_workflow_session session st).2) =
    filled (user_id (self st)) (WorkflowSession.user_id session) ∧
  session_id (self (load_workflow_session session st).2) =
    filled (session_id (self st)) (WorkflowSession.session_id session).
Proof.
  unfold load_workflow_session.
  do 3 (rewrite (bind_ok _ _ _ _ _ (modify_self_ok _ _)); cbv beta).
  set (st3 := st_with_self _ (st_with_self _ (st_with_self _ st))).
  set (rest := _ ≫= _).
  assert (Hrest : respects keeps_ids rest).
  { unfold rest, extend_artifacts, initialize_memory.
    respects_walk; keeps_ids_leaf. }
  destruct (Hrest st3) as (-> & -> & ->).
  subst st3. unfold filled. cbn.
  destruct (workflow_id (self st)) eqn:H1,
    (WorkflowSession.workflow_id session); cbn;
    destruct (user_id (self st)) eqn:H2,
      (WorkflowSession.user_id session); cbn;
    destruct (session_id (self st)) eqn:H3,
      (WorkflowSession.session_id session); cbn;
    by rewrite ?H1, ?H2, ?H3.
Qed.

(** [load_workflow_session] takes [workflow_id], [user_id] and
    [session_id] from the record only where the instance has none: an
    identifier that is set is never replaced, whether the load returns or
    raises. *)
Theorem load_fills_unset_ids session st :
  workflow_id (self (load_workflow_session session st).2) =
    match workflow_id (self st) with
    | Some x => Some x
    | None => WorkflowSession.workflow_id session
    end ∧
  user_id (self (load_workflow_session session st).2) =
    match user_id (self st) with
    | Some x => Some x
    | None => WorkflowSession.user_id session
    end ∧
  session_id (self (load_workflow_session session st).2) =
    match session_id (self st) with
    | Some x => Some x
    | None => WorkflowSession.session_id session
    end.
Proof. apply load_workflow_session_ids. Qed.

(** Holds across everything that does not assign [images]. *)
Definition keeps_images (st st' : State) : Prop :=
  images (self st') = images (self st).

#[local] Instance keeps_images_preorder : PreOrder keeps_images.
Proof. split; unfold keeps_images; [done|congruence]. Qed.

Ltac keeps_images_leaf :=
  intros ?;
  cbv [modify_self emit log_warning log_error raise call get_self get_class
       mret M_ret mbind M_bind keeps_images];
  repeat case_match; done.

Lemma extend_artifacts_images l xs st :
  mapM model_validate l = Some xs →
  images (self (extend_artifacts images with_images l st).2) =
    Some (default [] (images (self st)) ++ xs).
Proof.
  intros Hl.
  cbv [extend_artifacts validate_all modify_self mbind M_bind get_self
       mret M_ret].
  rewrite Hl. destruct (images (self st)) eqn:Hi; cbn; by rewrite ?Hi.
Qed.

(** Every load appends the record's images to the instance's list, with
    no check for ones it already holds: when the record's [images] entry
    is a list whose elements all validate, the list after the load is the
    list before it followed by the validated elements.  This holds
    whether or not a later part of the load raises. *)
Theorem load_appends_images session st sd l xs :
  WorkflowSession.session_data session = Some sd →
  sd !! "images" = Some (VList l) →
  mapM model_validate l = Some xs →
  images (self (load_workflow_session session st).2) =
    Some (default [] (images (self st)) ++ xs).
Proof.
  intros Hsd Himg Hl. unfold load_workflow_session.
  do 3 (rewrite (bind_ok _ _ _ _ _ (modify_self_ok _ _)); cbv beta).
  set (st3 := st_with_self _ (st_with_self _ (st_with_self _ st))).
  assert (H3 : images (self st3) = images (self st)).
  { subst st3. cbn. by repeat case_match. }
  rewrite <- H3. clearbody st3. clear H3 st.
  set (m4 := match WorkflowSession.workflow_data session with
             | Some _ => _ | None => _ end).
  assert (∃ st4, m4 st3 = (Ok tt, st4) ∧ images (self st4) = images (self st3))
    as (st4 & H4 & Hs4).
  { subst m4. destruct (WorkflowSession.workflow_data session).
    - eexists; split; [apply modify_self_ok|]. cbn. by repeat case_match.
    - by eexists. }
  rewrite (bind_ok _ _ _ _ _ H4). cbv beta. rewrite <- Hs4.
  clear H4 Hs4 m4 st3.
  apply (bind_preserves keeps_images (λ s, images (self s) = _));
    [by intros s s' -> | |
     intros []; unfold initialize_memory; respects_walk; keeps_images_leaf].
  rewrite Hsd.
  rewrite (bind_ok _ _ _ _ _ (modify_self_ok _ _)); cbv beta.
  set (st5 := st_with_self _ st4).
  assert (H5 : images (self st5) = images (self st4)).
  { subst st5. cbn. by repeat case_match. }
  rewrite <- H5. clearbody st5. clear H5 st4.
  set (m6 := match session_state_from_db session with
             | Some _ => _ | None => _ end).
  assert (∃ st6, m6 st5 = (Ok tt, st6) ∧ images (self st6) = images (self st5))
    as (st6 & H6 & Hs6).
  { subst m6. destruct (session_state_from_db session).
    - eexists; split; [apply modify_self_ok|]. cbn. by repeat case_match.
    - by eexists. }
  rewrite (bind_ok _ _ _ _ _ H6). cbv beta. rewrite <- Hs6.
  clear H6 Hs6 m6 st5.
  rewrite Himg.
  apply (bind_preserves keeps_images (λ s, images (self s) = _));
    [by intros s s' -> | by apply extend_artifacts_images |
     intros []; unfold extend_artifacts; respects_walk; keeps_images_leaf].
Qed.

(** *** When a load raises *)

(** A computation that returns from every state. *)
Definition returns {A : Type} (m : M A) : Prop :=
  ∀ st, ∃ x st', m st = (Ok x, st').

Lemma returns_bind {A B : Type} (m : M A) (f : A → M B) :
  returns m → (∀ x, returns (f x)) → returns (m ≫= f).
Proof.
  intros Hm Hf st. destruct (Hm st) as (x & st1 & H1).
  rewrite (bind_ok _ _ _ _ _ H1). apply Hf.
Qed.

Lemma returns_ret {A : Type} (x : A) : returns (mret x).
Proof. intros st. by eexists _, _. Qed.

Lemma returns_modify_self f : returns (modify_self f).
Proof. intros st. by eexists _, _. Qed.

Lemma returns_log_warning msg : returns (log_warning msg).
Proof. intros st. by eexists _, _. Qed.

Lemma returns_get_self : returns get_self.
Proof. intros st. by eexists _, _. Qed.

Lemma returns_initialize_memory : returns initialize_memory.
Proof.
  intros st. cbv [initialize_memory mbind M_bind get_self].
  destruct (memory (self st)); by eexists _, _.
Qed.

Lemma returns_extend_artifacts {A : Type} `{!Model A} cur assign l :
  is_Some (mapM (model_validate (A:=A)) l) →
  returns (extend_artifacts cur assign l).
Proof.
  intros [xs Hl] st.
  cbv [extend_artifacts validate_all modify_self mbind M_bind get_self
       mret M_ret].
  rewrite Hl. destruct (cur (self st)); by eexists _, _.
Qed.

Ltac returns_step :=
  lazymatch goal with
  | |- returns (mret _) => apply returns_ret
  | |- returns (modify_self _) => apply returns_modify_self
  | |- returns (log_warning _) => apply returns_log_warning
  | |- returns get_self => apply returns_get_self
  | |- returns initialize_memory => apply returns_initialize_memory
  | |- returns (mbind _ _) => apply returns_bind; [|intros ?]
  | |- returns (match ?x with _ => _ end) => destruct x eqn:?
  end.

(** A run list that cannot be loaded: the last thing a load that returns
    has done is to log the warning. *)
Lemma load_workflow_session_warns session st st' m rs :
  WorkflowSession.memory session = Some m →
  m !! "runs" = Some rs →
  py_iter rs ≫= mapM WorkflowRun_of = None →
  load_workflow_session session st = (Ok tt, st') →
  ∃ msg, last (trace st') =
    Some (LogWarning ("Failed to load runs from memory" ++ msg)).
Proof.
  intros Hm Hrs Hl Hld. unfold load_workflow_session in Hld.
  do 6 (apply bind_inv_ok in Hld as (? & ? & _ & Hld)).
  rewrite Hm in Hld.
  apply bind_inv_ok in Hld as (? & st1 & _ & Hld).
  rewrite Hrs, Hl in Hld.
  cbv [log_warning emit] in Hld. injection Hld as <-.
  exists "". cbn [trace st_with_trace]. by rewrite last_snoc.
Qed.

(** [load_workflow_session] raises only on an artifact that does not
    validate: when the lists under ["images"], ["videos"] and ["audio"]
    of the record, where present, hold elements that all validate, the
    load returns, whatever else the record holds.  In particular a run
    list that cannot be loaded is a warning and not an exception: the
    load returns, and the last line of the log is then the warning,
    whose text starts with ["Failed to load runs from memory"]. *)
Theorem load_returns session st :
  (∀ sd l, WorkflowSession.session_data session = Some sd →
     sd !! "images" = Some (VList l) →
     is_Some (mapM (model_validate (A:=ImageArtifact)) l)) →
  (∀ sd l, WorkflowSession.session_data session = Some sd →
     sd !! "videos" = Some (VList l) →
     is_Some (mapM (model_validate (A:=VideoArtifact)) l)) →
  (∀ sd l, WorkflowSession.session_data session = Some sd →
     sd !! "audio" = Some (VList l) →
     is_Some (mapM (model_validate (A:=AudioArtifact)) l)) →
  ∃ st', load_workflow_session session st = (Ok tt, st') ∧
    (∀ m rs,
       WorkflowSession.memory session = Some m →
       m !! "runs" = Some rs →
       py_iter rs ≫= mapM WorkflowRun_of = None →
       ∃ msg, last (trace st') =
         Some (LogWarning ("Failed to load runs from memory" ++ msg))).
Proof.
  intros Hi Hv Ha.
  assert (Hr : returns (load_workflow_session session)).
  { unfold load_workflow_session. repeat returns_step.
    all: apply returns_extend_artifacts; eauto. }
  destruct (Hr st) as ([] & st' & Hl). exists st'. split; [done|].
  intros m rs Hm Hrs Hn. by eapply load_workflow_session_warns.
Qed.

(** *** What is written is what is read *)

Lemma session_state_from_db_snapshot w :
  session_state_from_db (get_workflow_session w) =
    if nonempty (session_state w) then Some (session_state w) else None.
Proof.
  unfold session_state_from_db, get_workflow_session, get_session_data. cbn.
  destruct (nonempty (session_state w)) eqn:Hne;
    destruct (session_name w), (images w), (videos w), (audio w);
    simplify_map_eq; by rewrite ?Hne.
Qed.

(** The record that [get_workflow_session] builds from an instance,
    loaded into an instance that has no identifiers and an empty session
    state, gives that instance the identifiers and the session state of
    the first: what [write_to_storage] hands to the backend is what
    [load_workflow_session] needs to restore them.  (Session-state values
    are plain data, which [nested_model_dump] leaves as they are.) *)
Theorem snapshot_round_trip w st :
  workflow_id (self st) = None →
  user_id (self st) = None →
  session_id (self st) = None →
  session_state (self st) = ∅ →
  workflow_id (self (load_workflow_session (get_workflow_session w) st).2) =
    workflow_id w ∧
  user_id (self (load_workflow_session (get_workflow_session w) st).2) =
    user_id w ∧
  session_id (self (load_workflow_session (get_workflow_session w) st).2) =
    session_id w ∧
  session_state (self (load_workflow_session (get_workflow_session w) st).2) =
    session_state w.
Proof.
  intros Hw Hu Hs Hst.
  destruct (load_workflow_session_ids (get_workflow_session w) st)
    as (-> & -> & ->).
  rewrite Hw, Hu, Hs. split_and!; try done.
  rewrite load_workflow_session_state. unfold loaded_state.
  rewrite session_state_from_db_snapshot, Hst.
  destruct (nonempty (session_state w)) eqn:Hne; [done|].
  unfold nonempty in Hne. apply negb_false_iff, bool_decide_eq_true in Hne.
  by rewrite Hne.
Qed.

(** *** Sessions *)

Lemma stable_load_session force : respects stable (load_session force).
Proof. unfold load_session. respects_auto. Qed.
Lemma same_run_load_session force : respects same_run (load_session force).
Proof. unfold load_session. respects_auto. Qed.
Lemma offline_load_session force : respects offline (load_session force).
Proof. unfold load_session. respects_auto. Qed.

(** [new_session] gives the instance a session id that is drawn there
    and then, replacing the one it had, and draws nothing else; the
    workflow id is kept.  Without a storage it returns, leaves the
    cached record empty and makes no storage call. *)
Theorem new_session_fresh st :
  session_id (self (new_session st).2) = Some (uuid_of (uuid_next st)) ∧
  uuid_next (new_session st).2 = S (uuid_next st) ∧
  (∀ x, workflow_id (self st) = Some x →
     workflow_id (self (new_session st).2) = Some x) ∧
  (storage (self st) = None →
   (new_session st).1 = Ok tt ∧
   workflow_session (self (new_session st).2) = None ∧
   storage_io (trace (new_session st).2) = storage_io (trace st)).
Proof.
  unfold new_session.
  rewrite (bind_ok _ _ _ _ _ (modify_self_ok _ _)).
  erewrite (bind_ok uuid4); [|reflexivity].
  rewrite (bind_ok _ _ _ _ _ (modify_self_ok _ _)).
  set (st2 := st_with_self _ _).
  set (rest := _ ≫= _).
  assert (H1 : respects stable rest)
    by (unfold rest; pose proof stable_load_session; respects_walk).
  assert (H2 : respects same_run rest)
    by (unfold rest; pose proof same_run_load_session; respects_walk).
  assert (H3 : respects offline rest)
    by (unfold rest; pose proof offline_load_session; respects_walk).
  destruct (H1 st2) as (_ & _ & Hw & Hs & _), (H2 st2) as (Hu & _).
  split_and!.
  - by apply Hs.
  - by rewrite Hu.
  - intros x Hx. by apply Hw.
  - intros Hst. destruct (H3 st2 Hst) as (Hst' & Hws & Hio).
    split_and!; try done.
    assert (Hc : session_is_cached true (self st2) = false) by done.
    assert (Hst2 : storage (self st2) = None) by done.
    unfold rest. cbv [load_session mbind M_bind get_self mret M_ret].
    by rewrite Hc, Hst2.
Qed.

(** [rename]: when the read that comes first returns, the instance ends
    with the new name, whatever the record held, and with a storage
    exactly one session is upserted, which carries the new name; without
    one nothing is upserted.  When the read raises, so does [rename],
    before anything was renamed. *)
Theorem rename_spec new_name st o st1 :
  read_from_storage st = (o, st1) →
  match o with
  | Raise e => rename new_name st = (Raise e, st1)
  | Ok _ =>
      ∃ st2,
        rename new_name st = (Ok tt, st2) ∧
        name (self st2) = VStr new_name ∧
        upserts (trace st2) =
          upserts (trace st) ++
          match storage (self st) with
          | Some _ => [StorageUpsert (get_workflow_session (self st2))]
          | None => []
          end ∧
        WorkflowSession.workflow_data (get_workflow_session (self st2))
          ≫= (.!! "name") = Some (VStr new_name)
  end.
Proof.
  intros Hr. unfold rename.
  pose proof (quiet_read_from_storage st) as (Hup & _ & Hst).
  rewrite Hr in Hup, Hst. cbn in Hup, Hst.
  destruct o as [x|e]; [|by rewrite (bind_raise _ _ _ _ _ Hr)].
  rewrite (bind_ok _ _ _ _ _ Hr).
  rewrite (bind_ok _ _ _ _ _ (modify_self_ok _ _)).
  rewrite (bind_ok _ _ _ _ _ (write_to_storage_eq _)).
  eexists. split; [reflexivity|].
  rewrite get_workflow_session_written, written_upserts.
  split_and!.
  - unfold written. cbn. by destruct (storage (self st1)).
  - unfold st_with_self, with_name. cbn [trace self storage].
    by rewrite Hst, Hup.
  - unfold get_workflow_session, get_workflow_data. cbn.
    destruct (workflow_id (self st1)), (description (self st1));
      by simplify_map_eq.
Qed.

Lemma load_session_cached st :
  session_is_cached false (self st) = true →
  load_session false st = (Ok (session_id (self st)), st).
Proof.
  intros Hc. unfold load_session.
  rewrite (bind_ok get_self _ st (self st) st eq_refl), Hc.
  unfold session_is_cached in Hc.
  destruct (workflow_session (self st)) as [ws|]; [|done].
  destruct (session_id (self st)) as [sid|]; [|done].
  apply andb_true_iff in Hc as [_ Hc%bool_decide_eq_true].
  unfold mret, M_ret. cbn. by rewrite Hc.
Qed.

(** [delete_session]: without a storage nothing happens.  With one, the
    backend is asked to delete the session with the given id, and the
    instance keeps its session id and its cached record, also when the
    session deleted is its own; so a [load_session] that follows still
    answers from the cache, without reading. *)
Theorem delete_session_spec sid st :
  (storage (self st) = None → delete_session sid st = (Ok tt, st)) ∧
  (∀ s, storage (self st) = Some s →
     ∃ st1,
       delete_session sid st = (Ok tt, st1) ∧
       storage (self st1) =
         Some (Storage.mk (Storage.mode s)
                 (Storage.delete_session (Storage.db s) sid)) ∧
       trace st1 = trace st ++ [StorageDelete sid] ∧
       session_id (self st1) = session_id (self st) ∧
       workflow_session (self st1) = workflow_session (self st) ∧
       (session_is_cached false (self st) = true →
        load_session false st1 = (Ok (session_id (self st)), st1))).
Proof.
  split.
  - intros Hs. cbv [delete_session mbind M_bind get_self]. by rewrite Hs.
  - intros s Hs. cbv [delete_session emit modify_self mbind M_bind get_self].
    rewrite Hs. eexists. split; [reflexivity|]. cbn. split_and!; try done.
    intros Hc. by rewrite load_session_cached.
Qed.

(** [rename_session]: as [rename], for the session's name. *)
Theorem rename_session_spec new_name st o st1 :
  read_from_storage st = (o, st1) →
  match o with
  | Raise e => rename_session new_name st = (Raise e, st1)
  | Ok _ =>
      ∃ st2,
        rename_session new_name st = (Ok tt, st2) ∧
        session_name (self st2) = VStr new_name ∧
        upserts (trace st2) =
          upserts (trace st) ++
          match storage (self st) with
          | Some _ => [StorageUpsert (get_workflow_session (self st2))]
          | None => []
          end ∧
        WorkflowSession.session_data (get_workflow_session (self st2))
          ≫= (.!! "session_name") = Some (VStr new_name)
  end.
Proof.
  intros Hr. unfold rename_session.
  pose proof (quiet_read_from_storage st) as (Hup & _ & Hst).
  rewrite Hr in Hup, Hst. cbn in Hup, Hst.
  destruct o as [x|e]; [|by rewrite (bind_raise _ _ _ _ _ Hr)].
  rewrite (bind_ok _ _ _ _ _ Hr).
  rewrite (bind_ok _ _ _ _ _ (modify_self_ok _ _)).
  rewrite (bind_ok _ _ _ _ _ (write_to_storage_eq _)).
  eexists. split; [reflexivity|].
  rewrite get_workflow_session_written, written_upserts.
  split_and!.
  - unfold written. cbn. by destruct (storage (self st1)).
  - unfold st_with_self, with_session_name. cbn [trace self storage].
    by rewrite Hst, Hup.
  - unfold get_workflow_session, get_session_data. cbn.
    destruct (nonempty (session_state (self st1))), (images (self st1)),
      (videos (self st1)), (audio (self st1)); by simplify_map_eq.
Qed.

(** [load_session] on an instance that has a storage but no session id
    and no cached record, as before its first run: nothing is read, and
    the session that is upserted has no [session_id]; the call returns
    [None], or raises when the backend hands nothing back. *)
Theorem load_session_without_id force st :
  is_Some (storage (self st)) →
  session_id (self st) = None →
  workflow_session (self st) = None →
  WorkflowSession.session_id (get_workflow_session (self st)) = None ∧
  storage_io (trace (written st)) =
    storage_io (trace st) ++ [StorageUpsert (get_workflow_session (self st))] ∧
  load_session force st =
    match workflow_session (self (written st)) with
    | Some _ => (Ok None, written st)
    | None =>
        (Raise (Exn "Exception"
                  "Failed to create new WorkflowSession in storage"),
         written st)
    end.
Proof.
  intros [s Hs] Hsid Hws. split_and!.
  - done.
  - unfold written. rewrite Hs. cbn. by rewrite storage_io_app.
  - cbv [load_session read_from_storage session_is_cached mbind M_bind
         get_self mret M_ret raise].
    repeat (first [rewrite Hws | rewrite Hs | rewrite Hsid]; cbv beta iota).
    rewrite write_to_storage_eq. cbv beta iota.
    destruct (written_frame st) as (_ & _ & _ & Hsid' & _).
    destruct (workflow_session (self (written st))); cbv beta iota;
      by rewrite ?Hsid', ?Hsid.
Qed.

(** *** The order of storage calls *)

(** Holds across everything that makes no storage call. *)
Definition io_quiet (st st' : State) : Prop :=
  storage_io (trace st') = storage_io (trace st).

#[local] Instance io_quiet_preorder : PreOrder io_quiet.
Proof. split; unfold io_quiet; [done|congruence]. Qed.

Ltac io_quiet_leaf :=
  intros ?;
  cbv [set_storage_mode set_debug set_workflow_id set_session_id
       initialize_memory uuid4 setattr_session_id
       modify_self emit log_warning log_error raise call get_self get_class
       mret M_ret mbind M_bind];
  repeat case_match; simplify_eq; unfold io_quiet;
  cbn [snd trace st_with_trace st_with_self st_with_agents st_with_uuid_next
       st_with_log_level];
  rewrite ?storage_io_app; cbn; rewrite ?app_nil_r; done.

Lemma io_quiet_begin_run kwargs : respects io_quiet (begin_run kwargs).
Proof. unfold begin_run. respects_walk; io_quiet_leaf. Qed.

(** Holds across everything that does not take the storage away. *)
Definition has_storage (st st' : State) : Prop :=
  is_Some (storage (self st)) → is_Some (storage (self st')).

#[local] Instance has_storage_preorder : PreOrder has_storage.
Proof.
  split; [intros ? H0; exact H0 | intros ??? H1 H2 H0; exact (H2 (H1 H0))].
Qed.

Lemma has_storage_begin_run kwargs : respects has_storage (begin_run kwargs).
Proof.
  unfold begin_run. respects_walk.
  all: intros ? [? Hs];
    cbv [set_storage_mode set_debug set_workflow_id set_session_id
         initialize_memory uuid4 modify_self emit log_warning get_self
         mret M_ret mbind M_bind];
    rewrite ?Hs; repeat case_match; simplify_eq; cbn; rewrite ?Hs;
    by eexists.
Qed.

Lemma io_quiet_load_workflow_session session :
  respects io_quiet (load_workflow_session session).
Proof.
  unfold load_workflow_session, extend_artifacts. respects_walk; io_quiet_leaf.
Qed.

Lemma io_quiet_update_agent_session_ids :
  respects io_quiet update_agent_session_ids.
Proof. unfold update_agent_session_ids. respects_walk; io_quiet_leaf. Qed.

Lemma read_from_storage_io st s sid :
  storage (self st) = Some s →
  session_id (self st) = Some sid →
  storage_io (trace (read_from_storage st).2) =
    storage_io (trace st) ++ [StorageRead sid].
Proof.
  intros Hs Hsid. unfold read_from_storage.
  rewrite (bind_ok get_self _ st (self st) st eq_refl), Hs, Hsid.
  apply (bind_preserves io_quiet (λ s, storage_io (trace s) = _));
    [by intros ?? -> | | intros ?; respects_walk; io_quiet_leaf].
  rewrite (bind_ok (emit _) _ _ tt _ eq_refl).
  rewrite (bind_ok _ _ _ _ _ (modify_self_ok _ _)).
  destruct (Storage.read (Storage.db s) sid) as [session|].
  - rewrite (io_quiet_load_workflow_session session). cbn.
    by rewrite storage_io_app.
  - cbn. by rewrite storage_io_app.
Qed.

(** With a storage, the preparation of a run makes exactly one storage
    call, a read under the instance's session id, whether it then
    returns or raises. *)
Lemma prepare_run_io kwargs st :
  is_Some (storage (self st)) →
  ∃ sid,
    session_id (self (prepare_run kwargs st).2) = Some sid ∧
    is_Some (storage (self (prepare_run kwargs st).2)) ∧
    storage_io (trace (prepare_run kwargs st).2) =
      storage_io (trace st) ++ [StorageRead sid].
Proof.
  intros [s Hs].
  destruct (begin_run_ok kwargs st)
    as (st0 & n & wid & sid & Hb & _ & _ & _ & _ & _ & _ & Hsid & _).
  pose proof (io_quiet_begin_run kwargs st) as Hio0.
  assert (Hs0 : is_Some (storage (self st0))).
  { pose proof (has_storage_begin_run kwargs st) as H0.
    rewrite Hb in H0. apply H0. by eexists. }
  rewrite Hb in Hio0. unfold io_quiet in Hio0. cbn in Hio0.
  destruct Hs0 as [s0 Hs0].
  pose proof (read_from_storage_io st0 s0 sid Hs0 Hsid) as Hr.
  pose proof (stable_read_from_storage st0) as (_ & _ & _ & Hsr & _).
  pose proof (quiet_read_from_storage st0) as (_ & _ & Hqs).
  unfold prepare_run. rewrite (bind_ok _ _ _ _ _ Hb).
  destruct (read_from_storage st0) as [[x|e] st1] eqn:Hrd; cbn in *.
  - rewrite (bind_ok _ _ _ _ _ Hrd).
    pose proof (io_quiet_update_agent_session_ids st1) as Hu.
    pose proof (stable_update_agent_session_ids st1) as (_ & _ & _ & Hsu & _).
    pose proof (quiet_update_agent_session_ids st1) as (_ & _ & Hqu).
    exists sid. split_and!.
    + by apply Hsu, Hsr.
    + rewrite Hqu, Hqs. by eexists.
    + unfold io_quiet in Hu. by rewrite Hu, Hr, Hio0.
  - rewrite (bind_raise _ _ _ _ _ Hrd). cbn. exists sid. split_and!.
    + by apply Hsr.
    + rewrite Hqs. by eexists.
    + by rewrite Hr, Hio0.
Qed.

(** With a storage, a run whose routine returns a single response makes
    exactly two storage calls, in this order: a read under the session
    id that the instance has when the routine is called, and keeps, and
    an upsert of the session, under the same id, after the routine
    returned. *)
Theorem run_reads_then_writes kwargs st stp f r0 :
  installed st →
  cls_run (klass st) = Some f →
  is_Some (storage (self st)) →
  prepare_run kwargs st = (Ok tt, stp) →
  f (self stp) kwargs = Ok (Response r0) →
  ∃ r st1 sid session,
    run kwargs st = (Ok (ResResponse r), st1) ∧
    storage_io (trace stp) = storage_io (trace st) ++ [StorageRead sid] ∧
    storage_io (trace st1) =
      storage_io (trace st) ++ [StorageRead sid; StorageUpsert session] ∧
    WorkflowSession.session_id session = Some sid ∧
    session_id (self stp) = Some sid ∧
    session_id (self st1) = Some sid.
Proof.
  intros Hi Hf Hs Hp Hr.
  destruct (run_called kwargs st stp f Hi Hf Hp) as [Hrun (n & sid' & wid & Hprep)].
  rewrite Hr in Hrun.
  destruct Hprep as (_ & _ & _ & _ & _ & _ & Hsid' & _ & Hrr & Hm & _).
  rewrite (handle_result_response _ _ _ Hrr eq_refl Hm) in Hrun.
  destruct (prepare_run_io kwargs st Hs) as (sid & Hsid & [s1 Hs1] & Hio).
  rewrite Hp in Hsid, Hs1, Hio. cbn in Hsid, Hs1, Hio.
  eexists _, _, sid, _. split; [exact Hrun|]. split; [exact Hio|].
  unfold recorded, written. cbn. rewrite Hs1. cbn.
  rewrite storage_io_app, Hio, <- app_assoc. split; [reflexivity|].
  by cbn.
Qed.

(** *** Agents that are attributes of the class *)

(** The instance has session id [sid] and so has the Agent object
    [ref]. *)
Definition synced (sid : string) (ref : nat) (st : State) : Prop :=
  session_id (self st) = Some sid ∧
  agents st !! ref = Some (Agent.mk (Some sid)).

Definition keeps_synced (sid : string) (ref : nat) (st st' : State) : Prop :=
  synced sid ref st → synced sid ref st'.

#[local] Instance keeps_synced_preorder sid ref : PreOrder (keeps_synced sid ref).
Proof.
  split; [intros ? H0; exact H0 | intros ??? H1 H2 H0; exact (H2 (H1 H0))].
Qed.

Ltac keeps_synced_leaf :=
  intros ? [Hsid Hag];
  cbv [modify_self emit log_warning log_error raise call get_self get_class
       mret M_ret mbind M_bind];
  repeat case_match; simplify_eq; unfold synced; cbn; rewrite ?Hsid;
  split; done.

Lemma keeps_synced_setattr sid ref o :
  respects (keeps_synced sid ref)
    (w ← get_self; setattr_session_id o (session_id w)).
Proof.
  intros st [Hsid Hag].
  cbv [mbind M_bind get_self setattr_session_id raise mret M_ret].
  destruct o as [r|v|c|]; unfold synced; cbn; try done.
  split; [done|]. rewrite Hsid.
  destruct (decide (r = ref)) as [->|Hne].
  - by rewrite lookup_insert_eq.
  - by rewrite lookup_insert_ne.
Qed.

Lemma keeps_synced_prepare_run sid ref kwargs :
  respects (keeps_synced sid ref) (prepare_run kwargs).
Proof.
  unfold prepare_run. apply respects_bind; [tc_solve| |intros _].
  - intros st [Hsid Hag].
    destruct (begin_run_ok kwargs st)
      as (st0 & ? & ? & ? & -> & (_&_&_&Hs&_) & _ & _ & _ & _ & _ & _ & _ & _
          & _ & _ & Ha).
    split; [by apply Hs|]. cbn. by rewrite Ha.
  - apply respects_bind; [tc_solve| |intros _].
    + unfold read_from_storage, load_workflow_session, extend_artifacts,
        initialize_memory.
      respects_walk; keeps_synced_leaf.
    + unfold update_agent_session_ids.
      apply respects_bind; [tc_solve|by intros ?|intros k].
      apply respects_for_each; [tc_solve|intros fld].
      destruct (isinstance_Agent (f_type fld)).
      * apply keeps_synced_setattr.
      * by intros ?.
Qed.

(** Agents that are attributes of the class, on an instance just built
    with a session id: each of them holds that id, which is the
    workflow's.  The preparation of a run keeps this agreement wherever
    it holds, also when it raises; so on a run made on the new instance
    the agents hold the workflow's session id when the routine is
    called.  For these agents the propagation that
    [update_agent_session_ids] does not perform has been done by
    [__post_init__].  The agents belong to the class: the agreement is
    that of the instance built last, and nothing restores it after
    [new_session]. *)
Theorem class_agents_synced k args ags n dbg kwargs sid ref :
  InitArgs.session_id args = Some sid →
  ref ∈ agent_refs (cls_dict k).*2 →
  synced sid ref (new k args ags n dbg) ∧
  (∀ st, synced sid ref st → synced sid ref (prepare_run kwargs st).2) ∧
  (∀ stp,
     prepare_run kwargs (new k args ags n dbg) = (Ok tt, stp) →
     session_id (self stp) = Some sid ∧
     agents stp !! ref = Some (Agent.mk (Some sid))).
Proof.
  intros Hsid Hin.
  assert (Hnew : synced sid ref (new k args ags n dbg)).
  { unfold new.
    destruct (__init___ok args (mkState unset k ags n dbg LevelInfo []))
      as (w & ags' & -> & _ & _ & Hs & _ & _ & _ & _ & _ & _ & H1 & _).
    split; cbn.
    - by rewrite Hs.
    - rewrite <- Hsid. by apply H1. }
  split_and!.
  - exact Hnew.
  - intros st. apply (keeps_synced_prepare_run sid ref kwargs st).
  - intros stp Hp.
    pose proof (keeps_synced_prepare_run sid ref kwargs (new k args ags n dbg))
      as Hk.
    rewrite Hp in Hk. by apply Hk.
Qed.

(** *** A run that fails before the routine is called *)

Ltac no_error_method_leaf :=
  intros ?;
  cbv [set_storage_mode set_debug set_workflow_id set_session_id
       initialize_memory uuid4 setattr_session_id
       modify_self emit log_warning raise call get_self get_class
       mret M_ret mbind M_bind];
  repeat case_match; simplify_eq; unfold no_error;
  cbn [snd trace st_with_trace st_with_self st_with_agents st_with_uuid_next
       st_with_log_level];
  rewrite ?errors_app; cbn; rewrite ?app_nil_r; done.

Lemma no_error_prepare_run kwargs : respects no_error (prepare_run kwargs).
Proof.
  unfold prepare_run, begin_run, read_from_storage, load_workflow_session,
    extend_artifacts, update_agent_session_ids.
  respects_walk; no_error_method_leaf.
Qed.

(** When the preparation raises (a persisted artifact does not validate,
    or the assignment of the session id to an agent fails), the entry
    point raises the same exception without calling the routine: nothing
    is logged as an error, nothing is upserted, and the run identifier
    drawn for the run stays on the instance. *)
Theorem run_aborts_before_routine kwargs st stp e :
  run_is_run_workflow (self st) = true →
  prepare_run kwargs st = (Raise e, stp) →
  run kwargs st = (Raise e, stp) ∧
  errors (trace stp) = errors (trace st) ∧
  upserts (trace stp) = upserts (trace st) ∧
  is_Some (run_id (self stp)).
Proof.
  intros Hr Hp.
  destruct (prepare_run_prepared kwargs st) as (n & sid & wid & Hprep).
  pose proof (no_error_prepare_run kwargs st) as Hne.
  rewrite Hp in Hprep, Hne. cbn in Hprep, Hne.
  destruct Hprep as (_ & _ & _ & _ & Hrid & _ & _ & _ & _ & _ & Hup).
  rewrite run_eq, run_workflow_eq, Hp by done.
  split_and!; first [done | by eexists].
Qed.

End workflow.

(** ** Worked instances *)

Module Demo.

(** An in-memory storage: sessions by id.  A session without an id is
    not stored. *)
Definition DB : Type := gmap string WorkflowSession.t.

Definition mem_upsert (db : DB) (s : WorkflowSession.t) :
    DB * option WorkflowSession.t :=
  match WorkflowSession.session_id s with
  | Some sid => (<[sid := s]> db, Some s)
  | None => (db, None)
  end.

#[export] Instance mem_backend : Storage.Backend DB := {|
  Storage.read db sid := db !! sid;
  Storage.upsert := mem_upsert;
  Storage.delete_session db sid := delete sid db;
|}.

(** Artifacts as plain values. *)
#[export] Instance value_model : Model value := {|
  model_validate := Some;
  model_dump := id;
|}.

Definition dump_response (r : RunResponse.t) : value :=
  VDict {[ "content" := RunResponse.content r;
           "run_id" := opt_to_value (RunResponse.run_id r);
           "session_id" := opt_to_value (RunResponse.session_id r);
           "workflow_id" := opt_to_value (RunResponse.workflow_id r) ]}.

Definition load_response (v : value) : option RunResponse.t :=
  match v with
  | VDict d =>
      Some (RunResponse.mk (default VNone (d !! "content"))
              (match d !! "run_id" with Some (VStr s) => Some s | _ => None end)
              (match d !! "session_id" with Some (VStr s) => Some s | _ => None end)
              (match d !! "workflow_id" with Some (VStr s) => Some s | _ => None end)
              VNone)
  | _ => None
  end.

#[export] Instance run_model : Model WorkflowRun.t := {|
  model_validate v :=
    match v with
    | VDict d =>
        Some (WorkflowRun.mk
                (match d !! "input" with Some (VDict i) => Some i | _ => None end)
                (d !! "response" ≫= load_response))
    | _ => None
    end;
  model_dump r :=
    VDict {[ "input" := from_option VDict VNone (WorkflowRun.input r);
             "response" := from_option dump_response VNone (WorkflowRun.response r) ]};
|}.

Definition state : Type := @State DB value value value.
Definition class : Type := @ClassDef DB value value value.
Definition workflow : Type := @Workflow DB value value value.

(** [uuid4()] returns ["0"], ["1"], ["2"], ... *)
Definition uuid_of : nat → string := pretty.

Definition response (c : value) : RunResponse.t :=
  RunResponse.mk c None None None VNone.

Definition abc_items : list item :=
  [ItemResponse (response (VStr "a")); ItemResponse (response (VStr "b"));
   ItemResponse (response (VStr "c"))].

Definition with_storage_args : InitArgs.t DB :=
  InitArgs.mk None None None None None None None None
    (Some (Storage.mk "agent" ∅)) None false false true.

(** A dataclass subclass with one field, [agent: Agent = Agent()], whose
    [run] yields three responses. *)
Definition abc_run : workflow → dict → outcome returned :=
  λ _ _, Ok (Iterator (mkIterator abc_items None)).

Definition abc : class :=
  mkClass "Abc" None [("agent", PyAgent 0)]
    [mkField "agent" (PyVal (VStr "Agent")) (PyAgent 0)]
    (Some abc_run).

Definition abc_st : state := new abc with_storage_args {[0 := Agent.mk None]} 0 false.
Definition abc_offline : state := new abc InitArgs.default {[0 := Agent.mk None]} 0 false.

(** A subclass whose [run] returns a single response with content [c]. *)
Definition single_run (c : value) : workflow → dict → outcome returned :=
  λ _ _, Ok (Response (response c)).

Definition single (c : value) : class :=
  mkClass "Single" None [] [] (Some (single_run c)).

Definition single_st (c : value) : state :=
  new (single c) with_storage_args ∅ 0 false.

(** A subclass whose [run] raises. *)
Definition boom_exn : exn := Exn "ValueError" "boom".

Definition boom_run : workflow → dict → outcome returned :=
  λ _ _, Raise boom_exn.

Definition boom : class := mkClass "Boom" None [] [] (Some boom_run).

Definition boom_st : state := new boom with_storage_args ∅ 0 false.

(** A subclass that does not define [run]. *)
Definition plain : class := mkClass "Plain" None [] [] None.

Definition plain_st : state := new plain with_storage_args ∅ 0 false.

(** The state in which the routine of [st] is called. *)
Definition called (st : state) : state := (prepare_run uuid_of ∅ st).2.

Lemma run_streams_and_records_witness :
  ∃ g st1 st2 m session,
    run uuid_of ∅ abc_st = (Ok (ResGenerator g), st1) ∧
    upserts (trace st1) = [] ∧
    exhaust g st1 =
      (Ok [ItemResponse
             (RunResponse.mk (VStr "a") (Some "2") (Some "1") (Some "0") VNone);
           ItemResponse
             (RunResponse.mk (VStr "b") (Some "2") (Some "1") (Some "0") VNone);
           ItemResponse
             (RunResponse.mk (VStr "c") (Some "2") (Some "1") (Some "0") VNone)],
       st2) ∧
    memory (self st2) = Some m ∧
    (WorkflowRun.response <$> WorkflowMemory.runs m) =
      [Some (RunResponse.mk (VStr "abc") (Some "2") (Some "1") (Some "0") VNone)] ∧
    upserts (trace st2) = [StorageUpsert session] ∧
    WorkflowSession.session_id session = Some "1" ∧
    WorkflowSession.workflow_id session = Some "0".
Proof.
  destruct (run_streams_and_records uuid_of ∅ abc_st (called abc_st) abc_run
              abc_items)
    as (g & st1 & st2 & n & sid & wid & m & yielded & session & Hrun & _ & Hrid
        & Hsid & Hwid & Hm & Hmp & Hup & Hy & _ & Hex & Hmem & Hups & _ & Hss
        & Hsw & _); [by vm_compute..|].
  assert (Hst1 : st1 = (run uuid_of ∅ abc_st).2) by (by rewrite Hrun).
  assert (Hr : run_id (self (run uuid_of ∅ abc_st).2) = Some "2")
    by (vm_compute; reflexivity).
  assert (Hs : session_id (self (run uuid_of ∅ abc_st).2) = Some "1")
    by (vm_compute; reflexivity).
  assert (Hw : workflow_id (self (run uuid_of ∅ abc_st).2) = Some "0")
    by (vm_compute; reflexivity).
  assert (Hst : is_Some (storage (self (run uuid_of ∅ abc_st).2)))
    by (vm_compute; eauto).
  assert (Hm0 : memory (self (called abc_st)) = Some (WorkflowMemory.mk []))
    by (vm_compute; reflexivity).
  rewrite Hst1, Hr in Hrid. rewrite Hst1, Hs in Hsid. rewrite Hst1, Hw in Hwid.
  rewrite Hm0 in Hmp.
  injection Hrid as Hn. injection Hsid as Hsi. injection Hwid as Hwi.
  injection Hmp as Hm1.
  rewrite <- Hn, <- Hsi, <- Hwi in Hy. rewrite <- Hsi in Hss.
  rewrite <- Hwi in Hsw.
  rewrite <- Hn, <- Hsi, <- Hwi, <- Hm1 in Hmem.
  rewrite Hy in Hex.
  exists g, st1, st2. eexists. exists session. split_and!.
  - exact Hrun.
  - exact Hup.
  - exact Hex.
  - exact Hmem.
  - reflexivity.
  - rewrite Hups. rewrite Hst1. destruct Hst as [? ->]. reflexivity.
  - exact Hss.
  - exact Hsw.
Defined.

(** Persisted records whose session data hold a state, and an instance
    built with the session state [{"x": 2}]. *)
Definition xy_record : WorkflowSession.t :=
  WorkflowSession.mk (Some "s1") None None None None
    (Some {[ "session_state" := VDict {[ "x" := VInt 1; "y" := VInt 3 ]} ]})
    None.

Definition x_record : WorkflowSession.t :=
  WorkflowSession.mk (Some "s1") None None None None
    (Some {[ "session_state" := VDict {[ "x" := VInt 1 ]} ]}) None.

Definition live_x_args : InitArgs.t DB :=
  InitArgs.mk None None None None None None (Some {[ "x" := VInt 2 ]}) None
    None None false false true.

Definition live_x_st : state := new plain live_x_args ∅ 0 false.

Lemma load_workflow_session_merges_state_witness :
  session_state (self live_x_st) = {[ "x" := VInt 2 ]} ∧
  session_state (self (load_workflow_session xy_record live_x_st).2) =
    {[ "x" := VInt 2; "y" := VInt 3 ]} ∧
  session_state (self plain_st) = ∅ ∧
  session_state (self (load_workflow_session x_record plain_st).2) =
    {[ "x" := VInt 1 ]}.
Proof.
  split_and!.
  - by vm_compute.
  - destruct (load_workflow_session_merges_state xy_record live_x_st)
      as (_ & _ & _ & _ & H & _).
    apply (H _ eq_refl); by vm_compute.
  - by vm_compute.
  - destruct (load_workflow_session_merges_state x_record plain_st)
      as (_ & _ & _ & _ & _ & H).
    apply (H _ eq_refl); by vm_compute.
Defined.

Lemma run_not_implemented_witness :
  run uuid_of ∅ plain_st =
    (Ok ResNone,
     st_with_trace [LogError "Plain.run() method not implemented."] plain_st).
Proof. apply (run_not_implemented uuid_of ∅ plain_st); by vm_compute. Defined.

Lemma storage_unset_is_noop_witness :
  read_from_storage abc_offline = (Ok None, abc_offline) ∧
  write_to_storage abc_offline = (Ok None, abc_offline) ∧
  storage_io (trace (run uuid_of ∅ abc_offline).2) = [].
Proof.
  destruct (storage_unset_is_noop uuid_of ∅ abc_offline)
    as (H1 & H2 & _ & _ & H3 & _); [by vm_compute|].
  split_and!; [exact H1 | exact H2 | exact H3].
Defined.

(** The instance after one streaming run consumed to its end, and after
    two more runs, the first of them not consumed at all. *)
Definition abc_after_one : state := invoke_all uuid_of ([] ++ [(∅, 4)]) abc_st.
Definition abc_after_three : state :=
  invoke_all uuid_of ([(∅, 0)] ++ [(∅, 1)]) abc_after_one.

Lemma run_ids_fresh_ids_stable_witness :
  run_id (self abc_after_three) ≠ run_id (self abc_after_one) ∧
  workflow_id (self abc_after_three) = workflow_id (self abc_after_one) ∧
  session_id (self abc_after_three) = session_id (self abc_after_one).
Proof.
  destruct (run_ids_fresh_ids_stable uuid_of abc_st [] (∅, 4) [(∅, 0)] (∅, 1))
    as (_ & H1 & _ & H2 & _ & H3); [apply _ | by vm_compute |].
  split_and!; [exact H1 | exact H2 | exact H3].
Defined.

Lemma update_agent_session_ids_inert_witness :
  update_agent_session_ids (called abc_st) = (Ok tt, called abc_st).
Proof.
  apply (update_agent_session_ids_inert (called abc_st)).
  intros fld Hf. vm_compute in Hf.
  apply list_elem_of_singleton in Hf as ->. done.
Defined.

(** The failing input of claim C7: an instance of [Abc] built without a
    [session_id].  When its routine is called, the workflow has the
    session id ["1"], the field [agent] holds the Agent object 0, and
    that Agent's [session_id] is still [None]. *)
Lemma agent_session_id_not_propagated :
  prepare_run uuid_of ∅ abc_st = (Ok tt, called abc_st) ∧
  session_id (self (called abc_st)) = Some "1" ∧
  f_value <$> fields (klass (called abc_st)) !! 19 = Some (PyAgent 0) ∧
  Agent.session_id <$> agents (called abc_st) !! 0 = Some None.
Proof. by vm_compute. Qed.

(** A subclass whose [run] is interrupted from the keyboard. *)
Definition interrupt_exn : exn := mkExn "KeyboardInterrupt" "" false.

Definition interrupted_run : workflow → dict → outcome returned :=
  λ _ _, Raise interrupt_exn.

Definition interrupted : class :=
  mkClass "Interrupted" None [] [] (Some interrupted_run).

Definition interrupted_st : state := new interrupted with_storage_args ∅ 0 false.

(** A subclass whose [run] yields two responses and then raises. *)
Definition flaky_items : list item :=
  [ItemResponse (response (VStr "a")); ItemResponse (response (VStr "b"))].

Definition flaky_run : workflow → dict → outcome returned :=
  λ _ _, Ok (Iterator (mkIterator flaky_items (Some boom_exn))).

Definition flaky : class := mkClass "Flaky" None [] [] (Some flaky_run).

Definition flaky_st : state := new flaky with_storage_args ∅ 0 false.

Lemma run_reraises_witness :
  (∃ st1,
     run uuid_of ∅ boom_st = (Raise boom_exn, st1) ∧
     trace st1 =
       trace (called boom_st) ++ [LogError "Workflow.run() failed: boom"] ∧
     memory (self st1) = Some (WorkflowMemory.mk []) ∧
     upserts (trace st1) = []) ∧
  (∃ st1,
     run uuid_of ∅ interrupted_st = (Raise interrupt_exn, st1) ∧
     trace st1 = trace (called interrupted_st) ∧
     upserts (trace st1) = []).
Proof.
  split.
  - destruct (run_reraises uuid_of ∅ boom_st (called boom_st) boom_run)
      as [H _]; [by vm_compute..|].
    destruct (H boom_exn eq_refl) as (st1 & H1 & H2 & _ & H4 & H5).
    exists st1.
    split_and!; [exact H1 | exact H2 | rewrite H4; by vm_compute | exact H5].
  - destruct (run_reraises uuid_of ∅ interrupted_st (called interrupted_st)
                interrupted_run)
      as [H _]; [by vm_compute..|].
    destruct (H interrupt_exn eq_refl) as (st1 & H1 & H2 & _ & _ & H5).
    exists st1. split_and!; [exact H1 | | exact H5].
    rewrite H2. apply app_nil_r.
Defined.

(** Against claim C9 as stated: the routine of [Flaky] raises while its
    sequence is consumed.  The entry point returns a generator, the
    consumer receives the exception, and the log holds no error line.
    Nor does it after the routine of [Interrupted] raised
    [KeyboardInterrupt] in the call. *)
Lemma stream_failure_not_logged :
  (∃ g st1 st3,
     run uuid_of ∅ flaky_st = (Ok (ResGenerator g), st1) ∧
     exhaust g st1 = (Raise boom_exn, st3) ∧
     errors (trace st3) = []) ∧
  (∃ st1,
     run uuid_of ∅ interrupted_st = (Raise interrupt_exn, st1) ∧
     errors (trace st1) = []).
Proof.
  split.
  - exists (mkGenerator (mkIterator flaky_items (Some boom_exn)) false),
      (run uuid_of ∅ flaky_st).2,
      (exhaust (mkGenerator (mkIterator flaky_items (Some boom_exn)) false)
         (run uuid_of ∅ flaky_st).2).2.
    by vm_compute.
  - exists (run uuid_of ∅ interrupted_st).2. by vm_compute.
Qed.

Lemma run_single_response_witness :
  ∃ st1 m,
    run uuid_of ∅ (single_st (VInt 7)) =
      (Ok (ResResponse
             (RunResponse.mk (VInt 7) (Some "2") (Some "1") (Some "0") VNone)),
       st1) ∧
    memory (self st1) = Some m ∧
    (WorkflowRun.response <$> WorkflowMemory.runs m) =
      [Some (RunResponse.mk VNone (Some "2") (Some "1") (Some "0") VNone)].
Proof.
  destruct (run_single_response uuid_of ∅ (single_st (VInt 7))
              (called (single_st (VInt 7))) (single_run (VInt 7))
              (response (VInt 7)))
    as (st1 & n & sid & wid & m & Hrun & Hmp & Hmem & _); [by vm_compute..|].
  assert (Hc : (run uuid_of ∅ (single_st (VInt 7))).1 =
            Ok (ResResponse
                  (RunResponse.mk (VInt 7) (Some "2") (Some "1") (Some "0") VNone)))
    by (vm_compute; reflexivity).
  assert (Hm0 : memory (self (called (single_st (VInt 7)))) =
            Some (WorkflowMemory.mk [])) by (vm_compute; reflexivity).
  rewrite Hrun in Hc. cbn [fst] in Hc. injection Hc as Hn Hs Hw.
  rewrite Hm0 in Hmp. injection Hmp as Hm1.
  rewrite Hn, Hs, Hw in Hrun, Hmem. rewrite <- Hm1 in Hmem.
  exists st1. eexists. split_and!; [exact Hrun | exact Hmem | reflexivity].
Defined.

(** Against claim C10 as stated: the routine returns a response whose
    content is [None].  The returned content is not a string, and yet the
    recorded response has the same content. *)
Lemma recorded_content_equal_for_none :
  ∃ r rr st1 m,
    run uuid_of ∅ (single_st VNone) = (Ok (ResResponse r), st1) ∧
    memory (self st1) = Some m ∧
    (WorkflowRun.response <$> WorkflowMemory.runs m) = [Some rr] ∧
    RunResponse.content rr = RunResponse.content r ∧
    isinstance_str (RunResponse.content r) = false.
Proof.
  exists (RunResponse.mk VNone (Some "2") (Some "1") (Some "0") VNone),
    (RunResponse.mk VNone (Some "2") (Some "1") (Some "0") VNone),
    (run uuid_of ∅ (single_st VNone)).2,
    (WorkflowMemory.mk
       [WorkflowRun.mk (Some ∅)
          (Some (RunResponse.mk VNone (Some "2") (Some "1") (Some "0") VNone))]).
  by vm_compute.
Qed.

(** *** Instances of the further properties *)

Lemma run_stream_raises_witness :
  ∃ g st1 st2 st3,
    run uuid_of ∅ flaky_st = (Ok (ResGenerator g), st1) ∧
    advance 2 g st1 =
      (Ok [ItemResponse
             (RunResponse.mk (VStr "a") (Some "2") (Some "1") (Some "0") VNone);
           ItemResponse
             (RunResponse.mk (VStr "b") (Some "2") (Some "1") (Some "0") VNone)],
       st2) ∧
    exhaust g st1 = (Raise boom_exn, st3) ∧
    memory (self st3) = Some (WorkflowMemory.mk []) ∧
    upserts (trace st3) = [] ∧
    errors (trace st3) = [].
Proof.
  destruct (run_stream_raises uuid_of ∅ flaky_st (called flaky_st) flaky_run
              flaky_items boom_exn)
    as (g & st1 & st2 & st3 & H1 & H2 & H3 & H4 & H5 & H6 & n & sid & wid & _
        & Hrid & Hsid & Hwid & Hst);
    [by vm_compute..|].
  assert (Hst1 : st1 = (run uuid_of ∅ flaky_st).2) by (by rewrite H1).
  assert (Hr : run_id (self (run uuid_of ∅ flaky_st).2) = Some "2")
    by (vm_compute; reflexivity).
  assert (Hs : session_id (self (run uuid_of ∅ flaky_st).2) = Some "1")
    by (vm_compute; reflexivity).
  assert (Hw : workflow_id (self (run uuid_of ∅ flaky_st).2) = Some "0")
    by (vm_compute; reflexivity).
  rewrite Hst1, Hr in Hrid. rewrite Hst1, Hs in Hsid. rewrite Hst1, Hw in Hwid.
  injection Hrid as Hn. injection Hsid as Hsi. injection Hwid as Hwi.
  rewrite Hst, <- Hn, <- Hsi, <- Hwi in H2.
  exists g, st1, st2, st3.
  split_and!; [exact H1 | exact H2 | exact H3 | | exact H5 | exact H6].
  rewrite H4. by vm_compute.
Defined.

Lemma run_stream_abandoned_witness :
  ∃ g st1 st2 rr,
    run uuid_of ∅ abc_st = (Ok (ResGenerator g), st1) ∧
    advance 2 g st1 =
      (Ok [ItemResponse
             (RunResponse.mk (VStr "a") (Some "2") (Some "1") (Some "0") VNone);
           ItemResponse
             (RunResponse.mk (VStr "b") (Some "2") (Some "1") (Some "0") VNone)],
       st2) ∧
    run_response (self st2) = Some rr ∧
    RunResponse.content rr = VStr "ab" ∧
    memory (self st2) = Some (WorkflowMemory.mk []) ∧
    upserts (trace st2) = [].
Proof.
  destruct (run_stream_abandoned uuid_of ∅ abc_st (called abc_st) abc_run
              abc_items None 2)
    as (g & st1 & st2 & rr & H1 & H2 & H3 & H4 & H5 & H6 & n & sid & wid & _
        & Hrid & Hsid & Hwid & Hst);
    [by vm_compute | by vm_compute | by vm_compute | by vm_compute
    | cbn; lia | ].
  assert (Hst1 : st1 = (run uuid_of ∅ abc_st).2) by (by rewrite H1).
  assert (Hr : run_id (self (run uuid_of ∅ abc_st).2) = Some "2")
    by (vm_compute; reflexivity).
  assert (Hs : session_id (self (run uuid_of ∅ abc_st).2) = Some "1")
    by (vm_compute; reflexivity).
  assert (Hw : workflow_id (self (run uuid_of ∅ abc_st).2) = Some "0")
    by (vm_compute; reflexivity).
  rewrite Hst1, Hr in Hrid. rewrite Hst1, Hs in Hsid. rewrite Hst1, Hw in Hwid.
  injection Hrid as Hn. injection Hsid as Hsi. injection Hwid as Hwi.
  rewrite Hst, <- Hn, <- Hsi, <- Hwi in H2.
  exists g, st1, st2, rr.
  split_and!; [exact H1 | exact H2 | exact H3 | exact H4 | | exact H6].
  rewrite H5. by vm_compute.
Defined.

(** A subclass whose [run] returns a number. *)
Definition other_run : workflow → dict → outcome returned :=
  λ _ _, Ok (Other (VInt 3)).

Definition other : class := mkClass "Other" None [] [] (Some other_run).

Definition other_st : state := new other with_storage_args ∅ 0 false.

Lemma run_other_result_witness :
  ∃ st1,
    run uuid_of ∅ other_st = (Ok ResNone, st1) ∧
    trace st1 =
      trace (called other_st) ++
      [LogWarning
         "Workflow.run() should only return RunResponse objects, got: <class 'int'>"] ∧
    upserts (trace st1) = [].
Proof.
  destruct (run_other_result uuid_of ∅ other_st (called other_st) other_run
              (VInt 3))
    as (st1 & H1 & H2 & _ & H4 & _); [by vm_compute..|].
  exists st1. split_and!; [exact H1 | exact H2 | exact H4].
Defined.

(** A persisted record with two images and a session name. *)
Definition pictures_data : dict :=
  {[ "images" := VList [VInt 1; VInt 2]; "session_name" := VStr "holiday" ]}.

Definition pictures : WorkflowSession.t :=
  WorkflowSession.mk (Some "s1") (Some "w1") None None None
    (Some pictures_data) None.

Lemma load_appends_images_witness :
  images (self (load_workflow_session pictures abc_st).2) =
    Some [VInt 1; VInt 2] ∧
  images (self (load_workflow_session pictures
                  (load_workflow_session pictures abc_st).2).2) =
    Some [VInt 1; VInt 2; VInt 1; VInt 2].
Proof.
  assert (H1 : WorkflowSession.session_data pictures = Some pictures_data)
    by reflexivity.
  assert (H2 : pictures_data !! "images" = Some (VList [VInt 1; VInt 2]))
    by (by vm_compute).
  assert (H3 : mapM model_validate [VInt 1; VInt 2] = Some [VInt 1; VInt 2])
    by (by vm_compute).
  pose proof (load_appends_images pictures abc_st _ _ _ H1 H2 H3) as Ha.
  pose proof (load_appends_images pictures
                (load_workflow_session pictures abc_st).2 _ _ _ H1 H2 H3) as Hb.
  rewrite Hb, Ha. by vm_compute.
Defined.

(** A persisted record whose run list is a number. *)
Definition bad_runs : WorkflowSession.t :=
  WorkflowSession.mk (Some "s1") (Some "w1") None
    (Some {[ "runs" := VInt 3 ]}) None None None.

Lemma load_returns_witness :
  (∃ st', load_workflow_session pictures abc_st = (Ok tt, st')) ∧
  (∃ st' msg,
     load_workflow_session bad_runs abc_st = (Ok tt, st') ∧
     last (trace st') =
       Some (LogWarning ("Failed to load runs from memory" ++ msg))).
Proof.
  split.
  - destruct (load_returns pictures abc_st) as (st' & H & _).
    + intros sd l [= <-] Hl. vm_compute in Hl. injection Hl as <-. by eexists.
    + intros sd l [= <-] Hl. by vm_compute in Hl.
    + intros sd l [= <-] Hl. by vm_compute in Hl.
    + by exists st'.
  - destruct (load_returns bad_runs abc_st) as (st' & H & Hw).
    + intros sd l [=].
    + intros sd l [=].
    + intros sd l [=].
    + destruct (Hw {[ "runs" := VInt 3 ]} (VInt 3)) as [msg Hmsg];
        [done | by vm_compute | by vm_compute |].
      by exists st', msg.
Defined.

Lemma snapshot_round_trip_witness :
  session_id (self (load_workflow_session
                      (get_workflow_session (self abc_after_one))
                      abc_offline).2) = Some "1" ∧
  workflow_id (self (load_workflow_session
                       (get_workflow_session (self abc_after_one))
                       abc_offline).2) = Some "0".
Proof.
  destruct (snapshot_round_trip (self abc_after_one) abc_offline)
    as (H1 & _ & H3 & _); [by vm_compute..|].
  split; [rewrite H3 | rewrite H1]; by vm_compute.
Defined.

Lemma rename_spec_witness :
  ∃ st2,
    rename "Renamed" abc_st = (Ok tt, st2) ∧
    name (self st2) = VStr "Renamed" ∧
    length (upserts (trace st2)) = 1.
Proof.
  pose proof (rename_spec "Renamed" abc_st (Ok None) abc_st) as H.
  destruct H as (st2 & H1 & H2 & H3 & _); [by vm_compute|].
  exists st2. split_and!; [exact H1 | exact H2 | by rewrite H3].
Defined.

Lemma rename_session_spec_witness :
  ∃ st2,
    rename_session "Renamed" abc_st = (Ok tt, st2) ∧
    session_name (self st2) = VStr "Renamed" ∧
    length (upserts (trace st2)) = 1.
Proof.
  pose proof (rename_session_spec "Renamed" abc_st (Ok None) abc_st) as H.
  destruct H as (st2 & H1 & H2 & H3 & _); [by vm_compute|].
  exists st2. split_and!; [exact H1 | exact H2 | by rewrite H3].
Defined.

Lemma load_session_without_id_witness :
  load_session false abc_st =
    (Raise (Exn "Exception" "Failed to create new WorkflowSession in storage"),
     written abc_st).
Proof.
  destruct (load_session_without_id false abc_st) as (_ & _ & H);
    [by vm_compute; eexists | by vm_compute..|].
  rewrite H. by vm_compute.
Defined.

Lemma run_reads_then_writes_witness :
  ∃ r st1 session,
    run uuid_of ∅ (single_st (VStr "hi")) = (Ok (ResResponse r), st1) ∧
    storage_io (trace st1) = [StorageRead "1"; StorageUpsert session] ∧
    WorkflowSession.session_id session = Some "1" ∧
    session_id (self st1) = Some "1".
Proof.
  destruct (run_reads_then_writes uuid_of ∅ (single_st (VStr "hi"))
              (called (single_st (VStr "hi"))) (single_run (VStr "hi"))
              (response (VStr "hi")))
    as (r & st1 & sid & session & H1 & H2 & H3 & H4 & _ & H6);
    [by vm_compute | by vm_compute | by vm_compute; eexists
    | by vm_compute | by vm_compute | ].
  assert (Hs : storage_io (trace (called (single_st (VStr "hi")))) =
            [StorageRead "1"]) by (by vm_compute).
  rewrite Hs in H2. injection H2 as <-.
  exists r, st1, session.
  split_and!; [exact H1 | exact H3 | exact H4 | exact H6].
Defined.

Definition with_session_args : InitArgs.t DB :=
  InitArgs.mk None None None None (Some "s1") None None None
    (Some (Storage.mk "workflow" ∅)) None false false true.

Lemma class_agents_synced_witness :
  session_id (self (called (new abc with_session_args {[0 := Agent.mk None]} 0 false))) =
    Some "s1" ∧
  agents (called (new abc with_session_args {[0 := Agent.mk None]} 0 false)) !! 0 =
    Some (Agent.mk (Some "s1")).
Proof.
  destruct (class_agents_synced uuid_of abc with_session_args
              {[0 := Agent.mk None]} 0 false ∅ "s1" 0) as (_ & _ & H).
  - done.
  - vm_compute. by left.
  - apply H. by vm_compute.
Defined.

(** Images that have to be strings. *)
Definition strict_images : Model value := {|
  model_validate v := match v with VStr _ => Some v | _ => None end;
  model_dump := id;
|}.

(** An instance of [Single] with session id ["s1"], over a storage that
    holds the record [pictures] under that id. *)
Definition stored_args : InitArgs.t DB :=
  InitArgs.mk None None None None (Some "s1") None None None
    (Some (Storage.mk "workflow" {[ "s1" := pictures ]})) None false false true.

Definition stored_st : state := new (single (VStr "hi")) stored_args ∅ 0 false.

Lemma run_aborts_before_routine_witness :
  ∃ stp,
    @run DB mem_backend value value value strict_images value_model
      value_model run_model uuid_of ∅ stored_st =
      (Raise (Exn "ValidationError" "validation error"), stp) ∧
    errors (trace stp) = [] ∧
    upserts (trace stp) = [] ∧
    run_id (self stp) = Some "1".
Proof.
  pose proof (@run_aborts_before_routine DB mem_backend value value value
                strict_images value_model value_model run_model uuid_of ∅
                stored_st
                (@prepare_run DB mem_backend value value value strict_images
                   value_model value_model run_model uuid_of ∅ stored_st).2
                (Exn "ValidationError" "validation error")) as H.
  destruct H as (H1 & H2 & H3 & _); [by vm_compute..|].
  eexists. split_and!; [exact H1 | exact H2 | exact H3 | by vm_compute].
Defined.

(** An instance of [Single] with session id ["s1"] over an empty
    storage. *)
Definition fresh_st : state :=
  new (single (VStr "hi")) with_session_args ∅ 0 false.

(** A storage that keeps nothing: it holds no record and hands nothing
    back on an upsert. *)
Definition void_backend : Storage.Backend () := {|
  Storage.read _ _ := None;
  Storage.upsert db _ := (db, None);
  Storage.delete_session db _ := db;
|}.

Definition void_args : InitArgs.t () :=
  InitArgs.mk None None None None (Some "s1") None None None
    (Some (Storage.mk "workflow" ())) None false false true.

Definition void_st : @State () value value value :=
  new (mkClass "Plain" None [] [] None) void_args ∅ 0 false.

Lemma load_session_spec_witness :
  (∃ st1,
     load_session false stored_st = (Ok (Some "s1"), st1) ∧
     storage_io (trace st1) = [StorageRead "s1"]) ∧
  (∃ st1 session,
     load_session false fresh_st = (Ok (Some "s1"), st1) ∧
     storage_io (trace st1) = [StorageRead "s1"; StorageUpsert session] ∧
     WorkflowSession.session_id session = Some "s1" ∧
     workflow_session (self st1) = Some session) ∧
  (∃ st1 session,
     @load_session () void_backend value value value value_model value_model
       value_model run_model false void_st =
       (Raise (Exn "Exception"
                 "Failed to create new WorkflowSession in storage"), st1) ∧
     storage_io (trace st1) = [StorageRead "s1"; StorageUpsert session]).
Proof.
  split_and!.
  - destruct (load_session_spec false stored_st) as (_ & H & _).
    specialize (H (Storage.mk "workflow" {[ "s1" := pictures ]}) "s1").
    assert (Hr : Storage.read
                   (Storage.db (Storage.mk "workflow" {[ "s1" := pictures ]}))
                   "s1" = Some pictures) by (by vm_compute).
    rewrite Hr in H.
    assert (Hnc : ¬ (false = false ∧
                     ∃ ws, workflow_session (self stored_st) = Some ws ∧
                           WorkflowSession.session_id ws = Some "s1")).
    { intros [_ (ws & Hws & _)]. by vm_compute in Hws. }
    destruct (H eq_refl eq_refl Hnc _ _ (surjective_pairing _)) as (H1 & H2 & _).
    eexists. split; [|exact H2].
    rewrite H1. f_equal.
  - destruct (load_session_spec false fresh_st) as (_ & H & _).
    specialize (H (Storage.mk "workflow" ∅) "s1").
    assert (Hr : Storage.read (Storage.db (Storage.mk "workflow" (∅ : DB)))
                   "s1" = None) by (by vm_compute).
    rewrite Hr in H.
    destruct (H eq_refl eq_refl) as (st1 & H1 & H2 & H3 & H4 & _).
    { intros [_ (ws & Hws & _)]. by vm_compute in Hws. }
    exists st1, (get_workflow_session (self fresh_st)).
    split_and!; [| exact H2 | exact H3 | rewrite H4; by vm_compute].
    rewrite H1. f_equal.
  - destruct (@load_session_spec () void_backend value value value value_model
                value_model value_model run_model false void_st)
      as (_ & H & _).
    specialize (H (Storage.mk "workflow" ()) "s1").
    destruct (H eq_refl eq_refl) as (st1 & H1 & H2 & _).
    { intros [_ (ws & Hws & _)]. by vm_compute in Hws. }
    exists st1, (get_workflow_session (self void_st)).
    split; [exact H1 | exact H2].
Defined.

End Demo.
